(** * Retailer SaaS backend: order lifecycle, product guards and dashboard

    A shallow embedding of the request handlers [createOrder] and
    [deleteOrder] of [controllers/orderController.js], [deleteProduct] and
    [toggleProductStatus] of [controllers/productController.js] and
    [getDashboard] of [controllers/retailerController.js].

    The handlers talk to a hosted relational store through a query
    builder.  The store is modelled as explicit state: two tables keyed by
    their primary key, a schedule of failures the store will answer with,
    the journal of the statements it has received and the server console.
    A handler is a state-passing function over that world, written in the
    same order of calls as the JavaScript source. *)

From stdpp Require Import gmap strings list fin_maps sorting pretty.
From Stdlib Require Import ZArith Lia Ascii.

Local Open Scope Z_scope.

(** ** Rows

    Money columns are [DECIMAL(10,2)]; an amount is represented exactly,
    as its number of hundredths.  The primary key of a row is the key of
    the table, the record holds the other columns.  The timestamps the
    store maintains on products are not part of the product model. *)

Record Product := mkProduct {
  p_retailer_id : string;
  p_name : string;
  p_description : option string;
  p_price : Z;
  p_stock : Z;
  p_category : option string;
  p_image_url : option string;
  p_is_active : bool
}.

Record Order := mkOrder {
  o_retailer_id : string;
  o_customer_name : string;
  o_customer_email : option string;
  o_customer_phone : option string;
  o_product_id : string;
  o_quantity : Z;
  o_unit_price : Z;
  o_total_amount : Z;
  o_status : string;
  o_notes : option string;
  o_created_at : Z
}.

(** The object literal handed to [insert]: every column but the key and
    the creation time, which the store supplies. *)
Record NewOrder := mkNewOrder {
  n_retailer_id : string;
  n_customer_name : string;
  n_customer_email : option string;
  n_customer_phone : option string;
  n_product_id : string;
  n_quantity : Z;
  n_unit_price : Z;
  n_total_amount : Z;
  n_status : string;
  n_notes : option string
}.

Definition stored_order (n : NewOrder) (created_at : Z) : Order :=
  mkOrder (n_retailer_id n) (n_customer_name n) (n_customer_email n)
          (n_customer_phone n) (n_product_id n) (n_quantity n)
          (n_unit_price n) (n_total_amount n) (n_status n) (n_notes n)
          created_at.

(** The columns embedded by [products (name, category, image_url)]. *)
Record ProductSummary := mkSummary {
  s_name : string;
  s_category : option string;
  s_image_url : option string
}.

Definition summary_of (p : Product) : ProductSummary :=
  mkSummary (p_name p) (p_category p) (p_image_url p).

Definition set_stock (n : Z) (p : Product) : Product :=
  mkProduct (p_retailer_id p) (p_name p) (p_description p) (p_price p) n
            (p_category p) (p_image_url p) (p_is_active p).

Definition set_is_active (b : bool) (p : Product) : Product :=
  mkProduct (p_retailer_id p) (p_name p) (p_description p) (p_price p)
            (p_stock p) (p_category p) (p_image_url p) b.

(** ** The store *)

(** An error object, as the store client answers it or as the runtime
    throws it: [{ code, message }]; the code is empty when there is none. *)
Record ErrorObj := mkError { err_code : string; err_message : string }.

(** What [.single()] answers when the filter selects no row. *)
Definition PGRST116 : ErrorObj :=
  mkError "PGRST116" "JSON object requested, multiple (or no) rows returned".

(** Reading a property of [null]. *)
Definition TypeError : ErrorObj :=
  mkError "" "Cannot read properties of null".

(** Primary-key violation on insert. *)
Definition unique_violation : ErrorObj :=
  mkError "23505" "duplicate key value violates unique constraint".

(** The statements a handler sends, as the journal records them. *)
Inductive Statement :=
  | SelectProduct (id : string)
  | SelectProductStock (id : string)
  | SelectProductActive (id : string)
  | SelectProductStats (retailer : string)
  | SelectLowStock (retailer : string)
  | InsertOrder (o : NewOrder)
  | UpdateProductStock (id : string) (stock : Z)
  | UpdateProductActive (id : string) (active : bool)
  | DeleteProduct (id : string)
  | SelectOrder (id : string)
  | SelectOrdersOfProduct (product : string)
  | SelectRecentOrders (retailer : string) (since : Z)
  | SelectWeeklyOrders (retailer : string) (since : Z)
  | DeleteOrder (id : string).

Record World := mkWorld {
  products : gmap string Product;
  orders : gmap string Order;
  (** one entry per statement to come: [Some e] makes the store answer
      that statement with [e] and apply nothing; past the end of the
      schedule every statement is executed *)
  faults : list (option ErrorObj);
  (** the key [gen_random_uuid()] draws for the next inserted row *)
  gen_random_uuid : string;
  (** [Date.now()] and the store's [NOW()], in milliseconds since the
      epoch; one request sees one instant *)
  now : Z;
  journal : list Statement;
  console : list (string * ErrorObj)
}.

(** The [{ data, error }] pair every query resolves to. *)
Record Reply (A : Type) := mkReply { data : option A; error : option ErrorObj }.
Arguments mkReply {A} _ _.
Arguments data {A} _.
Arguments error {A} _.

Definition ok {A} (a : A) : Reply A := mkReply (Some a) None.
Definition failed {A} (e : ErrorObj) : Reply A := mkReply None (Some e).

(** State passing over the world. *)
Definition Db (A : Type) : Type := World → A * World.

#[global] Instance db_ret : MRet Db := λ A a w, (a, w).
#[global] Instance db_bind : MBind Db :=
  λ A B k m w, let '(a, w') := m w in k a w'.

Definition set_products (f : gmap string Product → gmap string Product)
    (w : World) : World :=
  mkWorld (f (products w)) (orders w) (faults w) (gen_random_uuid w) (now w)
          (journal w) (console w).

Definition set_orders (f : gmap string Order → gmap string Order)
    (w : World) : World :=
  mkWorld (products w) (f (orders w)) (faults w) (gen_random_uuid w) (now w)
          (journal w) (console w).

(** The failure the store answers the [n]-th statement to come with
    (counting from 0), if any. *)
Definition fault_at (n : nat) (w : World) : option ErrorObj :=
  default None (faults w !! n).

(** The world once statement [s] has reached the store: [s] is journalled
    and its entry of the failure schedule consumed. *)
Definition sent (s : Statement) (w : World) : World :=
  mkWorld (products w) (orders w) (tail (faults w)) (gen_random_uuid w)
          (now w) (journal w ++ [s]) (console w).

Definition send (s : Statement) : Db (option ErrorObj) := λ w,
  (fault_at 0 w, sent s w).

Definition console_error (label : string) (e : ErrorObj) : Db unit := λ w,
  (tt, mkWorld (products w) (orders w) (faults w) (gen_random_uuid w) (now w)
               (journal w) (console w ++ [(label, e)])).

Definition read {A} (f : World → A) : Db A := λ w, (f w, w).
Definition modify (f : World → World) : Db unit := λ w, (tt, f w).

(** [from('products').select('*').eq('id', id).eq('retailer_id', r)
     .eq('is_active', true).single()] *)
Definition select_active_product (id retailer : string) : Db (Reply Product) :=
  flt ← send (SelectProduct id);
  match flt with
  | Some e => mret (failed e)
  | None =>
      row ← read (λ w, products w !! id);
      mret (match row with
            | Some p =>
                if bool_decide (p_retailer_id p = retailer) && p_is_active p
                then ok p else failed PGRST116
            | None => failed PGRST116
            end)
  end.

(** [from('orders').insert([row]).select('*, products (name, category,
     image_url)').single()]: the store draws the key and the creation
    time, and answers with the stored row and the embedded product. *)
Definition insert_order (row : NewOrder)
    : Db (Reply (string * Order * option ProductSummary)) :=
  flt ← send (InsertOrder row);
  match flt with
  | Some e => mret (failed e)
  | None =>
      id ← read gen_random_uuid;
      taken ← read (λ w, orders w !! id);
      match taken with
      | Some _ => mret (failed unique_violation)
      | None =>
          t ← read now;
          let stored := stored_order row t in
          _ ← modify (set_orders (insert id stored));
          p ← read (λ w, products w !! n_product_id row);
          mret (ok (id, stored, summary_of <$> p))
      end
  end.

(** [from('products').update({ stock }).eq('id', id)] *)
Definition update_product_stock (id : string) (stock : Z) : Db (Reply unit) :=
  flt ← send (UpdateProductStock id stock);
  match flt with
  | Some e => mret (failed e)
  | None =>
      _ ← modify (set_products (alter (set_stock stock) id));
      mret (mkReply None None)
  end.

(** ** Rows and summary of the dashboard *)

(** [select('is_active, stock')] *)
Record ProductStatRow := mkProductStat { ps_is_active : bool; ps_stock : Z }.

(** [select('status, total_amount, created_at')]; the store renders the
    creation time as text. *)
Record RecentOrderRow := mkRecent {
  ro_status : string;
  ro_total_amount : Z;
  ro_created_at : string
}.

(** [select('id, name, stock')] *)
Record LowStockRow := mkLowStock { ls_id : string; ls_name : string; ls_stock : Z }.

(** [select('created_at')] *)
Record WeeklyOrderRow := mkWeekly { created_at : string }.

Record ProductStats := mkProductStats {
  ps_total : Z;
  ps_active : Z;
  ps_inactive : Z;
  ps_outOfStock : Z
}.

Record OrderStats := mkOrderStats {
  totalLast30Days : Z;
  os_pending : Z;
  os_delivered : Z;
  revenueLast30Days : string
}.

Record ChartPoint := mkPoint { date : string; orders_on : Z }.

Record Dashboard := mkDashboard {
  store : string;
  productStats : ProductStats;
  orderStats : OrderStats;
  lowStockProducts : option (list LowStockRow);
  weeklyOrderChart : list ChartPoint
}.

(** ** Responses *)

Inductive Payload :=
  | OrderData (id : string) (o : Order) (embedded : option ProductSummary)
  | ProductData (id : string) (p : Product)
  | DashboardData (d : Dashboard).

Record Response := mkResponse {
  status : Z;
  success : bool;
  message : option string;
  payload : option Payload
}.

(** A handler either sends a response or throws. *)
Inductive Outcome (R : Type) :=
  | Sent (r : R)
  | Thrown (e : ErrorObj).
Arguments Sent {R} _.
Arguments Thrown {R} _.

(** ** [createOrder] *)

Record OrderRequest := mkOrderRequest {
  req_retailer : string;
  customer_name : string;
  customer_email : option string;
  customer_phone : option string;
  product_id : string;
  quantity : Z;
  notes : option string
}.

Definition insufficient_stock_message (available requested : Z) : string :=
  "Insufficient stock. Available: " +:+ pretty available +:+
  ", Requested: " +:+ pretty requested.

Definition createOrder (req : OrderRequest) : Db (Outcome Response) :=
  let retailerId := req_retailer req in
  (* Step 1: the product, of this retailer and active *)
  r1 ← select_active_product (product_id req) retailerId;
  match error r1, data r1 with
  | None, Some product =>
      (* Step 2: enough stock? *)
      if bool_decide (p_stock product < quantity req) then
        mret (Sent (mkResponse 400 false
          (Some (insufficient_stock_message (p_stock product) (quantity req)))
          None))
      else
        (* Step 3: total amount *)
        let unitPrice := p_price product in
        let totalAmount := unitPrice * quantity req in
        (* Step 4: the order row *)
        r2 ← insert_order
               (mkNewOrder retailerId (customer_name req) (customer_email req)
                           (customer_phone req) (product_id req)
                           (quantity req) unitPrice totalAmount "pending"
                           (notes req));
        match error r2 with
        | Some orderError => mret (Thrown orderError)
        | None =>
            (* Step 5: the stock *)
            r3 ← update_product_stock (product_id req)
                   (p_stock product - quantity req);
            _ ← match error r3 with
                | Some stockError =>
                    console_error "Stock update failed:" stockError
                | None => mret tt
                end;
            mret (Sent (mkResponse 201 true
              (Some "Order created successfully")
              (match data r2 with
               | Some (id, o, emb) => Some (OrderData id o emb)
               | None => None
               end)))
        end
  | _, _ =>
      mret (Sent (mkResponse 404 false
        (Some "Product not found or not available") None))
  end.

(** The order row [createOrder] hands to the store. *)
Definition order_of_request (req : OrderRequest) (p : Product) : NewOrder :=
  mkNewOrder (req_retailer req) (customer_name req) (customer_email req)
             (customer_phone req) (product_id req) (quantity req)
             (p_price p) (p_price p * quantity req) "pending" (notes req).


(** ** [deleteOrder] *)

(** [from('orders').select('*').eq('id', id).eq('retailer_id', r).single()] *)
Definition select_order (id retailer : string) : Db (Reply Order) :=
  flt ← send (SelectOrder id);
  match flt with
  | Some e => mret (failed e)
  | None =>
      row ← read (λ w, orders w !! id);
      mret (match row with
            | Some o =>
                if bool_decide (o_retailer_id o = retailer)
                then ok o else failed PGRST116
            | None => failed PGRST116
            end)
  end.

(** [from('products').select('stock').eq('id', id).single()] *)
Definition select_product_stock (id : string) : Db (Reply Z) :=
  flt ← send (SelectProductStock id);
  match flt with
  | Some e => mret (failed e)
  | None =>
      row ← read (λ w, products w !! id);
      mret (match row with
            | Some p => ok (p_stock p)
            | None => failed PGRST116
            end)
  end.

(** [from('orders').delete().eq('id', id).eq('retailer_id', r)] *)
Definition delete_order (id retailer : string) : Db (Reply unit) :=
  flt ← send (DeleteOrder id);
  match flt with
  | Some e => mret (failed e)
  | None =>
      row ← read (λ w, orders w !! id);
      _ ← match row with
          | Some o =>
              if bool_decide (o_retailer_id o = retailer)
              then modify (set_orders (delete id)) else mret tt
          | None => mret tt
          end;
      mret (mkReply None None)
  end.

Definition deleteOrder (retailerId id : string) : Db (Outcome Response) :=
  (* the order, to check its status and get the product *)
  r1 ← select_order id retailerId;
  match error r1 with
  | Some fetchError =>
      if bool_decide (err_code fetchError = "PGRST116") then
        mret (Sent (mkResponse 404 false (Some "Order not found") None))
      else mret (Thrown fetchError)
  | None =>
      match data r1 with
      | None => mret (Thrown TypeError)
      | Some order =>
          if negb (bool_decide (o_status order ∈ ["pending"; "cancelled"])) then
            mret (Sent (mkResponse 409 false
              (Some "Only pending or cancelled orders can be deleted") None))
          else
            (* a pending order gives its stock back *)
            _ ← (if bool_decide (o_status order = "pending") then
                   r2 ← select_product_stock (o_product_id order);
                   match error r2, data r2 with
                   | None, Some stock =>
                       _ ← update_product_stock (o_product_id order)
                             (stock + o_quantity order);
                       mret tt
                   | _, _ => mret tt
                   end
                 else mret tt);
            (* the order row *)
            r3 ← delete_order id retailerId;
            match error r3 with
            | Some deleteError => mret (Thrown deleteError)
            | None =>
                mret (Sent (mkResponse 200 true
                  (Some "Order deleted successfully") None))
            end
      end
  end.

(** ** [deleteProduct] *)

(** [from('orders').select('id').eq('product_id', id).limit(1)]: the keys
    of at most one order that references the product. *)
Definition select_orders_of_product (id : string) : Db (Reply (list string)) :=
  flt ← send (SelectOrdersOfProduct id);
  match flt with
  | Some e => mret (failed e)
  | None =>
      rows ← read (λ w, map_to_list (orders w));
      mret (ok (take 1 (fst <$> filter (λ r, o_product_id r.2 = id) rows)))
  end.

(** [from('products').delete().eq('id', id).eq('retailer_id', r)] *)
Definition delete_product (id retailer : string) : Db (Reply unit) :=
  flt ← send (DeleteProduct id);
  match flt with
  | Some e => mret (failed e)
  | None =>
      row ← read (λ w, products w !! id);
      _ ← match row with
          | Some p =>
              if bool_decide (p_retailer_id p = retailer)
              then modify (set_products (delete id)) else mret tt
          | None => mret tt
          end;
      mret (mkReply None None)
  end.

Definition deleteProduct (retailerId id : string) : Db (Outcome Response) :=
  (* does the product have any order? *)
  r1 ← select_orders_of_product id;
  match error r1 with
  | Some orderError => mret (Thrown orderError)
  | None =>
      if match data r1 with
         | Some orders => bool_decide (0 < length orders)%nat
         | None => false
         end
      then
        mret (Sent (mkResponse 409 false
          (Some "Cannot delete product that has existing orders. Consider deactivating it instead.")
          None))
      else
        r2 ← delete_product id retailerId;
        match error r2 with
        | Some e => mret (Thrown e)
        | None =>
            mret (Sent (mkResponse 200 true
              (Some "Product deleted successfully") None))
        end
  end.

(** ** [toggleProductStatus] *)

(** [from('products').select('is_active').eq('id', id)
     .eq('retailer_id', r).single()] *)
Definition select_product_active (id retailer : string) : Db (Reply bool) :=
  flt ← send (SelectProductActive id);
  match flt with
  | Some e => mret (failed e)
  | None =>
      row ← read (λ w, products w !! id);
      mret (match row with
            | Some p =>
                if bool_decide (p_retailer_id p = retailer)
                then ok (p_is_active p) else failed PGRST116
            | None => failed PGRST116
            end)
  end.

(** [from('products').update({ is_active }).eq('id', id)
     .eq('retailer_id', r).select().single()] *)
Definition update_product_active (id retailer : string) (active : bool)
    : Db (Reply (string * Product)) :=
  flt ← send (UpdateProductActive id active);
  match flt with
  | Some e => mret (failed e)
  | None =>
      row ← read (λ w, products w !! id);
      match row with
      | Some p =>
          if bool_decide (p_retailer_id p = retailer) then
            _ ← modify (set_products (insert id (set_is_active active p)));
            mret (ok (id, set_is_active active p))
          else mret (failed PGRST116)
      | None => mret (failed PGRST116)
      end
  end.

Definition toggleProductStatus (retailerId id : string) : Db (Outcome Response) :=
  (* current status *)
  r1 ← select_product_active id retailerId;
  match error r1 with
  | Some fetchError =>
      if bool_decide (err_code fetchError = "PGRST116") then
        mret (Sent (mkResponse 404 false (Some "Product not found") None))
      else mret (Thrown fetchError)
  | None =>
      match data r1 with
      | None => mret (Thrown TypeError)
      | Some is_active =>
          (* toggle *)
          let newStatus := negb is_active in
          r2 ← update_product_active id retailerId newStatus;
          match error r2 with
          | Some e => mret (Thrown e)
          | None =>
              mret (Sent (mkResponse 200 true
                (Some ("Product " +:+
                       (if newStatus then "activated" else "deactivated") +:+
                       " successfully"))
                (match data r2 with
                 | Some (id', p) => Some (ProductData id' p)
                 | None => None
                 end)))
          end
      end
  end.

(** ** Dates

    [new Date(t).toISOString()] renders the instant [t] (milliseconds
    since the epoch) in UTC.  Its calendar date is computed from the day
    number [t / msPerDay] in the proleptic Gregorian calendar, here by
    the era-based day-to-civil conversion; [days_from_civil] is the
    inverse conversion. *)

Definition msPerDay : Z := 24 * 60 * 60 * 1000.

Definition Day (t : Z) : Z := t / msPerDay.

Definition civil_from_days (day : Z) : Z * Z * Z :=
  let z := day + 719468 in
  let era := z / 146097 in
  let doe := z - era * 146097 in
  let yoe := (doe - doe / 1460 + doe / 36524 - doe / 146096) / 365 in
  let y := yoe + era * 400 in
  let doy := doe - (365 * yoe + yoe / 4 - yoe / 100) in
  let mp := (5 * doy + 2) / 153 in
  let d := doy - (153 * mp + 2) / 5 + 1 in
  let m := if mp <? 10 then mp + 3 else mp - 9 in
  (if m <=? 2 then y + 1 else y, m, d).

Definition days_from_civil (c : Z * Z * Z) : Z :=
  let y := if c.1.2 <=? 2 then c.1.1 - 1 else c.1.1 in
  let era := y / 400 in
  let yoe := y - era * 400 in
  let doy := (153 * (if 2 <? c.1.2 then c.1.2 - 3 else c.1.2 + 9) + 2) / 5
             + c.2 - 1 in
  let doe := yoe * 365 + yoe / 4 - yoe / 100 + doy in
  era * 146097 + doe - 719468.

Definition digit (n : Z) : ascii := ascii_of_N (Z.to_N (48 + n)).

Definition pad2 (n : Z) : string :=
  String (digit (n / 10)) (String (digit (n mod 10)) "").

Definition pad3 (n : Z) : string := String (digit (n / 100)) (pad2 (n mod 100)).

Definition pad4 (n : Z) : string := pad2 (n / 100) +:+ pad2 (n mod 100).

(** Years 0 to 9999 take four digits, the others a sign and six. *)
Definition year_string (y : Z) : string :=
  if (0 <=? y) && (y <=? 9999) then pad4 y
  else (if y <? 0 then "-" else "+") +:+ pad2 (Z.abs y / 10000)
       +:+ pad4 (Z.abs y mod 10000).

Definition date_string (c : Z * Z * Z) : string :=
  year_string c.1.1 +:+ "-" +:+ pad2 c.1.2 +:+ "-" +:+ pad2 c.2.

(** The calendar date of the UTC day the instant [t] falls on. *)
Definition iso_date (t : Z) : string := date_string (civil_from_days (Day t)).

Definition iso_time (t : Z) : string :=
  let r := t mod msPerDay in
  pad2 (r / 3600000) +:+ ":" +:+ pad2 (r / 60000 mod 60) +:+ ":" +:+
  pad2 (r / 1000 mod 60) +:+ "." +:+ pad3 (r mod 1000).

Definition toISOString (t : Z) : string :=
  iso_date t +:+ "T" +:+ iso_time t +:+ "Z".

(** The text the store answers for a [TIMESTAMP WITH TIME ZONE] column,
    its session time zone being UTC. *)
Definition timestamptz_text (t : Z) : string :=
  iso_date t +:+ "T" +:+ iso_time t +:+ "+00:00".

(** [s.split('T')[0]]: what precedes the first [T], all of [s] if there
    is none. *)
Fixpoint before_T (s : string) : string :=
  match s with
  | EmptyString => EmptyString
  | String c s' => if Ascii.eqb c "T" then EmptyString else String c (before_T s')
  end.

(** ** The dashboard queries *)

Definition stock_le (a b : string * Product) : Prop := p_stock a.2 ≤ p_stock b.2.
#[global] Instance stock_le_dec : RelDecision stock_le.
Proof. intros a b. unfold stock_le. apply _. Defined.

Definition created_le (a b : string * Order) : Prop :=
  o_created_at a.2 ≤ o_created_at b.2.
#[global] Instance created_le_dec : RelDecision created_le.
Proof. intros a b. unfold created_le. apply _. Defined.

(** The rows each of the four queries selects, as functions of the table;
    rows come in the order the table enumerates them unless the query
    orders them. *)

Definition product_stat_rows (retailer : string) (tbl : gmap string Product)
    : list ProductStatRow :=
  (λ r : string * Product, mkProductStat (p_is_active r.2) (p_stock r.2))
  <$> filter (λ r : string * Product, p_retailer_id r.2 = retailer)
             (map_to_list tbl).

Definition recent (retailer : string) (since : Z) (r : string * Order) : Prop :=
  o_retailer_id r.2 = retailer ∧ since ≤ o_created_at r.2.
#[global] Instance recent_dec retailer since r : Decision (recent retailer since r).
Proof. unfold recent. apply _. Defined.

Definition recent_order_rows (retailer : string) (since : Z)
    (tbl : gmap string Order) : list RecentOrderRow :=
  (λ r : string * Order,
     mkRecent (o_status r.2) (o_total_amount r.2)
              (timestamptz_text (o_created_at r.2)))
  <$> filter (recent retailer since) (map_to_list tbl).

(** What [.eq('retailer_id', r).eq('is_active', true).lte('stock', 5)]
    keeps. *)
Definition low_stock (retailer : string) (r : string * Product) : Prop :=
  p_retailer_id r.2 = retailer ∧ p_is_active r.2 = true ∧ p_stock r.2 ≤ 5.
#[global] Instance low_stock_dec retailer r : Decision (low_stock retailer r).
Proof. unfold low_stock. apply _. Defined.

Definition low_stock_row (r : string * Product) : LowStockRow :=
  mkLowStock r.1 (p_name r.2) (p_stock r.2).

(** The rows kept, in the order [.order('stock', { ascending: true })]
    gives them. *)
Definition low_stock_sorted (retailer : string) (tbl : gmap string Product)
    : list (string * Product) :=
  merge_sort stock_le (filter (low_stock retailer) (map_to_list tbl)).

Definition low_stock_rows (retailer : string) (tbl : gmap string Product)
    : list LowStockRow :=
  low_stock_row <$> take 10 (low_stock_sorted retailer tbl).

Definition weekly_order_rows (retailer : string) (since : Z)
    (tbl : gmap string Order) : list WeeklyOrderRow :=
  (λ r : string * Order, mkWeekly (timestamptz_text (o_created_at r.2)))
  <$> merge_sort created_le
        (filter (recent retailer since) (map_to_list tbl)).

(** [from('products').select('is_active, stock').eq('retailer_id', r)] *)
Definition select_product_stats (retailer : string)
    : Db (Reply (list ProductStatRow)) :=
  flt ← send (SelectProductStats retailer);
  match flt with
  | Some e => mret (failed e)
  | None =>
      rows ← read (λ w, product_stat_rows retailer (products w));
      mret (ok rows)
  end.

(** [from('orders').select('status, total_amount, created_at')
     .eq('retailer_id', r).gte('created_at', since)] *)
Definition select_recent_orders (retailer : string) (since : Z)
    : Db (Reply (list RecentOrderRow)) :=
  flt ← send (SelectRecentOrders retailer since);
  match flt with
  | Some e => mret (failed e)
  | None =>
      rows ← read (λ w, recent_order_rows retailer since (orders w));
      mret (ok rows)
  end.

(** [from('products').select('id, name, stock').eq('retailer_id', r)
     .eq('is_active', true).lte('stock', 5)
     .order('stock', { ascending: true }).limit(10)] *)
Definition select_low_stock (retailer : string) : Db (Reply (list LowStockRow)) :=
  flt ← send (SelectLowStock retailer);
  match flt with
  | Some e => mret (failed e)
  | None =>
      rows ← read (λ w, low_stock_rows retailer (products w));
      mret (ok rows)
  end.

(** [from('orders').select('created_at').eq('retailer_id', r)
     .gte('created_at', since).order('created_at', { ascending: true })] *)
Definition select_weekly_orders (retailer : string) (since : Z)
    : Db (Reply (list WeeklyOrderRow)) :=
  flt ← send (SelectWeeklyOrders retailer since);
  match flt with
  | Some e => mret (failed e)
  | None =>
      rows ← read (λ w, weekly_order_rows retailer since (orders w));
      mret (ok rows)
  end.

(** ** Numbers

    A JavaScript number is an IEEE 754 binary64 value.  The model has the
    finite ones: a number is [mantissa * 2 ^ exponent], and zero is
    [0 * 2 ^ 0]; sums that start from 0 never give the negative zero.  It
    has no infinity and no NaN, which take a magnitude of [2 ^ 1024] to
    reach, and it renders the numbers below [10 ^ 21], where [toFixed]
    does not yet switch to the exponent notation: the money columns are
    [DECIMAL(10,2)]. *)

Record Double := mkDouble { mantissa : Z; exponent : Z }.

Definition zero : Double := mkDouble 0 0.

(** The [k] with [2 ^ k ≤ n / d < 2 ^ (k + 1)], for positive [n] and
    [d]. *)
Definition floor_log2 (n d : Z) : Z :=
  let k := Z.log2 n - Z.log2 d in
  if n * 2 ^ Z.max 0 (- k) <? d * 2 ^ Z.max 0 k then k - 1 else k.

(** [n / d] rounded to an integer, a tie going to the even one. *)
Definition round_half_even (n d : Z) : Z :=
  let q := n / d in
  match 2 * (n mod d) ?= d with
  | Lt => q
  | Gt => q + 1
  | Eq => if Z.even q then q else q + 1
  end.

(** The number nearest to [n / d], for positive [d]: 53 bits of
    mantissa, the exponent not below -1074, a tie going to the even
    mantissa. *)
Definition binary64 (n d : Z) : Double :=
  if n =? 0 then zero
  else
    let e := Z.max (floor_log2 (Z.abs n) d - 52) (-1074) in
    let m := round_half_even (n * 2 ^ Z.max 0 (- e)) (d * 2 ^ Z.max 0 e) in
    if m =? 0 then zero else mkDouble m e.

(** [x + y]: the exact sum, rounded. *)
Definition add (x y : Double) : Double :=
  let e := Z.min (exponent x) (exponent y) in
  let m := mantissa x * 2 ^ (exponent x - e)
           + mantissa y * 2 ^ (exponent y - e) in
  binary64 (m * 2 ^ Z.max 0 e) (2 ^ Z.max 0 (- e)).

(** The number the client reads from the JSON text of a [DECIMAL(10,2)]
    value, held in hundredths. *)
Definition JSON_number (hundredths : Z) : Double := binary64 hundredths 100.

(** [parseFloat(x)] of a number: the text of [x] read back, which is
    [x]. *)
Definition parseFloat (x : Double) : Double := x.

(** [x || 0] on a number. *)
Definition or_zero (x : Double) : Double :=
  if mantissa x =? 0 then zero else x.

(** [x.toFixed(2)]: the integer [n] for which [n / 100] is nearest to
    the magnitude of [x], the larger one on a tie, written with a point
    before its last two digits, and a minus sign for a negative [x]. *)
Definition toFixed2 (x : Double) : string :=
  let a := Z.abs (mantissa x) in
  let n := if 0 <=? exponent x then 100 * a * 2 ^ exponent x
           else (200 * a + 2 ^ (- exponent x)) / 2 ^ (1 - exponent x) in
  (if mantissa x <? 0 then "-" else "") +:+ pretty (n / 100) +:+ "." +:+
  pad2 (n mod 100).

(** ** The dashboard summary *)

Definition count {A} (P : A → Prop) `{∀ x, Decision (P x)} (l : list A) : Z :=
  Z.of_nat (length (filter P l)).

(** [recentOrders.filter(o => o.status === 'delivered')
     .reduce((sum, order) => sum + parseFloat(order.total_amount || 0), 0)] *)
Definition totalRevenue (recentOrders : list RecentOrderRow) : Double :=
  foldl (λ sum order,
           add sum (parseFloat (or_zero (JSON_number (ro_total_amount order)))))
        zero
        (filter (λ o, ro_status o = "delivered") recentOrders).

(** A plain object with string keys that are not array indices: its own
    properties in insertion order. *)
Definition JsObject : Type := list (string * Z).

Fixpoint obj_set (k : string) (v : Z) (o : JsObject) : JsObject :=
  match o with
  | [] => [(k, v)]
  | (k', v') :: o' =>
      if bool_decide (k' = k) then (k, v) :: o' else (k', v') :: obj_set k v o'
  end.

Fixpoint obj_get (k : string) (o : JsObject) : option Z :=
  match o with
  | [] => None
  | (k', v') :: o' => if bool_decide (k' = k) then Some v' else obj_get k o'
  end.

Definition hasOwnProperty (k : string) (o : JsObject) : bool :=
  bool_decide (is_Some (obj_get k o)).

Definition keys (o : JsObject) : list string := fst <$> o.

(** [for (let i = 6; i >= 0; i--) {
       const date = new Date(Date.now() - i * 24 * 60 * 60 * 1000);
       dailyOrders[date.toISOString().split('T')[0]] = 0; }]
    The clock is read anew in each turn of the loop: [Date_now k] is
    what it gives in turn [k], the turn of [i = 6] being turn 0. *)
Definition seed_days (Date_now : nat → Z) : JsObject :=
  foldl (λ dailyOrders i,
           let date :=
             Date_now (6 - i)%nat - Z.of_nat i * (24 * 60 * 60 * 1000) in
           obj_set (before_T (toISOString date)) 0 dailyOrders)
        [] [6; 5; 4; 3; 2; 1; 0]%nat.

(** [weeklyOrders.forEach(order => { ... dailyOrders[dateString]++ })] *)
Definition tally (dailyOrders : JsObject) (weeklyOrders : list WeeklyOrderRow)
    : JsObject :=
  foldl (λ dailyOrders order,
           let dateString := before_T (created_at order) in
           if hasOwnProperty dateString dailyOrders
           then obj_set dateString
                  (default 0 (obj_get dateString dailyOrders) + 1) dailyOrders
           else dailyOrders)
        dailyOrders weeklyOrders.

(** [Object.keys(dailyOrders).map(date => ({ date, orders: dailyOrders[date] }))] *)
Definition chartData (Date_now : nat → Z) (weeklyOrders : list WeeklyOrderRow)
    : list ChartPoint :=
  let dailyOrders := tally (seed_days Date_now) weeklyOrders in
  (λ date, mkPoint date (default 0 (obj_get date dailyOrders)))
  <$> keys dailyOrders.

(** What follows the four answers; [Date_now] is the clock of the
    seeding loop. *)
Definition summarize (retailer : string) (Date_now : nat → Z)
    (productStats : list ProductStatRow) (recentOrders : list RecentOrderRow)
    (lowStockProducts : option (list LowStockRow))
    (weeklyOrders : list WeeklyOrderRow)
    : Dashboard :=
  let totalProducts := Z.of_nat (length productStats) in
  let activeProducts := count (λ p, ps_is_active p = true) productStats in
  let inactiveProducts := totalProducts - activeProducts in
  let outOfStock := count (λ p, ps_stock p = 0) productStats in
  let totalOrders := Z.of_nat (length recentOrders) in
  let pendingOrders := count (λ o, ro_status o = "pending") recentOrders in
  let deliveredOrders := count (λ o, ro_status o = "delivered") recentOrders in
  mkDashboard retailer
    (mkProductStats totalProducts activeProducts inactiveProducts outOfStock)
    (mkOrderStats totalOrders pendingOrders deliveredOrders
                  (toFixed2 (totalRevenue recentOrders)))
    lowStockProducts
    (chartData Date_now weeklyOrders).

(** ** [getDashboard]

    The handler reads the clock nine times: once for each of the two
    windows while it builds the four queries, then once in each of the
    seven turns of the seeding loop.  [Date_now k] is the value of its
    call number [k] to [Date.now()], counted from 0. *)

(** [catch (error) { console.error('Dashboard error:', error); throw error }] *)
Definition rethrow (e : ErrorObj) : Db (Outcome Response) :=
  _ ← console_error "Dashboard error:" e;
  mret (Thrown e).

Definition getDashboard (Date_now : nat → Z) (retailerId : string)
    : Db (Outcome Response) :=
  r1 ← select_product_stats retailerId;
  r2 ← select_recent_orders retailerId (Date_now 0%nat - 30 * msPerDay);
  r3 ← select_low_stock retailerId;
  r4 ← select_weekly_orders retailerId (Date_now 1%nat - 7 * msPerDay);
  match error r1, error r2, error r3, error r4 with
  | Some productError, _, _, _ => rethrow productError
  | None, Some orderError, _, _ => rethrow orderError
  | None, None, Some lowStockError, _ => rethrow lowStockError
  | None, None, None, Some weeklyError => rethrow weeklyError
  | None, None, None, None =>
      match data r1, data r2, data r4 with
      | Some productStats, Some recentOrders, Some weeklyOrders =>
          mret (Sent (mkResponse 200 true None
            (Some (DashboardData
               (summarize retailerId (λ turn, Date_now (2 + turn)%nat)
                          productStats recentOrders (data r3)
                          weeklyOrders)))))
      | _, _, _ => rethrow TypeError
      end
  end.

(** ** The dashboard of a healthy store *)

(** The dashboard a store that executes every statement answers with. *)
Definition dashboard_of (Date_now : nat → Z) (retailerId : string) (w : World)
    : Dashboard :=
  summarize retailerId (λ turn, Date_now (2 + turn)%nat)
    (product_stat_rows retailerId (products w))
    (recent_order_rows retailerId (Date_now 0%nat - 30 * msPerDay) (orders w))
    (Some (low_stock_rows retailerId (products w)))
    (weekly_order_rows retailerId (Date_now 1%nat - 7 * msPerDay) (orders w)).

(** A clock that does not move while the request is handled. *)
Definition frozen (t : Z) : nat → Z := λ _, t.

(** ** The wording of the specification

    The definitions of this section follow the specification, not the
    source; the theorems compare the handlers with them. *)

(** "the sum of total amount over delivered orders only", in
    hundredths *)
Fixpoint delivered_total (fetched : list RecentOrderRow) : Z :=
  match fetched with
  | [] => 0
  | o :: rest =>
      (if bool_decide (ro_status o = "delivered") then ro_total_amount o else 0)
      + delivered_total rest
  end.

(** "formatted to 2 decimal places", of an amount in hundredths *)
Definition two_decimals (amount : Z) : string :=
  (if amount <? 0 then "-" else "") +:+ pretty (Z.abs amount / 100) +:+ "." +:+
  pad2 (Z.abs amount mod 100).

(** The same sum in the numbers of the language: from the first fetched
    row to the last, each delivered amount added to the sum so far and
    the result rounded. *)
Fixpoint delivered_sum (sum : Double) (fetched : list RecentOrderRow) : Double :=
  match fetched with
  | [] => sum
  | o :: rest =>
      delivered_sum
        (if bool_decide (ro_status o = "delivered")
         then add sum (JSON_number (ro_total_amount o)) else sum)
        rest
  end.

(** "the 10 lowest-stock active products (ascending by stock, capped at
    10)" *)
Definition active_of (retailer : string) (r : string * Product) : Prop :=
  p_retailer_id r.2 = retailer ∧ p_is_active r.2 = true.
#[global] Instance active_of_dec retailer r : Decision (active_of retailer r).
Proof. unfold active_of. apply _. Defined.

Definition ten_lowest_stock_active (retailer : string)
    (tbl : gmap string Product) : list LowStockRow :=
  low_stock_row
  <$> take 10 (merge_sort stock_le
                 (filter (active_of retailer) (map_to_list tbl))).

(** "exactly 7 entries, one per calendar day ending today, ordered oldest
    to newest": the dates of the seven UTC days that end on the day of
    the instant [today]. *)
Definition week_ending (today : Z) : list string :=
  (λ i, iso_date (today - i * msPerDay)) <$> [6; 5; 4; 3; 2; 1; 0].

(** The instants whose year takes four digits in [toISOString]: from
    0000-01-01T00:00:00.000Z to 9999-12-31T23:59:59.999Z. *)
Definition four_digit_year (t : Z) : Prop :=
  -62167219200000 ≤ t < 253402300800000.

(** How many of the fetched rows carry the date [d] before the [T] of
    their creation time. *)
Definition orders_dated (d : string) (weeklyOrders : list WeeklyOrderRow) : Z :=
  count (λ o, before_T (created_at o) = d) weeklyOrders.
(** ** Sample worlds *)

Definition shop0 : World :=
  mkWorld {[ "p1" := mkProduct "r1" "Mug" None 10000 20 (Some "kitchen") None true ]}
          ∅ [] "o1" 1700000000000 [] [].
Definition buy (q : Z) : OrderRequest :=
  mkOrderRequest "r1" "Ada" None None "p1" q None.

Definition shop0_order : Order :=
  mkOrder "r1" "Ada" None None "p1" 2 10000 20000 "pending" None 1700000000000.

Definition shop0_created : Response :=
  mkResponse 201 true (Some "Order created successfully")
    (Some (OrderData "o1" shop0_order (Some (mkSummary "Mug" (Some "kitchen") None)))).

Definition timeout_error : ErrorObj := mkError "" "fetch failed".

Definition shop0_flaky : World :=
  mkWorld (products shop0) (orders shop0) [None; None; Some timeout_error]
          "o1" 1700000000000 [] [].


(** A shop with one order per status of interest, all of product [p1]. *)
Definition mug : Product :=
  mkProduct "r1" "Mug" None 10000 18 (Some "kitchen") None true.

Definition order_with (st : string) (q : Z) : Order :=
  mkOrder "r1" "Ada" None None "p1" q 10000 (10000 * q) st None 1700000000000.

Definition shop1 : World :=
  mkWorld {[ "p1" := mug ]}
          (<["o1" := order_with "pending" 2]>
             (<["o2" := order_with "cancelled" 1]>
                (<["o3" := order_with "delivered" 3]>
                   (<["o4" := order_with "shipped" 1]> ∅))))
          [] "o9" 1700000000000 [] [].

(** The same shop when the store answers the second statement with an
    error. *)
Definition shop1_flaky : World :=
  mkWorld (products shop1) (orders shop1) [None; Some timeout_error]
          "o9" 1700000000000 [] [].

(** The same shop when the store answers the third statement, the write
    of the restored stock, with an error. *)
Definition shop1_no_restore : World :=
  mkWorld (products shop1) (orders shop1) [None; None; Some timeout_error]
          "o9" 1700000000000 [] [].

(** A pending order whose product is not in the products table. *)
Definition shop_dangling : World :=
  mkWorld ∅ {[ "o1" := order_with "pending" 2 ]} [] "o9" 1700000000000 [] [].

(** A second product, which no order references, and a product of
    another retailer. *)
Definition shop2 : World :=
  mkWorld (<["p2" := mkProduct "r1" "Bowl" None 2500 0 None None false]>
             (<["p3" := mkProduct "r2" "Lamp" None 9900 4 None None true]>
                (products shop1)))
          (orders shop1) [] "o9" 1700000000000 [] [].

(** Orders of retailer [r1] over the last months, seen on 2023-11-14. *)
Definition shop3 : World :=
  mkWorld (products shop2)
    (<["a" := mkOrder "r1" "Ada" None None "p1" 1 10000 10000 "delivered" None 1699990000000]>
    (<["b" := mkOrder "r1" "Bob" None None "p1" 1 10055 10055 "delivered" None 1699900000000]>
    (<["c" := mkOrder "r1" "Cy" None None "p1" 9 11111 99999 "pending" None 1699800000000]>
    (<["d" := mkOrder "r1" "Di" None None "p1" 1 10000 10000 "delivered" None 1690000000000]>
       ∅))))
    [] "o9" 1700000000000 [] [].

(** Rows of a weekly fetch on 2023-11-14: two orders on the 12th, one on
    the 14th and one older than the window. *)
Definition week_rows : list WeeklyOrderRow :=
  [mkWeekly "2023-11-01T10:00:00+00:00"; mkWeekly "2023-11-12T14:40:00+00:00";
   mkWeekly "2023-11-12T23:59:59.5+00:00"; mkWeekly "2023-11-14T00:00:00+00:00"].

(** A clock that passes midnight, 2023-11-15T00:00:00.000Z, after its
    first reading. *)
Definition midnight_clock : nat → Z :=
  λ k, match k with
       | O => 1700006400000 - 1
       | S _ => 1700006400000
       end.

(** * The rest of the order, product and retailer controllers

    The statements of the handlers below that have no constructor in
    [Statement] reach the store through [send_unlisted]: they take their
    entry of the failure schedule like any other statement, and leave no
    entry in the journal. *)

Definition send_unlisted : Db (option ErrorObj) := λ w,
  (fault_at 0 w,
   mkWorld (products w) (orders w) (tail (faults w)) (gen_random_uuid w)
           (now w) (journal w) (console w)).

(** The JSON body of the answers that carry something else than an order,
    a product or a dashboard. *)
Record Answer (D : Type) := mkAnswer {
  a_status : Z;
  a_success : bool;
  a_message : option string;
  a_data : option D
}.
Arguments mkAnswer {D} _ _ _ _.
Arguments a_status {D} _.
Arguments a_success {D} _.
Arguments a_message {D} _.
Arguments a_data {D} _.

(** ** [updateOrderStatus] *)

(** [updateData]: [{ status }], with [notes] when the body has it
    ([None] is [undefined], [Some None] is [null]). *)
Definition apply_updateData (status : string) (notes : option (option string))
    (o : Order) : Order :=
  mkOrder (o_retailer_id o) (o_customer_name o) (o_customer_email o)
          (o_customer_phone o) (o_product_id o) (o_quantity o)
          (o_unit_price o) (o_total_amount o) status
          (match notes with Some n => n | None => o_notes o end)
          (o_created_at o).

(** [from('orders').update(updateData).eq('id', id).eq('retailer_id', r)
     .select('*, products (name, category, image_url)').single()] *)
Definition update_order (id retailer : string) (status : string)
    (notes : option (option string))
    : Db (Reply (string * Order * option ProductSummary)) :=
  flt ← send_unlisted;
  match flt with
  | Some e => mret (failed e)
  | None =>
      row ← read (λ w, orders w !! id);
      match row with
      | Some o =>
          if bool_decide (o_retailer_id o = retailer) then
            let o' := apply_updateData status notes o in
            _ ← modify (set_orders (insert id o'));
            p ← read (λ w, products w !! o_product_id o');
            mret (ok (id, o', summary_of <$> p))
          else mret (failed PGRST116)
      | None => mret (failed PGRST116)
      end
  end.

Definition updateOrderStatus (retailerId id : string) (status : string)
    (notes : option (option string)) : Db (Outcome Response) :=
  r ← update_order id retailerId status notes;
  match error r with
  | Some e =>
      if bool_decide (err_code e = "PGRST116") then
        mret (Sent (mkResponse 404 false (Some "Order not found") None))
      else mret (Thrown e)
  | None =>
      mret (Sent (mkResponse 200 true (Some "Order updated successfully")
        (match data r with
         | Some (id', o, emb) => Some (OrderData id' o emb)
         | None => None
         end)))
  end.

(** ** [getOrder] *)

(** The columns embedded by [products (name, category, image_url,
    description)]. *)
Record ProductDetail := mkDetail {
  d_name : string;
  d_category : option string;
  d_image_url : option string;
  d_description : option string
}.

Definition detail_of (p : Product) : ProductDetail :=
  mkDetail (p_name p) (p_category p) (p_image_url p) (p_description p).

(** [from('orders').select('*, products (name, category, image_url,
     description)').eq('id', id).eq('retailer_id', r).single()] *)
Definition select_order_detail (id retailer : string)
    : Db (Reply (string * Order * option ProductDetail)) :=
  flt ← send (SelectOrder id);
  match flt with
  | Some e => mret (failed e)
  | None =>
      row ← read (λ w, orders w !! id);
      match row with
      | Some o =>
          if bool_decide (o_retailer_id o = retailer) then
            p ← read (λ w, products w !! o_product_id o);
            mret (ok (id, o, detail_of <$> p))
          else mret (failed PGRST116)
      | None => mret (failed PGRST116)
      end
  end.

Definition getOrder (retailerId id : string)
    : Db (Outcome (Answer (string * Order * option ProductDetail))) :=
  r ← select_order_detail id retailerId;
  match error r with
  | Some e =>
      if bool_decide (err_code e = "PGRST116") then
        mret (Sent (mkAnswer 404 false (Some "Order not found") None))
      else mret (Thrown e)
  | None => mret (Sent (mkAnswer 200 true None (data r)))
  end.

(** ** [getOrderStats] *)

Record StatusCounts := mkCounts {
  c_total : Z;
  c_pending : Z;
  c_confirmed : Z;
  c_processing : Z;
  c_shipped : Z;
  c_delivered : Z;
  c_cancelled : Z
}.

Record OrderStatsData := mkStatsData {
  sd_orderStats : StatusCounts;
  sd_totalRevenue : string
}.

Definition of_retailer (retailer : string) (r : string * Order) : Prop :=
  o_retailer_id r.2 = retailer.
#[global] Instance of_retailer_dec retailer r : Decision (of_retailer retailer r).
Proof. unfold of_retailer. apply _. Defined.

Definition delivered_of (retailer : string) (r : string * Order) : Prop :=
  o_retailer_id r.2 = retailer ∧ o_status r.2 = "delivered".
#[global] Instance delivered_of_dec retailer r : Decision (delivered_of retailer r).
Proof. unfold delivered_of. apply _. Defined.

(** [from('orders').select('status').eq('retailer_id', r)] *)
Definition select_statuses (retailer : string) : Db (Reply (list string)) :=
  flt ← send_unlisted;
  match flt with
  | Some e => mret (failed e)
  | None =>
      rows ← read (λ w, map_to_list (orders w));
      mret (ok ((λ r : string * Order, o_status r.2)
                <$> filter (of_retailer retailer) rows))
  end.

(** [from('orders').select('total_amount').eq('retailer_id', r)
     .eq('status', 'delivered')] *)
Definition select_delivered_amounts (retailer : string) : Db (Reply (list Z)) :=
  flt ← send_unlisted;
  match flt with
  | Some e => mret (failed e)
  | None =>
      rows ← read (λ w, map_to_list (orders w));
      mret (ok ((λ r : string * Order, o_total_amount r.2)
                <$> filter (delivered_of retailer) rows))
  end.

(** [statusStats.filter(o => o.status === s).length] for each of the six
    statuses *)
Definition status_counts (statusStats : list string) : StatusCounts :=
  mkCounts (Z.of_nat (length statusStats))
           (count (λ s, s = "pending") statusStats)
           (count (λ s, s = "confirmed") statusStats)
           (count (λ s, s = "processing") statusStats)
           (count (λ s, s = "shipped") statusStats)
           (count (λ s, s = "delivered") statusStats)
           (count (λ s, s = "cancelled") statusStats).

Definition getOrderStats (retailerId : string)
    : Db (Outcome (Answer OrderStatsData)) :=
  r1 ← select_statuses retailerId;
  match error r1, data r1 with
  | Some statusError, _ => mret (Thrown statusError)
  | None, None => mret (Thrown TypeError)
  | None, Some statusStats =>
      let stats := status_counts statusStats in
      r2 ← select_delivered_amounts retailerId;
      match error r2, data r2 with
      | Some revenueError, _ => mret (Thrown revenueError)
      | None, None => mret (Thrown TypeError)
      | None, Some revenueData =>
          let totalRevenue :=
            foldl (λ sum total_amount,
                     add sum (parseFloat (JSON_number total_amount)))
                  zero revenueData in
          mret (Sent (mkAnswer 200 true None
            (Some (mkStatsData stats (toFixed2 totalRevenue)))))
      end
  end.

(** The six values [validateOrderStatus] lets through. *)
Definition order_statuses : list string :=
  ["pending"; "confirmed"; "processing"; "shipped"; "delivered"; "cancelled"].

(** ** Constraints of the schema the handlers keep

    [CHECK (stock >= 0)] on products and [CHECK (quantity > 0)] on
    orders. *)
Definition checks_hold (w : World) : Prop :=
  (∀ id p, products w !! id = Some p → 0 ≤ p_stock p)
  ∧ (∀ id o, orders w !! id = Some o → 0 < o_quantity o).

(** The rows of a table that belong to other retailers than [retailer] are
    the same in [m] and [m']. *)
Definition same_rows_of_others {A} (owner : A → string) (retailer : string)
    (m m' : gmap string A) : Prop :=
  ∀ k x, owner x ≠ retailer → (m' !! k = Some x ↔ m !! k = Some x).

(** What [getOrderStats] answers with when the store executes its two
    statements. *)
Definition order_stats_of (retailerId : string) (tbl : gmap string Order)
    : OrderStatsData :=
  mkStatsData
    (status_counts ((λ r : string * Order, o_status r.2)
                    <$> filter (of_retailer retailerId) (map_to_list tbl)))
    (toFixed2
       (foldl (λ sum total_amount,
                 add sum (parseFloat (JSON_number total_amount)))
              zero
          ((λ r : string * Order, o_total_amount r.2)
           <$> filter (delivered_of retailerId) (map_to_list tbl)))).

(** The sum of the six status counts. *)
Definition six_counts (c : StatusCounts) : Z :=
  c_pending c + c_confirmed c + c_processing c + c_shipped c + c_delivered c
  + c_cancelled c.

(** The first error among the answers to the four statements of
    [getDashboard], in the order the handler tests them. *)
Definition first_dashboard_error (w : World) : option ErrorObj :=
  match fault_at 0 w, fault_at 1 w, fault_at 2 w, fault_at 3 w with
  | Some productError, _, _, _ => Some productError
  | None, Some orderError, _, _ => Some orderError
  | None, None, Some lowStockError, _ => Some lowStockError
  | None, None, None, weeklyError => weeklyError
  end.

(** The sum of the counts of a chart. *)
Definition chart_total (chart : list ChartPoint) : Z :=
  foldr (λ pt total, orders_on pt + total) 0 chart.

(** ** [errorHandler] and [asyncHandler] *)

(** What the error middleware reads of the value it is handed: [code],
    [type], [name], [statusCode], [message] and [errors]; a string is
    empty, and the status code 0, when the property is absent. *)
Record Failure := mkFailure {
  f_code : string;
  f_type : string;
  f_name : string;
  f_statusCode : Z;
  f_message : string;
  f_errors : list string
}.

(** The JSON body of an error answer; its [statusCode] is also the HTTP
    status. *)
Record ErrorBody := mkErrorBody {
  e_success : bool;
  e_message : string;
  e_statusCode : Z;
  e_errors : option (list string)
}.

(** The [error] object [errorHandler] builds and sends. *)
Definition error_response (err : Failure) : ErrorBody :=
  (* default *)
  let error := mkErrorBody false "Internal Server Error" 500 None in
  (* errors of the store *)
  let error :=
    if bool_decide (f_code err ≠ "") then
      if bool_decide (f_code err = "23505") then
        mkErrorBody false "Resource already exists" 409 (e_errors error)
      else if bool_decide (f_code err = "23503") then
        mkErrorBody false "Invalid reference - related resource not found" 400
                    (e_errors error)
      else if bool_decide (f_code err = "23502") then
        mkErrorBody false "Required field is missing" 400 (e_errors error)
      else mkErrorBody false "Database operation failed" 400 (e_errors error)
    else error in
  (* validation errors *)
  let error :=
    if bool_decide (f_type err = "validation") then
      mkErrorBody false "Validation failed" 400 (Some (f_errors err))
    else error in
  (* token errors *)
  let error :=
    if bool_decide (f_name err = "JsonWebTokenError") then
      mkErrorBody false "Invalid token" 401 (e_errors error)
    else error in
  let error :=
    if bool_decide (f_name err = "TokenExpiredError") then
      mkErrorBody false "Token expired" 401 (e_errors error)
    else error in
  (* errors that carry their own status *)
  let error :=
    if bool_decide (f_statusCode err ≠ 0) then
      mkErrorBody false (f_message err) (f_statusCode err) (e_errors error)
    else error in
  error.

(** The messages [errorHandler] has of its own. *)
Definition stock_messages : list string :=
  ["Internal Server Error"; "Resource already exists";
   "Invalid reference - related resource not found";
   "Required field is missing"; "Database operation failed";
   "Validation failed"; "Invalid token"; "Token expired"].

(** An error of the store, or a [TypeError], as the middleware sees it:
    it has a code and a message, no [type], no [statusCode], and a name
    that is not one of the two token errors. *)
Definition failure_of (e : ErrorObj) : Failure :=
  mkFailure (err_code e) "" "" 0 (err_message e) [].

Definition errorHandler (err : Failure) : Db ErrorBody :=
  _ ← console_error "Error:" (mkError (f_code err) (f_message err));
  mret (error_response err).

(** [asyncHandler(fn)]: what [fn] sends is the answer; what it throws
    goes to [next], that is to [errorHandler]. *)
Definition asyncHandler {R} (fn : Db (Outcome R)) : Db (R + ErrorBody) :=
  out ← fn;
  match out with
  | Sent r => mret (inl r)
  | Thrown e => body ← errorHandler (failure_of e); mret (inr body)
  end.

(** ** [authenticateToken]

    The identity provider and the retailers table are outside the model:
    the answers of [supabase.auth.getUser] and of the retailer lookup are
    arguments of the middleware. *)

(** [s.split(c)] for a one-character separator *)
Fixpoint split (c : ascii) (s : string) : list string :=
  match s with
  | EmptyString => [EmptyString]
  | String a s' =>
      if Ascii.eqb a c then EmptyString :: split c s'
      else match split c s' with
           | h :: t => String a h :: t
           | [] => [String a EmptyString]
           end
  end.

(** [authHeader && authHeader.split(' ')[1]], with [None] for a value
    that [!token] takes for absent: [undefined] or the empty string. *)
Definition token_of (authHeader : option string) : option string :=
  match authHeader with
  | None => None
  | Some h =>
      if bool_decide (h = "") then None
      else match split " " h !! 1%nat with
           | Some t => if bool_decide (t = "") then None else Some t
           | None => None
           end
  end.

Record User := mkUser { user_id : string; user_email : string }.

Record Retailer := mkRetailer {
  rt_id : string;
  rt_user_id : string;
  rt_name : string;
  rt_email : string;
  rt_theme : string
}.

(** [{ data: { user }, error }] *)
Record UserReply := mkUserReply { ur_user : option User; ur_error : option ErrorObj }.

Inductive AuthResult :=
  | Next (user : User) (retailer : Retailer)
  | Refused (answer : Answer unit).

(** [getUser] gives [None] when the call to the provider throws. *)
Definition authenticateToken (authorization : option string)
    (getUser : string → option UserReply)
    (retailer_of_user : string → Reply Retailer) : AuthResult :=
  match token_of authorization with
  | None =>
      Refused (mkAnswer 401 false
        (Some "Access token is required. Please include Authorization header.")
        None)
  | Some token =>
      match getUser token with
      | None =>
          Refused (mkAnswer 500 false
            (Some "Authentication verification failed.") None)
      | Some reply =>
          match ur_error reply, ur_user reply with
          | None, Some user =>
              let r := retailer_of_user (user_id user) in
              match error r, data r with
              | None, Some retailer => Next user retailer
              | _, _ =>
                  Refused (mkAnswer 404 false
                    (Some "Retailer profile not found. Please complete registration.")
                    None)
              end
          | _, _ =>
              Refused (mkAnswer 401 false
                (Some "Invalid or expired token. Please login again.") None)
          end
      end
  end.

(** [optionalAuth]: what it leaves in [req.user] and [req.retailer]; it
    always goes on to [next]. *)
Definition optionalAuth (authorization : option string)
    (getUser : string → option UserReply)
    (retailer_of_user : string → Reply Retailer)
    : option User * option Retailer :=
  match token_of authorization with
  | None => (None, None)
  | Some token =>
      match getUser token with
      | None => (None, None)
      | Some reply =>
          match ur_error reply, ur_user reply with
          | None, Some user =>
              (Some user, data (retailer_of_user (user_id user)))
          | _, _ => (None, None)
          end
      end
  end.

(** ** [getProduct] *)

(** [from('products').select('*').eq('id', id).eq('retailer_id', r)
     .single()] *)
Definition select_product (id retailer : string) : Db (Reply (string * Product)) :=
  flt ← send_unlisted;
  match flt with
  | Some e => mret (failed e)
  | None =>
      row ← read (λ w, products w !! id);
      mret (match row with
            | Some p =>
                if bool_decide (p_retailer_id p = retailer)
                then ok (id, p) else failed PGRST116
            | None => failed PGRST116
            end)
  end.

Definition getProduct (retailerId id : string)
    : Db (Outcome (Answer (string * Product))) :=
  r ← select_product id retailerId;
  match error r with
  | Some e =>
      if bool_decide (err_code e = "PGRST116") then
        mret (Sent (mkAnswer 404 false (Some "Product not found") None))
      else mret (Thrown e)
  | None => mret (Sent (mkAnswer 200 true None (data r)))
  end.

(** ** [getCategories] *)

(** [[...new Set(xs)]]: the values in the order of their first
    occurrence. *)
Definition spread_Set (xs : list string) : list string :=
  foldl (λ seen x, if decide (x ∈ seen) then seen else seen ++ [x]) [] xs.

Definition has_category (retailer : string) (r : string * Product) : Prop :=
  p_retailer_id r.2 = retailer ∧ p_category r.2 ≠ None.
#[global] Instance has_category_dec retailer r : Decision (has_category retailer r).
Proof. unfold has_category. apply _. Defined.

(** [from('products').select('category').eq('retailer_id', r)
     .not('category', 'is', null).order('category')].  The collation of
    the store is outside the model: [order_by] is the order the store
    puts the selected values in. *)
Definition select_categories (order_by : list string → list string)
    (retailer : string) : Db (Reply (list string)) :=
  flt ← send_unlisted;
  match flt with
  | Some e => mret (failed e)
  | None =>
      rows ← read (λ w, map_to_list (products w));
      mret (ok (order_by
                  (omap (λ r : string * Product, p_category r.2)
                        (filter (has_category retailer) rows))))
  end.

Definition getCategories (order_by : list string → list string)
    (retailerId : string) : Db (Outcome (Answer (list string))) :=
  r ← select_categories order_by retailerId;
  match error r, data r with
  | Some e, _ => mret (Thrown e)
  | None, None => mret (Thrown TypeError)
  | None, Some rows => mret (Sent (mkAnswer 200 true None (Some (spread_Set rows))))
  end.
From Stdlib Require Decimal DecimalString DecimalZ.

(** ** The window of [getOrders] and [getProducts]

    [page] and [limit] come from the query string: each is absent or a
    string.  Numbers are doubles in the source; the model holds the
    integers a double represents exactly and the strings that are an
    optional minus sign followed by decimal digits, and is [None] for
    everything else ([NaN] included). *)

Definition safe_integer (z : Z) : option Z :=
  if bool_decide (Z.abs z ≤ 2 ^ 53) then Some z else None.

(** [Number(s)] *)
Definition ToNumber (s : string) : option Z :=
  if bool_decide (s = "") then Some 0
  else d ← DecimalString.NilZero.int_of_string s; safe_integer (Z.of_int d).

(** [String(z)] *)
Definition ToString (z : Z) : string :=
  DecimalString.NilZero.string_of_int (Z.to_int z).

(** [const { page = 1, limit = 10 } = req.query;
     const offset = (page - 1) * limit;
     query.range(offset, offset + limit - 1)]: the two arguments of
    [range].  With [limit] a string, [offset + limit] joins two
    strings. *)
Definition range_args (page limit : option string) : option (Z * Z) :=
  page_number ← match page with None => Some 1 | Some s => ToNumber s end;
  limit_number ← match limit with None => Some 10 | Some s => ToNumber s end;
  offset ← safe_integer ((page_number - 1) * limit_number);
  sum ← match limit with
        | None => safe_integer (offset + 10)
        | Some s => ToNumber (ToString offset +:+ s)
        end;
  last ← safe_integer (sum - 1);
  Some (offset, last).

(** The value of a decimal numeral read from the left, after [acc]. *)
Fixpoint horner (d : Decimal.uint) (acc : Z) : Z :=
  match d with
  | Decimal.Nil => acc
  | Decimal.D0 l => horner l (10 * acc)
  | Decimal.D1 l => horner l (10 * acc + 1)
  | Decimal.D2 l => horner l (10 * acc + 2)
  | Decimal.D3 l => horner l (10 * acc + 3)
  | Decimal.D4 l => horner l (10 * acc + 4)
  | Decimal.D5 l => horner l (10 * acc + 5)
  | Decimal.D6 l => horner l (10 * acc + 6)
  | Decimal.D7 l => horner l (10 * acc + 7)
  | Decimal.D8 l => horner l (10 * acc + 8)
  | Decimal.D9 l => horner l (10 * acc + 9)
  end.

(** A string of decimal digits, with its value. *)
Definition digits (s : string) (n : Z) : Prop :=
  s ≠ "" ∧ ∃ d, DecimalString.NilEmpty.uint_of_string s = Some d
                ∧ n = Z.of_uint d.

(** ** [getPublicStore]

    The retailers table is outside the model: the answer of the store
    to the retailer lookup is an argument of the handler.  Products
    carry no creation time in the model: [order_by] is the order the
    store puts the selected rows in. *)

(** [select('id, name, description, price, stock, category, image_url')] *)
Record PublicProduct := mkPublic {
  pub_id : string;
  pub_name : string;
  pub_description : option string;
  pub_price : Z;
  pub_stock : Z;
  pub_category : option string;
  pub_image_url : option string
}.

Definition public_of (r : string * Product) : PublicProduct :=
  mkPublic r.1 (p_name r.2) (p_description r.2) (p_price r.2) (p_stock r.2)
           (p_category r.2) (p_image_url r.2).

Definition on_sale (retailer : string) (r : string * Product) : Prop :=
  p_retailer_id r.2 = retailer ∧ p_is_active r.2 = true ∧ 0 < p_stock r.2.
#[global] Instance on_sale_dec retailer r : Decision (on_sale retailer r).
Proof. unfold on_sale. apply _. Defined.

(** [from('products').select(...).eq('retailer_id', r).eq('is_active', true)
     .gt('stock', 0).order('created_at', { ascending: false })] *)
Definition select_public_products
    (order_by : list (string * Product) → list (string * Product))
    (retailer : string) : Db (Reply (list PublicProduct)) :=
  flt ← send_unlisted;
  match flt with
  | Some e => mret (failed e)
  | None =>
      rows ← read (λ w, map_to_list (products w));
      mret (ok (public_of <$> order_by (filter (on_sale retailer) rows)))
  end.

Record PublicStore (Store : Type) := mkPublicStore {
  store_of : Store;
  products_of : list PublicProduct;
  productCount : Z
}.
Arguments mkPublicStore {Store} _ _ _.
Arguments store_of {Store} _.
Arguments products_of {Store} _.
Arguments productCount {Store} _.

Definition getPublicStore {Store : Type} (retailer_row : Reply Store)
    (order_by : list (string * Product) → list (string * Product))
    (retailerId : string) : Db (Outcome (Answer (PublicStore Store))) :=
  r2 ← select_public_products order_by retailerId;
  match error retailer_row, data retailer_row with
  | None, Some retailer =>
      match error r2 with
      | Some productError => mret (Thrown productError)
      | None =>
          mret (Sent (mkAnswer 200 true None
            (Some (mkPublicStore retailer
                     (match data r2 with Some ps => ps | None => [] end)
                     (match data r2 with
                      | Some ps => Z.of_nat (length ps)
                      | None => 0
                      end)))))
      end
  | _, _ =>
      mret (Sent (mkAnswer 404 false
        (Some "Store not found or not available") None))
  end.

(** The public listing of a retailer when the store executes the
    statement. *)
Definition public_listing
    (order_by : list (string * Product) → list (string * Product))
    (retailerId : string) (w : World) : list PublicProduct :=
  public_of <$> order_by (filter (on_sale retailerId) (map_to_list (products w))).

(** The first shop when the store answers the first statement with an
    error. *)
Definition shop0_flaky' : World :=
  mkWorld (products shop0) (orders shop0) [Some timeout_error]
          "o1" 1700000000000 [] [].

(** The first shop when the store answers the insert with an error, and
    when the key it draws is taken. *)
Definition fk_error : ErrorObj :=
  mkError "23503" "insert or update on table violates foreign key constraint".

Definition shop0_no_insert : World :=
  mkWorld (products shop0) (orders shop0) [None; Some fk_error]
          "o1" 1700000000000 [] [].

(** The shop of the four orders when the store fails on the fourth
    statement only. *)
Definition shop1_no_delete : World :=
  mkWorld (products shop1) (orders shop1) [None; None; None; Some timeout_error]
          "o9" 1700000000000 [] [].

Definition lamp : Product := mkProduct "r2" "Lamp" None 9900 4 None None true.

Definition ada : User := mkUser "u1" "ada@example.com".
Definition ada_shop : Retailer := mkRetailer "r1" "u1" "Ada's" "ada@example.com" "default".

(** A provider that knows one token. *)
Definition provider (token : string) : option UserReply :=
  if bool_decide (token = "tok123") then Some (mkUserReply (Some ada) None)
  else Some (mkUserReply None (Some (mkError "" "invalid JWT"))).

Definition retailers_by_user (uid : string) : Reply Retailer :=
  if bool_decide (uid = "u1") then ok ada_shop else failed PGRST116.
(** ** Reasoning about the store primitives *)

Ltac db_unfold :=
  unfold mbind, db_bind, mret, db_ret, send, read, modify, console_error,
    ok, failed in *.

Ltac db_simpl :=
  db_unfold;
  cbn [products orders faults gen_random_uuid now journal console
       set_products set_orders sent data error fst snd] in *.

Lemma fault_at_sent n s w : fault_at n (sent s w) = fault_at (S n) w.
Proof. unfold fault_at. cbn. by destruct (faults w). Qed.

Lemma fault_at_set_orders n f w : fault_at n (set_orders f w) = fault_at n w.
Proof. done. Qed.

Lemma fault_at_nil n w : faults w = [] → fault_at n w = None.
Proof. unfold fault_at. intros ->. by destruct n. Qed.

Lemma select_active_product_found id r w p :
  fault_at 0 w = None →
  products w !! id = Some p →
  p_retailer_id p = r →
  p_is_active p = true →
  select_active_product id r w = (ok p, sent (SelectProduct id) w).
Proof.
  intros Hf Hp Hr Ha. unfold select_active_product. db_simpl.
  rewrite Hf. db_simpl. rewrite Hp, Ha. rewrite bool_decide_true by done. done.
Qed.

(** The first statement of [createOrder] answers with a product only when
    the store holds it for this retailer, active. *)
Lemma select_active_product_data id r w p rep w' :
  select_active_product id r w = (rep, w') →
  error rep = None → data rep = Some p →
  fault_at 0 w = None ∧ products w !! id = Some p ∧ p_retailer_id p = r ∧
  p_is_active p = true ∧ w' = sent (SelectProduct id) w.
Proof.
  unfold select_active_product. db_simpl.
  destruct (fault_at 0 w) eqn:Hf; [intros [= <- <-]; done|]. db_simpl.
  destruct (products w !! id) as [q|] eqn:Hq; [|intros [= <- <-]; done].
  destruct (bool_decide (p_retailer_id q = r)) eqn:Hr;
    destruct (p_is_active q) eqn:Ha; cbn; intros [= <- <-]; cbn; try done.
  intros _ [= ->]. apply bool_decide_eq_true in Hr. done.
Qed.

(** C1. Whenever the product of an order-creation request is found (it
    belongs to the calling retailer and is active) and the requested
    quantity exceeds its current stock, [createOrder] answers 400 with the
    insufficient-stock message reporting the available and the requested
    quantity; the only statement the store has received is the product
    lookup, so no order row is created and no stock is changed. *)
Theorem createOrder_insufficient_stock (req : OrderRequest) (w : World) (p : Product) :
  fault_at 0 w = None →
  products w !! product_id req = Some p →
  p_retailer_id p = req_retailer req →
  p_is_active p = true →
  p_stock p < quantity req →
  ∃ w',
    createOrder req w =
      (Sent (mkResponse 400 false
         (Some (insufficient_stock_message (p_stock p) (quantity req))) None),
       w')
    ∧ orders w' = orders w
    ∧ products w' = products w
    ∧ journal w' = journal w ++ [SelectProduct (product_id req)]
    ∧ console w' = console w.
Proof.
  intros Hf Hp Hr Ha Hlt. eexists. unfold createOrder.
  unfold mbind at 1, db_bind at 1.
  rewrite (select_active_product_found _ _ _ p) by done. db_simpl.
  rewrite bool_decide_true by done. done.
Qed.

Lemma createOrder_insufficient_stock_witness :
  ∃ w',
    createOrder (buy 100) shop0 =
      (Sent (mkResponse 400 false
         (Some "Insufficient stock. Available: 20, Requested: 100") None), w')
    ∧ orders w' = orders shop0
    ∧ products w' = products shop0
    ∧ journal w' = journal shop0 ++ [SelectProduct "p1"]
    ∧ console w' = console shop0.
Proof.
  apply (createOrder_insufficient_stock (buy 100) shop0
           (mkProduct "r1" "Mug" None 10000 20 (Some "kitchen") None true));
    [reflexivity | reflexivity | reflexivity | reflexivity | cbn; lia].
Defined.

Lemma insert_order_applied row w :
  fault_at 0 w = None →
  orders w !! gen_random_uuid w = None →
  insert_order row w =
    (ok (gen_random_uuid w, stored_order row (now w),
         summary_of <$> products w !! n_product_id row),
     set_orders (insert (gen_random_uuid w) (stored_order row (now w)))
                (sent (InsertOrder row) w)).
Proof.
  intros Hf Hfree. unfold insert_order. db_simpl. rewrite Hf. db_simpl.
  rewrite Hfree. db_simpl. done.
Qed.

Lemma insert_order_data row w rep w' :
  insert_order row w = (rep, w') →
  error rep = None →
  fault_at 0 w = None ∧ orders w !! gen_random_uuid w = None.
Proof.
  unfold insert_order. db_simpl.
  destruct (fault_at 0 w) eqn:Hf; [intros [= <- <-]; done|]. db_simpl.
  destruct (orders w !! gen_random_uuid w) eqn:Hk; [intros [= <- <-]; done|].
  done.
Qed.

Lemma update_product_stock_applied id n w :
  fault_at 0 w = None →
  update_product_stock id n w =
    (mkReply None None,
     set_products (alter (set_stock n) id) (sent (UpdateProductStock id n) w)).
Proof. intros Hf. unfold update_product_stock. db_simpl. by rewrite Hf. Qed.

Lemma update_product_stock_failed id n w e :
  fault_at 0 w = Some e →
  update_product_stock id n w = (failed e, sent (UpdateProductStock id n) w).
Proof. intros Hf. unfold update_product_stock. db_simpl. by rewrite Hf. Qed.

(** The complete run of a creation that passes the stock check and in
    which the store executes all three statements. *)
Lemma createOrder_created (req : OrderRequest) (w : World) (p : Product) :
  fault_at 0 w = None → fault_at 1 w = None → fault_at 2 w = None →
  products w !! product_id req = Some p →
  p_retailer_id p = req_retailer req →
  p_is_active p = true →
  quantity req ≤ p_stock p →
  orders w !! gen_random_uuid w = None →
  let o := stored_order (order_of_request req p) (now w) in
  createOrder req w =
    (Sent (mkResponse 201 true (Some "Order created successfully")
             (Some (OrderData (gen_random_uuid w) o (Some (summary_of p))))),
     set_products
       (alter (set_stock (p_stock p - quantity req)) (product_id req))
       (sent (UpdateProductStock (product_id req) (p_stock p - quantity req))
          (set_orders (insert (gen_random_uuid w) o)
             (sent (InsertOrder (order_of_request req p))
                (sent (SelectProduct (product_id req)) w))))).
Proof.
  intros Hf0 Hf1 Hf2 Hp Hr Ha Hq Hfree o. unfold createOrder.
  unfold mbind at 1, db_bind at 1.
  rewrite (select_active_product_found _ _ _ p) by done. db_simpl.
  rewrite bool_decide_false by lia.
  fold (order_of_request req p).
  rewrite insert_order_applied
    by (by rewrite ?fault_at_sent). db_simpl.
  rewrite update_product_stock_applied
    by (by rewrite ?fault_at_set_orders, ?fault_at_sent).
  db_simpl. cbn [order_of_request n_product_id]. rewrite Hp. done.
Qed.

(** C2. Every order creation answered with 201 in which the store
    executes the stock write has persisted one new order row with status
    [pending], unit price equal to the product's current price and total
    amount equal to unit price times the requested quantity, and has
    decremented the stock of the product by exactly the requested quantity,
    touching no other product. *)
Theorem createOrder_success (req : OrderRequest) (w w' : World) (r : Response) :
  createOrder req w = (Sent r, w') →
  status r = 201 →
  fault_at 2 w = None →
  ∃ (p : Product) (oid : string) (o : Order),
    products w !! product_id req = Some p
    ∧ orders w !! oid = None
    ∧ orders w' = <[oid := o]> (orders w)
    ∧ payload r = Some (OrderData oid o (Some (summary_of p)))
    ∧ o_status o = "pending"
    ∧ o_unit_price o = p_price p
    ∧ o_total_amount o = o_unit_price o * quantity req
    ∧ o_quantity o = quantity req
    ∧ o_product_id o = product_id req
    ∧ o_retailer_id o = req_retailer req
    ∧ (∃ p', products w' !! product_id req = Some p'
             ∧ p_stock p' = p_stock p - quantity req
             ∧ p' = set_stock (p_stock p') p)
    ∧ (∀ id, id ≠ product_id req → products w' !! id = products w !! id).
Proof.
  intros Hrun H201 Hf2. unfold createOrder in Hrun.
  unfold mbind at 1, db_bind at 1 in Hrun.
  destruct (select_active_product _ _ w) as [r1 w1] eqn:H1.
  destruct (error r1) eqn:He1; [db_simpl; simplify_eq; cbn in H201; done|].
  destruct (data r1) as [p|] eqn:Hd1;
    [|db_simpl; simplify_eq; cbn in H201; done].
  destruct (select_active_product_data _ _ _ p _ _ H1 He1 Hd1)
    as (Hf0 & Hp & Hr & Ha & ->).
  destruct (bool_decide (p_stock p < quantity req)) eqn:Hq;
    [db_simpl; simplify_eq; cbn in H201; done|].
  apply bool_decide_eq_false in Hq.
  unfold mbind at 1, db_bind at 1 in Hrun. fold (order_of_request req p) in Hrun.
  destruct (insert_order _ _) as [r2 w2] eqn:H2.
  destruct (error r2) eqn:He2; [db_simpl; simplify_eq|].
  destruct (insert_order_data _ _ _ _ H2 He2) as [Hf1 Hfree].
  rewrite fault_at_sent in Hf1. cbn [sent orders gen_random_uuid] in Hfree.
  pose proof (createOrder_created req w p Hf0 Hf1 Hf2 Hp Hr Ha
                ltac:(lia) Hfree) as Hfull.
  unfold createOrder in Hfull. unfold mbind at 1, db_bind at 1 in Hfull.
  rewrite H1, He1, Hd1 in Hfull.
  rewrite bool_decide_false in Hfull by done.
  unfold mbind at 1, db_bind at 1 in Hfull.
  fold (order_of_request req p) in Hfull. rewrite H2, He2 in Hfull.
  rewrite Hfull in Hrun. injection Hrun as <- <-.
  exists p, (gen_random_uuid w), (stored_order (order_of_request req p) (now w)).
  db_simpl. repeat split; try done.
  - exists (set_stock (p_stock p - quantity req) p).
    rewrite lookup_alter_eq, Hp. done.
  - intros id Hne. by rewrite lookup_alter_ne.
Qed.

Lemma createOrder_success_witness :
  ∃ (p : Product) (oid : string) (o : Order),
    products shop0 !! "p1" = Some p
    ∧ orders shop0 !! oid = None
    ∧ orders (createOrder (buy 2) shop0).2 = <[oid := o]> (orders shop0)
    ∧ payload shop0_created = Some (OrderData oid o (Some (summary_of p)))
    ∧ o_status o = "pending"
    ∧ o_unit_price o = p_price p
    ∧ o_total_amount o = o_unit_price o * 2
    ∧ o_quantity o = 2
    ∧ o_product_id o = "p1"
    ∧ o_retailer_id o = "r1"
    ∧ (∃ p', products (createOrder (buy 2) shop0).2 !! "p1" = Some p'
             ∧ p_stock p' = p_stock p - 2
             ∧ p' = set_stock (p_stock p') p)
    ∧ (∀ id, id ≠ "p1" →
         products (createOrder (buy 2) shop0).2 !! id = products shop0 !! id).
Proof.
  apply (createOrder_success (buy 2) shop0 (createOrder (buy 2) shop0).2
           shop0_created);
    [vm_compute; reflexivity | reflexivity | reflexivity].
Defined.

(** C2, as the specification words it, fails: the answer of the stock
    write is only logged.  In [shop0_flaky] the store answers that write
    with an error; the creation of an order for two mugs is answered with
    201 all the same, and the stock of the product is what it was. *)
Lemma createOrder_success_without_decrement :
  ¬ (∀ (req : OrderRequest) (w w' : World) (r : Response),
       createOrder req w = (Sent r, w') →
       status r = 201 →
       ∃ p p', products w !! product_id req = Some p
               ∧ products w' !! product_id req = Some p'
               ∧ p_stock p' = p_stock p - quantity req).
Proof.
  intros Hspec.
  destruct (Hspec (buy 2) shop0_flaky (createOrder (buy 2) shop0_flaky).2
              shop0_created)
    as (p & p' & Hp & Hp' & Hstock).
  - vm_compute. reflexivity.
  - reflexivity.
  - vm_compute in Hp, Hp'. injection Hp as <-. injection Hp' as <-.
    vm_compute in Hstock. discriminate.
Qed.

(** C5. When the store executes the product lookup and the order insert
    of a creation but answers the stock write with an error, [createOrder]
    still answers 201 with the created order; the error is written to the
    console, the order row stays in the table and the stock of the
    product is what it was. *)
Theorem createOrder_stock_write_fails (req : OrderRequest) (w : World)
    (p : Product) (stockError : ErrorObj) :
  fault_at 0 w = None →
  fault_at 1 w = None →
  fault_at 2 w = Some stockError →
  products w !! product_id req = Some p →
  p_retailer_id p = req_retailer req →
  p_is_active p = true →
  quantity req ≤ p_stock p →
  orders w !! gen_random_uuid w = None →
  ∃ (w' : World) (o : Order),
    createOrder req w =
      (Sent (mkResponse 201 true (Some "Order created successfully")
               (Some (OrderData (gen_random_uuid w) o (Some (summary_of p))))),
       w')
    ∧ o = stored_order (order_of_request req p) (now w)
    ∧ orders w' = <[gen_random_uuid w := o]> (orders w)
    ∧ products w' = products w
    ∧ console w' = console w ++ [("Stock update failed:", stockError)]
    ∧ journal w' =
        journal w ++
          [SelectProduct (product_id req);
           InsertOrder (order_of_request req p);
           UpdateProductStock (product_id req) (p_stock p - quantity req)].
Proof.
  intros Hf0 Hf1 Hf2 Hp Hr Ha Hq Hfree. do 2 eexists. unfold createOrder.
  unfold mbind at 1, db_bind at 1.
  rewrite (select_active_product_found _ _ _ p) by done. db_simpl.
  rewrite bool_decide_false by lia.
  fold (order_of_request req p).
  rewrite insert_order_applied by (by rewrite ?fault_at_sent). db_simpl.
  rewrite (update_product_stock_failed _ _ _ stockError)
    by (by rewrite ?fault_at_set_orders, ?fault_at_sent).
  db_simpl. cbn [order_of_request n_product_id]. rewrite Hp.
  repeat split; try done. by rewrite <- !app_assoc.
Qed.

Lemma createOrder_stock_write_fails_witness :
  ∃ (w' : World) (o : Order),
    createOrder (buy 2) shop0_flaky =
      (Sent (mkResponse 201 true (Some "Order created successfully")
               (Some (OrderData "o1" o (Some (mkSummary "Mug" (Some "kitchen") None))))),
       w')
    ∧ o = shop0_order
    ∧ orders w' = <["o1" := o]> ∅
    ∧ products w' = products shop0
    ∧ console w' = [("Stock update failed:", timeout_error)]
    ∧ journal w' =
        [SelectProduct "p1";
         InsertOrder (order_of_request (buy 2)
            (mkProduct "r1" "Mug" None 10000 20 (Some "kitchen") None true));
         UpdateProductStock "p1" 18].
Proof.
  apply (createOrder_stock_write_fails (buy 2) shop0_flaky
           (mkProduct "r1" "Mug" None 10000 20 (Some "kitchen") None true)
           timeout_error);
    [reflexivity | reflexivity | reflexivity | reflexivity | reflexivity
    | reflexivity | cbn; lia | reflexivity].
Defined.

(** ** [deleteOrder] *)

Ltac solve_fault :=
  unfold fault_at; db_simpl;
  repeat match goal with
         | H : faults _ = [] |- _ => rewrite H; cbn [tail]
         end;
  done.

Lemma deletable_status (s : string) :
  s ∈ ["pending"; "cancelled"] ↔ s = "pending" ∨ s = "cancelled".
Proof. rewrite !elem_of_cons, elem_of_nil. tauto. Qed.

Lemma select_order_found id r w o :
  fault_at 0 w = None →
  orders w !! id = Some o →
  o_retailer_id o = r →
  select_order id r w = (ok o, sent (SelectOrder id) w).
Proof.
  intros Hf Ho Hr. unfold select_order. db_simpl. rewrite Hf. db_simpl.
  rewrite Ho. by rewrite bool_decide_true.
Qed.

Lemma select_order_missing id r w :
  fault_at 0 w = None →
  (∀ o, orders w !! id = Some o → o_retailer_id o ≠ r) →
  select_order id r w = (failed PGRST116, sent (SelectOrder id) w).
Proof.
  intros Hf Ho. unfold select_order. db_simpl. rewrite Hf. db_simpl.
  destruct (orders w !! id) as [o|]; [|done].
  by rewrite bool_decide_false by (by apply Ho).
Qed.

Lemma select_product_stock_found id w p :
  fault_at 0 w = None →
  products w !! id = Some p →
  select_product_stock id w = (ok (p_stock p), sent (SelectProductStock id) w).
Proof.
  intros Hf Hp. unfold select_product_stock. db_simpl. rewrite Hf. db_simpl.
  by rewrite Hp.
Qed.

Lemma select_product_stock_missing id w :
  fault_at 0 w = None →
  products w !! id = None →
  select_product_stock id w = (failed PGRST116, sent (SelectProductStock id) w).
Proof.
  intros Hf Hp. unfold select_product_stock. db_simpl. rewrite Hf. db_simpl.
  by rewrite Hp.
Qed.

Lemma select_product_stock_failed id w e :
  fault_at 0 w = Some e →
  select_product_stock id w = (failed e, sent (SelectProductStock id) w).
Proof.
  intros Hf. unfold select_product_stock. db_simpl. by rewrite Hf.
Qed.

Lemma delete_order_applied id r w o :
  fault_at 0 w = None →
  orders w !! id = Some o →
  o_retailer_id o = r →
  delete_order id r w =
    (mkReply None None, set_orders (delete id) (sent (DeleteOrder id) w)).
Proof.
  intros Hf Ho Hr. unfold delete_order. db_simpl. rewrite Hf. db_simpl.
  rewrite Ho. by rewrite bool_decide_true.
Qed.

(** C4. With a store that executes every statement, [deleteOrder]
    (a) answers 404 when the retailer has no order with the given id;
    (b) answers 409 and sends nothing but the order lookup when the status
        of the order is neither [pending] nor [cancelled];
    (c) for a [pending] order whose product is in the store, writes the
        current stock of that product plus the quantity of the order, then
        deletes the order row, and answers 200;
    (d) for a [cancelled] order deletes the order row without any statement
        on the products, and answers 200. *)
Theorem deleteOrder_spec (retailerId id : string) (w : World) :
  faults w = [] →
  ((∀ o, orders w !! id = Some o → o_retailer_id o ≠ retailerId) →
     ∃ w', deleteOrder retailerId id w =
             (Sent (mkResponse 404 false (Some "Order not found") None), w')
           ∧ orders w' = orders w ∧ products w' = products w)
  ∧ (∀ o, orders w !! id = Some o → o_retailer_id o = retailerId →
     o_status o ≠ "pending" → o_status o ≠ "cancelled" →
     ∃ w', deleteOrder retailerId id w =
             (Sent (mkResponse 409 false
                (Some "Only pending or cancelled orders can be deleted") None),
              w')
           ∧ orders w' = orders w ∧ products w' = products w
           ∧ journal w' = journal w ++ [SelectOrder id])
  ∧ (∀ o p, orders w !! id = Some o → o_retailer_id o = retailerId →
     o_status o = "pending" →
     products w !! o_product_id o = Some p →
     ∃ w', deleteOrder retailerId id w =
             (Sent (mkResponse 200 true (Some "Order deleted successfully") None),
              w')
           ∧ orders w' = delete id (orders w)
           ∧ products w' =
               <[o_product_id o := set_stock (p_stock p + o_quantity o) p]>
                 (products w)
           ∧ journal w' =
               journal w ++
                 [SelectOrder id;
                  SelectProductStock (o_product_id o);
                  UpdateProductStock (o_product_id o)
                                     (p_stock p + o_quantity o);
                  DeleteOrder id])
  ∧ (∀ o, orders w !! id = Some o → o_retailer_id o = retailerId →
     o_status o = "cancelled" →
     ∃ w', deleteOrder retailerId id w =
             (Sent (mkResponse 200 true (Some "Order deleted successfully") None),
              w')
           ∧ orders w' = delete id (orders w)
           ∧ products w' = products w
           ∧ journal w' = journal w ++ [SelectOrder id; DeleteOrder id]).
Proof.
  intros Hh. repeat split.
  - intros Hnone. eexists. unfold deleteOrder.
    unfold mbind at 1, db_bind at 1.
    rewrite select_order_missing by (done || solve_fault). db_simpl. done.
  - intros o Ho Hr Hnp Hnc. eexists. unfold deleteOrder.
    unfold mbind at 1, db_bind at 1.
    rewrite (select_order_found _ _ _ o) by (done || solve_fault). db_simpl.
    rewrite bool_decide_false by (rewrite deletable_status; tauto). done.
  - intros o p Ho Hr Hst Hp. eexists. unfold deleteOrder.
    unfold mbind at 1, db_bind at 1.
    rewrite (select_order_found _ _ _ o) by (done || solve_fault). db_simpl.
    rewrite bool_decide_true by (rewrite deletable_status; tauto). cbn [negb].
    rewrite (bool_decide_true (o_status o = "pending")) by done.
    rewrite (select_product_stock_found _ _ p) by (done || solve_fault).
    db_simpl.
    rewrite update_product_stock_applied by solve_fault. db_simpl.
    rewrite (delete_order_applied _ _ _ o) by (done || solve_fault).
    repeat split; db_simpl; try done.
    + apply map_eq. intros k. destruct (decide (k = o_product_id o)) as [->|].
      * by rewrite lookup_alter_eq, lookup_insert_eq, Hp.
      * by rewrite lookup_alter_ne, lookup_insert_ne.
    + by rewrite <- !app_assoc.
  - intros o Ho Hr Hst. eexists. unfold deleteOrder.
    unfold mbind at 1, db_bind at 1.
    rewrite (select_order_found _ _ _ o) by (done || solve_fault). db_simpl.
    rewrite bool_decide_true by (rewrite deletable_status; tauto). cbn [negb].
    rewrite (bool_decide_false (o_status o = "pending")) by (by rewrite Hst).
    db_simpl.
    rewrite (delete_order_applied _ _ _ o) by (done || solve_fault).
    repeat split; db_simpl; try done. by rewrite <- !app_assoc.
Qed.

Lemma deleteOrder_spec_witness :
  (∃ w', deleteOrder "r1" "o7" shop1 =
           (Sent (mkResponse 404 false (Some "Order not found") None), w')
         ∧ orders w' = orders shop1 ∧ products w' = products shop1)
  ∧ (∃ w', deleteOrder "r1" "o3" shop1 =
           (Sent (mkResponse 409 false
              (Some "Only pending or cancelled orders can be deleted") None), w')
         ∧ orders w' = orders shop1 ∧ products w' = products shop1
         ∧ journal w' = [SelectOrder "o3"])
  ∧ (∃ w', deleteOrder "r1" "o1" shop1 =
           (Sent (mkResponse 200 true (Some "Order deleted successfully") None), w')
         ∧ orders w' = delete "o1" (orders shop1)
         ∧ products w' = <["p1" := set_stock (18 + 2) mug]> (products shop1)
         ∧ journal w' =
             [SelectOrder "o1"; SelectProductStock "p1";
              UpdateProductStock "p1" (18 + 2); DeleteOrder "o1"])
  ∧ (∃ w', deleteOrder "r1" "o2" shop1 =
           (Sent (mkResponse 200 true (Some "Order deleted successfully") None), w')
         ∧ orders w' = delete "o2" (orders shop1)
         ∧ products w' = products shop1
         ∧ journal w' = [SelectOrder "o2"; DeleteOrder "o2"]).
Proof.
  split; [|split; [|split]].
  - apply (deleteOrder_spec "r1" "o7" shop1 eq_refl).
    intros o Ho. vm_compute in Ho. discriminate.
  - destruct (deleteOrder_spec "r1" "o3" shop1 eq_refl) as (_ & H & _ & _).
    apply (H (order_with "delivered" 3));
      [reflexivity | reflexivity | discriminate | discriminate].
  - destruct (deleteOrder_spec "r1" "o1" shop1 eq_refl) as (_ & _ & H & _).
    apply (H (order_with "pending" 2) mug); reflexivity.
  - destruct (deleteOrder_spec "r1" "o2" shop1 eq_refl) as (_ & _ & _ & H).
    apply (H (order_with "cancelled" 1)); reflexivity.
Defined.

(** C4, as the specification words it, fails: the answer of the write
    that restores the stock is not looked at.  In [shop1_no_restore] the
    store answers that write with an error; the deletion of the pending
    order [o1], for two mugs, is answered with 200, the order row is gone
    and the stock of the mug is still 18. *)
Lemma deleteOrder_pending_without_restore :
  ¬ (∀ (retailerId id : string) (w w' : World) (r : Response) (o : Order)
       (p : Product),
       deleteOrder retailerId id w = (Sent r, w') →
       orders w !! id = Some o →
       o_retailer_id o = retailerId →
       o_status o = "pending" →
       products w !! o_product_id o = Some p →
       orders w' !! id = None →
       ∃ p', products w' !! o_product_id o = Some p'
             ∧ p_stock p' = p_stock p + o_quantity o).
Proof.
  intros Hspec.
  destruct (Hspec "r1" "o1" shop1_no_restore
              (deleteOrder "r1" "o1" shop1_no_restore).2
              (mkResponse 200 true (Some "Order deleted successfully") None)
              (order_with "pending" 2) mug)
    as (p' & Hp' & Hstock); try (vm_compute; reflexivity).
  vm_compute in Hp'. injection Hp' as <-.
  vm_compute in Hstock. discriminate.
Qed.

(** C10. When a [pending] order is deleted and the lookup of its product
    is answered with an error, or finds no row, no stock write is sent:
    the order row is deleted all the same, the answer is 200, the products
    table is what it was and nothing is written to the console. *)
Theorem deleteOrder_restore_skipped (retailerId id : string) (w : World)
    (o : Order) :
  fault_at 0 w = None →
  orders w !! id = Some o →
  o_retailer_id o = retailerId →
  o_status o = "pending" →
  is_Some (fault_at 1 w) ∨ products w !! o_product_id o = None →
  fault_at 2 w = None →
  ∃ w', deleteOrder retailerId id w =
          (Sent (mkResponse 200 true (Some "Order deleted successfully") None),
           w')
        ∧ orders w' = delete id (orders w)
        ∧ products w' = products w
        ∧ console w' = console w
        ∧ journal w' =
            journal w ++
              [SelectOrder id; SelectProductStock (o_product_id o);
               DeleteOrder id].
Proof.
  intros Hf0 Ho Hr Hst Hskip Hf2. eexists. unfold deleteOrder.
  unfold mbind at 1, db_bind at 1.
  rewrite (select_order_found _ _ _ o) by done. db_simpl.
  rewrite bool_decide_true by (rewrite deletable_status; tauto). cbn [negb].
  rewrite (bool_decide_true (o_status o = "pending")) by done.
  assert (∃ e, select_product_stock (o_product_id o) (sent (SelectOrder id) w)
               = (failed e, sent (SelectProductStock (o_product_id o))
                              (sent (SelectOrder id) w))) as [e ->].
  { destruct (fault_at 1 w) as [e|] eqn:Hf1.
    - exists e. apply select_product_stock_failed. by rewrite fault_at_sent.
    - destruct Hskip as [[e He]|Hnone]; [done|].
      exists PGRST116. apply select_product_stock_missing; [|done].
      by rewrite fault_at_sent. }
  db_simpl.
  rewrite (delete_order_applied _ _ _ o)
    by (done || by rewrite ?fault_at_sent).
  repeat split; db_simpl; try done. by rewrite <- !app_assoc.
Qed.

Lemma deleteOrder_restore_skipped_witness :
  (∃ w', deleteOrder "r1" "o1" shop1_flaky =
           (Sent (mkResponse 200 true (Some "Order deleted successfully") None), w')
         ∧ orders w' = delete "o1" (orders shop1)
         ∧ products w' = products shop1
         ∧ console w' = []
         ∧ journal w' =
             [SelectOrder "o1"; SelectProductStock "p1"; DeleteOrder "o1"])
  ∧ (∃ w', deleteOrder "r1" "o1" shop_dangling =
           (Sent (mkResponse 200 true (Some "Order deleted successfully") None), w')
         ∧ orders w' = delete "o1" (orders shop_dangling)
         ∧ products w' = ∅
         ∧ console w' = []
         ∧ journal w' =
             [SelectOrder "o1"; SelectProductStock "p1"; DeleteOrder "o1"]).
Proof.
  split.
  - apply (deleteOrder_restore_skipped "r1" "o1" shop1_flaky
             (order_with "pending" 2));
      [reflexivity | reflexivity | reflexivity | reflexivity
      | left; eexists; reflexivity | reflexivity].
  - apply (deleteOrder_restore_skipped "r1" "o1" shop_dangling
             (order_with "pending" 2));
      [reflexivity | reflexivity | reflexivity | reflexivity
      | right; reflexivity | reflexivity].
Defined.

(** ** [deleteProduct] *)

Lemma referencing_orders_nonempty (id : string) (m : gmap string Order) :
  (0 < length (take 1 (fst <$> filter (λ r : string * Order, o_product_id r.2 = id)
                                (map_to_list m))))%nat
  ↔ ∃ k o, m !! k = Some o ∧ o_product_id o = id.
Proof.
  rewrite length_take, length_fmap. split.
  - intros Hlen.
    destruct (filter _ (map_to_list m)) as [|[k o] rest] eqn:Hflt;
      [cbn in Hlen; lia|].
    assert ((k, o) ∈ filter (λ r : string * Order, o_product_id r.2 = id)
                       (map_to_list m)) as Hin
      by (rewrite Hflt; left).
    apply list_elem_of_filter in Hin as [Hid Hin].
    apply elem_of_map_to_list in Hin. by exists k, o.
  - intros (k & o & Hk & Hid).
    assert ((k, o) ∈ filter (λ r : string * Order, o_product_id r.2 = id)
                       (map_to_list m)) as Hin.
    { apply list_elem_of_filter. split; [done|]. by apply elem_of_map_to_list. }
    destruct (filter _ (map_to_list m)); [by apply elem_of_nil in Hin|].
    cbn. lia.
Qed.

Lemma select_orders_of_product_run id w :
  fault_at 0 w = None →
  select_orders_of_product id w =
    (ok (take 1 (fst <$> filter (λ r : string * Order, o_product_id r.2 = id)
                           (map_to_list (orders w)))),
     sent (SelectOrdersOfProduct id) w).
Proof.
  intros Hf. unfold select_orders_of_product. db_simpl. by rewrite Hf.
Qed.

Lemma delete_product_run id r w :
  fault_at 0 w = None →
  delete_product id r w =
    (mkReply None None,
     match products w !! id with
     | Some p =>
         if bool_decide (p_retailer_id p = r)
         then set_products (delete id) (sent (DeleteProduct id) w)
         else sent (DeleteProduct id) w
     | None => sent (DeleteProduct id) w
     end).
Proof.
  intros Hf. unfold delete_product. db_simpl. rewrite Hf. db_simpl.
  destruct (products w !! id) as [p|]; [|done].
  by destruct (bool_decide (p_retailer_id p = r)).
Qed.

(** C8. With a store that executes every statement, [deleteProduct]
    answers 409 and leaves both tables alone when at least one order
    references the product; when no order references it, the answer is
    200 and the product of the retailer with that id is gone from the
    products table, every other row being kept. *)
Theorem deleteProduct_spec (retailerId id : string) (w : World) :
  faults w = [] →
  ((∃ k o, orders w !! k = Some o ∧ o_product_id o = id) →
     ∃ w', deleteProduct retailerId id w =
             (Sent (mkResponse 409 false
                (Some "Cannot delete product that has existing orders. Consider deactivating it instead.")
                None), w')
           ∧ products w' = products w ∧ orders w' = orders w
           ∧ journal w' = journal w ++ [SelectOrdersOfProduct id])
  ∧ ((∀ k o, orders w !! k = Some o → o_product_id o ≠ id) →
     ∃ w', deleteProduct retailerId id w =
             (Sent (mkResponse 200 true (Some "Product deleted successfully")
                None), w')
           ∧ orders w' = orders w
           ∧ (∀ p, products w !! id = Some p → p_retailer_id p = retailerId →
                products w' = delete id (products w))
           ∧ (∀ p, products w' !! id = Some p → p_retailer_id p ≠ retailerId)
           ∧ (∀ k, k ≠ id → products w' !! k = products w !! k)).
Proof.
  intros Hh. split.
  - intros Href. eexists. unfold deleteProduct.
    unfold mbind at 1, db_bind at 1.
    rewrite select_orders_of_product_run by solve_fault. db_simpl.
    rewrite bool_decide_true by (by apply referencing_orders_nonempty).
    done.
  - intros Hnone. eexists. unfold deleteProduct.
    unfold mbind at 1, db_bind at 1.
    rewrite select_orders_of_product_run by solve_fault. db_simpl.
    rewrite bool_decide_false.
    2:{ rewrite referencing_orders_nonempty. intros (k & o & Hk & Hid).
        by apply (Hnone k o). }
    rewrite delete_product_run by solve_fault. db_simpl.
    split; [done|].
    destruct (products w !! id) as [p|] eqn:Hp.
    + destruct (bool_decide (p_retailer_id p = retailerId)) eqn:Hr.
      * apply bool_decide_eq_true in Hr. db_simpl. repeat split; try done.
        -- intros q. by rewrite lookup_delete_eq.
        -- intros k Hk. by rewrite lookup_delete_ne.
      * apply bool_decide_eq_false in Hr. db_simpl. repeat split; try done.
        -- intros q [= <-] Hq. done.
        -- intros q. rewrite Hp. by intros [= <-].
    + db_simpl. repeat split; try done. intros q. by rewrite Hp.
Qed.

Lemma deleteProduct_spec_witness :
  (∃ w', deleteProduct "r1" "p1" shop2 =
           (Sent (mkResponse 409 false
              (Some "Cannot delete product that has existing orders. Consider deactivating it instead.")
              None), w')
         ∧ products w' = products shop2 ∧ orders w' = orders shop2
         ∧ journal w' = [SelectOrdersOfProduct "p1"])
  ∧ (∃ w', deleteProduct "r1" "p2" shop2 =
           (Sent (mkResponse 200 true (Some "Product deleted successfully")
              None), w')
         ∧ orders w' = orders shop2
         ∧ (∀ p, products shop2 !! "p2" = Some p → p_retailer_id p = "r1" →
              products w' = delete "p2" (products shop2))
         ∧ (∀ p, products w' !! "p2" = Some p → p_retailer_id p ≠ "r1")
         ∧ (∀ k, k ≠ "p2" → products w' !! k = products shop2 !! k)).
Proof.
  split.
  - apply (deleteProduct_spec "r1" "p1" shop2 eq_refl).
    exists "o1", (order_with "pending" 2). split; reflexivity.
  - apply (deleteProduct_spec "r1" "p2" shop2 eq_refl).
    intros k o Hk. apply elem_of_map_to_list, list_elem_of_In in Hk.
    vm_compute in Hk.
    destruct Hk as [Hk|[Hk|[Hk|[Hk|[]]]]]; injection Hk as _ <-; discriminate.
Defined.

(** ** [toggleProductStatus] *)

Lemma set_is_active_involutive (p : Product) :
  set_is_active (negb (p_is_active (set_is_active (negb (p_is_active p)) p)))
    (set_is_active (negb (p_is_active p)) p) = p.
Proof. destruct p as [? ? ? ? ? ? ? []]; reflexivity. Qed.

(** One run of [toggleProductStatus] on a product the retailer owns. *)
Lemma toggleProductStatus_run (retailerId id : string) (w : World) (p : Product) :
  faults w = [] →
  products w !! id = Some p →
  p_retailer_id p = retailerId →
  let p' := set_is_active (negb (p_is_active p)) p in
  toggleProductStatus retailerId id w =
    (Sent (mkResponse 200 true
       (Some ("Product " +:+
              (if negb (p_is_active p) then "activated" else "deactivated") +:+
              " successfully"))
       (Some (ProductData id p'))),
     set_products (insert id p')
       (sent (UpdateProductActive id (negb (p_is_active p)))
          (sent (SelectProductActive id) w))).
Proof.
  intros Hh Hp Hr p'. unfold toggleProductStatus, select_product_active,
    update_product_active.
  db_simpl. rewrite (fault_at_nil 0 w) by done. db_simpl.
  rewrite Hp, bool_decide_true by done. db_simpl.
  replace (fault_at 0 (sent (SelectProductActive id) w)) with (@None ErrorObj)
    by (symmetry; solve_fault).
  db_simpl. rewrite Hp, bool_decide_true by done. db_simpl. done.
Qed.

(** C9. With a store that executes every statement, toggling a product
    the retailer owns answers 200 and rewrites that one row with
    [is_active] negated and every other column as it was, leaving all
    other rows and the orders alone; toggling a second time gives back
    the products table the first toggle started from. *)
Theorem toggleProductStatus_spec (retailerId id : string) (w : World) (p : Product) :
  faults w = [] →
  products w !! id = Some p →
  p_retailer_id p = retailerId →
  ∃ (r1 : Response) (w1 : World) (p1 : Product),
    toggleProductStatus retailerId id w = (Sent r1, w1)
    ∧ status r1 = 200
    ∧ payload r1 = Some (ProductData id p1)
    ∧ products w1 = <[id := p1]> (products w)
    ∧ orders w1 = orders w
    ∧ p_is_active p1 = negb (p_is_active p)
    ∧ p_retailer_id p1 = p_retailer_id p
    ∧ p_name p1 = p_name p
    ∧ p_description p1 = p_description p
    ∧ p_price p1 = p_price p
    ∧ p_stock p1 = p_stock p
    ∧ p_category p1 = p_category p
    ∧ p_image_url p1 = p_image_url p
    ∧ ∃ (r2 : Response) (w2 : World),
        toggleProductStatus retailerId id w1 = (Sent r2, w2)
        ∧ status r2 = 200
        ∧ payload r2 = Some (ProductData id p)
        ∧ products w2 = products w
        ∧ orders w2 = orders w.
Proof.
  intros Hh Hp Hr.
  pose proof (toggleProductStatus_run retailerId id w p Hh Hp Hr) as H1.
  cbv zeta in H1.
  set (p1 := set_is_active (negb (p_is_active p)) p) in *.
  do 3 eexists. split; [exact H1|]. db_simpl. cbn [status payload].
  repeat split; try done.
  assert (faults (set_products (insert id p1)
            (sent (UpdateProductActive id (negb (p_is_active p)))
               (sent (SelectProductActive id) w))) = []) as Hh1
    by (db_simpl; by rewrite Hh).
  epose proof (toggleProductStatus_run retailerId id _ p1 Hh1 _ Hr) as H2.
  cbv zeta in H2. do 2 eexists. split; [exact H2|].
  db_simpl. cbn [status payload]. subst p1.
  rewrite set_is_active_involutive. repeat split; try done.
  rewrite insert_insert_eq. by apply insert_id.
  Unshelve. db_simpl. by rewrite lookup_insert_eq.
Qed.

Lemma toggleProductStatus_spec_witness :
  ∃ (r1 : Response) (w1 : World) (p1 : Product),
    toggleProductStatus "r1" "p1" shop1 = (Sent r1, w1)
    ∧ status r1 = 200
    ∧ payload r1 = Some (ProductData "p1" p1)
    ∧ products w1 = <["p1" := p1]> (products shop1)
    ∧ orders w1 = orders shop1
    ∧ p_is_active p1 = negb (p_is_active mug)
    ∧ p_retailer_id p1 = p_retailer_id mug
    ∧ p_name p1 = p_name mug
    ∧ p_description p1 = p_description mug
    ∧ p_price p1 = p_price mug
    ∧ p_stock p1 = p_stock mug
    ∧ p_category p1 = p_category mug
    ∧ p_image_url p1 = p_image_url mug
    ∧ ∃ (r2 : Response) (w2 : World),
        toggleProductStatus "r1" "p1" w1 = (Sent r2, w2)
        ∧ status r2 = 200
        ∧ payload r2 = Some (ProductData "p1" mug)
        ∧ products w2 = products shop1
        ∧ orders w2 = orders shop1.
Proof.
  apply (toggleProductStatus_spec "r1" "p1" shop1 mug); reflexivity.
Defined.

(** ** [getDashboard] *)

Lemma select_product_stats_run r w :
  fault_at 0 w = None →
  select_product_stats r w =
    (ok (product_stat_rows r (products w)), sent (SelectProductStats r) w).
Proof. intros Hf. unfold select_product_stats. db_simpl. by rewrite Hf. Qed.

Lemma select_recent_orders_run r since w :
  fault_at 0 w = None →
  select_recent_orders r since w =
    (ok (recent_order_rows r since (orders w)),
     sent (SelectRecentOrders r since) w).
Proof. intros Hf. unfold select_recent_orders. db_simpl. by rewrite Hf. Qed.

Lemma select_low_stock_run r w :
  fault_at 0 w = None →
  select_low_stock r w =
    (ok (low_stock_rows r (products w)), sent (SelectLowStock r) w).
Proof. intros Hf. unfold select_low_stock. db_simpl. by rewrite Hf. Qed.

Lemma select_weekly_orders_run r since w :
  fault_at 0 w = None →
  select_weekly_orders r since w =
    (ok (weekly_order_rows r since (orders w)),
     sent (SelectWeeklyOrders r since) w).
Proof. intros Hf. unfold select_weekly_orders. db_simpl. by rewrite Hf. Qed.

Lemma getDashboard_run (Date_now : nat → Z) (retailerId : string) (w : World) :
  faults w = [] →
  getDashboard Date_now retailerId w =
    (Sent (mkResponse 200 true None
             (Some (DashboardData (dashboard_of Date_now retailerId w)))),
     sent (SelectWeeklyOrders retailerId (Date_now 1%nat - 7 * msPerDay))
       (sent (SelectLowStock retailerId)
          (sent (SelectRecentOrders retailerId (Date_now 0%nat - 30 * msPerDay))
             (sent (SelectProductStats retailerId) w)))).
Proof.
  intros Hh. unfold getDashboard.
  unfold mbind at 1, db_bind at 1.
  rewrite select_product_stats_run by solve_fault.
  unfold mbind at 1, db_bind at 1.
  rewrite select_recent_orders_run by solve_fault.
  unfold mbind at 1, db_bind at 1.
  rewrite select_low_stock_run by solve_fault.
  unfold mbind at 1, db_bind at 1.
  rewrite select_weekly_orders_run by solve_fault.
  db_simpl. done.
Qed.

(** *** Revenue *)

(** The number read from a column is not changed by [|| 0]. *)
Lemma or_zero_JSON_number (hundredths : Z) :
  or_zero (JSON_number hundredths) = JSON_number hundredths.
Proof.
  unfold JSON_number, binary64, or_zero.
  destruct (hundredths =? 0); [done|]. cbv zeta.
  destruct (round_half_even _ _ =? 0) eqn:Hm; [done|].
  cbn [mantissa]. by rewrite Hm.
Qed.

Lemma totalRevenue_from (sum : Double) (l : list RecentOrderRow) :
  foldl (λ sum order,
           add sum (parseFloat (or_zero (JSON_number (ro_total_amount order)))))
        sum (filter (λ o, ro_status o = "delivered") l)
  = delivered_sum sum l.
Proof.
  revert sum. induction l as [|o l IH]; intros sum; [done|].
  rewrite filter_cons. cbn [delivered_sum].
  destruct (decide (ro_status o = "delivered")) as [Hd|Hd].
  - rewrite bool_decide_true by done. cbn [foldl].
    rewrite IH. unfold parseFloat. by rewrite or_zero_JSON_number.
  - rewrite bool_decide_false by done. apply IH.
Qed.

Lemma totalRevenue_delivered_sum (l : list RecentOrderRow) :
  totalRevenue l = delivered_sum zero l.
Proof. apply totalRevenue_from. Qed.

Lemma delivered_sum_app (sum : Double) (l1 l2 : list RecentOrderRow) :
  delivered_sum sum (l1 ++ l2) = delivered_sum (delivered_sum sum l1) l2.
Proof. revert sum. induction l1 as [|o l1 IH]; intros sum; cbn; [done|apply IH]. Qed.

Lemma digit_range_div (n : Z) : 0 ≤ n < 100 → 0 ≤ n / 10 ≤ 9 ∧ 0 ≤ n mod 10 ≤ 9.
Proof. intros H. Z.div_mod_to_equations. lia. Qed.

(** The integer [toFixed2] writes. *)
Lemma toFixed2_nearest (x : Double) :
  ∃ n,
    0 ≤ n
    ∧ toFixed2 x =
        (if mantissa x <? 0 then "-" else "") +:+ pretty (n / 100) +:+ "." +:+
        pad2 (n mod 100)
    ∧ (0 ≤ exponent x → n = 100 * Z.abs (mantissa x) * 2 ^ exponent x)
    ∧ (exponent x < 0 →
       n * 2 ^ (1 - exponent x) - 2 ^ (- exponent x)
       ≤ 200 * Z.abs (mantissa x)
       < n * 2 ^ (1 - exponent x) + 2 ^ (- exponent x)).
Proof.
  unfold toFixed2. destruct x as [m e]. cbn [mantissa exponent].
  destruct (0 <=? e) eqn:He; [apply Z.leb_le in He|apply Z.leb_gt in He].
  - eexists. split; [|split; [reflexivity|split; [done|lia]]].
    assert (0 < 2 ^ e) by (apply Z.pow_pos_nonneg; lia). nia.
  - eexists. split; [|split; [reflexivity|split; [lia|intros _]]].
    + apply Z.div_pos; [|apply Z.pow_pos_nonneg; lia].
      assert (0 < 2 ^ (- e)) by (apply Z.pow_pos_nonneg; lia). lia.
    + assert (0 < 2 ^ (- e)) as Hk by (apply Z.pow_pos_nonneg; lia).
      assert (2 ^ (1 - e) = 2 * 2 ^ (- e)) as ->.
      { replace (1 - e) with (Z.succ (- e)) by lia.
        apply Z.pow_succ_r. lia. }
      pose proof (Z.div_mod (200 * Z.abs m + 2 ^ (- e)) (2 * 2 ^ (- e))
                    ltac:(lia)) as Hdm.
      pose proof (Z.mod_pos_bound (200 * Z.abs m + 2 ^ (- e)) (2 * 2 ^ (- e))
                    ltac:(lia)) as Hmod.
      nia.
Qed.




(** *** Low stock *)

#[local] Instance stock_le_trans : Transitive stock_le.
Proof. intros a b c. unfold stock_le. lia. Qed.

#[local] Instance stock_le_total : Total stock_le.
Proof. intros a b. unfold stock_le. lia. Qed.

Lemma low_stock_sorted_elem (retailerId : string) (tbl : gmap string Product)
    (r : string * Product) :
  r ∈ low_stock_sorted retailerId tbl
  ↔ tbl !! r.1 = Some r.2 ∧ low_stock retailerId r.
Proof.
  unfold low_stock_sorted. rewrite merge_sort_Permutation.
  rewrite list_elem_of_filter. destruct r as [id p]. cbn [fst snd].
  rewrite elem_of_map_to_list. tauto.
Qed.

Lemma low_stock_sorted_NoDup (retailerId : string) (tbl : gmap string Product) :
  NoDup (fst <$> low_stock_sorted retailerId tbl).
Proof.
  unfold low_stock_sorted. rewrite merge_sort_Permutation.
  eapply sublist_NoDup; [apply (NoDup_fst_map_to_list tbl)|].
  apply fmap_sublist, sublist_filter.
Qed.

Lemma low_stock_sorted_ascending (retailerId : string) (tbl : gmap string Product) :
  StronglySorted stock_le (low_stock_sorted retailerId tbl).
Proof. apply StronglySorted_merge_sort; apply _. Qed.

Lemma low_stock_rows_length (retailerId : string) (tbl : gmap string Product) :
  (length (low_stock_rows retailerId tbl) ≤ 10)%nat.
Proof. unfold low_stock_rows. rewrite length_fmap, length_take. lia. Qed.

Lemma low_stock_rows_sorted (retailerId : string) (tbl : gmap string Product) :
  StronglySorted (λ a b, ls_stock a ≤ ls_stock b) (low_stock_rows retailerId tbl).
Proof.
  unfold low_stock_rows.
  apply (StronglySorted_fmap low_stock_row stock_le); [done|].
  apply (StronglySorted_app_1_l _ _ (drop 10 (low_stock_sorted retailerId tbl))).
  rewrite take_drop. apply low_stock_sorted_ascending.
Qed.

Lemma low_stock_rows_NoDup (retailerId : string) (tbl : gmap string Product) :
  NoDup (ls_id <$> low_stock_rows retailerId tbl).
Proof.
  unfold low_stock_rows. rewrite <- list_fmap_compose.
  change (ls_id ∘ low_stock_row) with (@fst string Product).
  rewrite fmap_take. eapply sublist_NoDup; [apply low_stock_sorted_NoDup|].
  apply sublist_take.
Qed.

Lemma low_stock_rows_sound (retailerId : string) (tbl : gmap string Product)
    (row : LowStockRow) :
  row ∈ low_stock_rows retailerId tbl →
  ∃ p, tbl !! ls_id row = Some p
       ∧ p_retailer_id p = retailerId ∧ p_is_active p = true ∧ p_stock p ≤ 5
       ∧ ls_name row = p_name p ∧ ls_stock row = p_stock p.
Proof.
  unfold low_stock_rows. intros Hin.
  apply list_elem_of_fmap in Hin as ([id p] & -> & Hin).
  assert ((id, p) ∈ low_stock_sorted retailerId tbl) as Hs.
  { apply (sublist_subseteq _ _ (sublist_take _ 10%nat)), Hin. }
  apply low_stock_sorted_elem in Hs as [Hlook (Hr & Ha & Hst)].
  exists p. by cbn in *.
Qed.

Lemma low_stock_rows_lowest (retailerId : string) (tbl : gmap string Product)
    (id : string) (p : Product) :
  tbl !! id = Some p →
  p_retailer_id p = retailerId → p_is_active p = true → p_stock p ≤ 5 →
  mkLowStock id (p_name p) (p_stock p) ∈ low_stock_rows retailerId tbl
  ∨ (length (low_stock_rows retailerId tbl) = 10%nat
     ∧ ∀ row, row ∈ low_stock_rows retailerId tbl → ls_stock row ≤ p_stock p).
Proof.
  intros Hlook Hr Ha Hst.
  assert ((id, p) ∈ low_stock_sorted retailerId tbl) as Hs
    by (by apply low_stock_sorted_elem).
  rewrite <- (take_drop 10 (low_stock_sorted retailerId tbl)) in Hs.
  apply elem_of_app in Hs as [Hs|Hs].
  - left. unfold low_stock_rows.
    apply (list_elem_of_fmap_2 low_stock_row) in Hs. exact Hs.
  - right. split.
    + unfold low_stock_rows. rewrite length_fmap, length_take.
      destruct (decide (10 ≤ length (low_stock_sorted retailerId tbl))%nat)
        as [|Hshort]; [lia|].
      rewrite drop_ge in Hs by lia. by apply elem_of_nil in Hs.
    + intros row Hrow. unfold low_stock_rows in Hrow.
      apply list_elem_of_fmap in Hrow as (r & -> & Hr').
      pose proof (low_stock_sorted_ascending retailerId tbl) as Hss.
      rewrite <- (take_drop 10 (low_stock_sorted retailerId tbl)) in Hss.
      apply (StronglySorted_app_1_elem_of _ _ _ r (id, p)) in Hss; done.
Qed.

(** C3, as the code has it. With a store that executes every statement,
    the low-stock list of the dashboard is made of active products of the
    retailer whose stock is at most 5: it is ascending by stock, has at
    most 10 entries without repetition, each entry carries the id, name
    and stock of such a product, and a product of that kind that is left
    out has a stock no lower than any of the 10 entries listed. *)
Theorem low_stock_products_spec (Date_now : nat → Z) (retailerId : string)
    (w : World) :
  faults w = [] →
  ∃ d w' rows,
    getDashboard Date_now retailerId w =
      (Sent (mkResponse 200 true None (Some (DashboardData d))), w')
    ∧ lowStockProducts d = Some rows
    ∧ (length rows ≤ 10)%nat
    ∧ StronglySorted (λ a b, ls_stock a ≤ ls_stock b) rows
    ∧ NoDup (ls_id <$> rows)
    ∧ (∀ row, row ∈ rows →
         ∃ p, products w !! ls_id row = Some p
              ∧ p_retailer_id p = retailerId ∧ p_is_active p = true
              ∧ p_stock p ≤ 5
              ∧ ls_name row = p_name p ∧ ls_stock row = p_stock p)
    ∧ (∀ id p,
         products w !! id = Some p →
         p_retailer_id p = retailerId → p_is_active p = true → p_stock p ≤ 5 →
         mkLowStock id (p_name p) (p_stock p) ∈ rows
         ∨ (length rows = 10%nat ∧ ∀ row, row ∈ rows → ls_stock row ≤ p_stock p)).
Proof.
  intros Hh. exists (dashboard_of Date_now retailerId w). do 2 eexists.
  split; [by apply getDashboard_run|].
  split; [reflexivity|].
  split; [apply low_stock_rows_length|].
  split; [apply low_stock_rows_sorted|].
  split; [apply low_stock_rows_NoDup|].
  split; [apply low_stock_rows_sound|apply low_stock_rows_lowest].
Qed.

Lemma low_stock_products_spec_witness :
  ∃ d w' rows,
    getDashboard (frozen 1700000000000) "r2" shop2 =
      (Sent (mkResponse 200 true None (Some (DashboardData d))), w')
    ∧ lowStockProducts d = Some rows
    ∧ (length rows ≤ 10)%nat
    ∧ StronglySorted (λ a b, ls_stock a ≤ ls_stock b) rows
    ∧ NoDup (ls_id <$> rows)
    ∧ (∀ row, row ∈ rows →
         ∃ p, products shop2 !! ls_id row = Some p
              ∧ p_retailer_id p = "r2" ∧ p_is_active p = true
              ∧ p_stock p ≤ 5
              ∧ ls_name row = p_name p ∧ ls_stock row = p_stock p)
    ∧ (∀ id p,
         products shop2 !! id = Some p →
         p_retailer_id p = "r2" → p_is_active p = true → p_stock p ≤ 5 →
         mkLowStock id (p_name p) (p_stock p) ∈ rows
         ∨ (length rows = 10%nat ∧ ∀ row, row ∈ rows → ls_stock row ≤ p_stock p)).
Proof.
  apply (low_stock_products_spec (frozen 1700000000000) "r2" shop2).
  reflexivity.
Defined.

(** C3, as the specification words it, fails: retailer [r1] of [shop2]
    has a single active product, with 18 in stock; it is the lowest-stock
    active product of that retailer, and the dashboard does not list it. *)
Lemma low_stock_is_not_ten_lowest :
  ¬ (∀ (Date_now : nat → Z) (retailerId : string) (w : World)
       (d : Dashboard) (w' : World),
       faults w = [] →
       getDashboard Date_now retailerId w =
         (Sent (mkResponse 200 true None (Some (DashboardData d))), w') →
       lowStockProducts d =
         Some (ten_lowest_stock_active retailerId (products w))).
Proof.
  intros Hspec.
  specialize (Hspec (frozen 1700000000000) "r1" shop2 _ _ eq_refl
                (getDashboard_run (frozen 1700000000000) "r1" shop2 eq_refl)).
  vm_compute in Hspec. discriminate.
Qed.

(** *** Calendar dates *)

Lemma civil_from_days_range (z : Z) :
  1 ≤ (civil_from_days z).1.2 ≤ 12 ∧ 1 ≤ (civil_from_days z).2 ≤ 31.
Proof.
  unfold civil_from_days. cbv zeta. cbn [fst snd].
  destruct (_ <? 10) eqn:E; [apply Z.ltb_lt in E | apply Z.ltb_ge in E];
    Z.div_mod_to_equations; lia.
Qed.

Lemma civil_from_days_year (z : Z) :
  -719528 ≤ z ≤ 2932896 → 0 ≤ (civil_from_days z).1.1 ≤ 9999.
Proof.
  intros Hz. unfold civil_from_days. cbv zeta. cbn [fst snd].
  destruct (_ <? 10) eqn:E; [apply Z.ltb_lt in E | apply Z.ltb_ge in E];
    (destruct (_ <=? 2) eqn:E2; [apply Z.leb_le in E2 | apply Z.leb_gt in E2]);
    revert E E2; Z.div_mod_to_equations; lia.
Qed.

Lemma days_from_civil_from_days (z : Z) : days_from_civil (civil_from_days z) = z.
Proof.
  unfold civil_from_days, days_from_civil. cbv zeta. cbn [fst snd].
  destruct (_ <? 10) eqn:E; [apply Z.ltb_lt in E | apply Z.ltb_ge in E].
  - destruct (_ <=? 2) eqn:E2; [apply Z.leb_le in E2 | apply Z.leb_gt in E2].
    + exfalso. revert E E2. Z.div_mod_to_equations. lia.
    + destruct (2 <? _) eqn:E3; [apply Z.ltb_lt in E3 | apply Z.ltb_ge in E3];
        [|exfalso; lia].
      Z.div_mod_to_equations; lia.
  - destruct (_ <=? 2) eqn:E2; [apply Z.leb_le in E2 | apply Z.leb_gt in E2].
    + destruct (2 <? _) eqn:E3; [apply Z.ltb_lt in E3 | apply Z.ltb_ge in E3];
        [exfalso; lia|].
      Z.div_mod_to_equations; lia.
    + exfalso. revert E E2. Z.div_mod_to_equations. lia.
Qed.

Lemma digit_inj (a b : Z) : 0 ≤ a ≤ 9 → 0 ≤ b ≤ 9 → digit a = digit b → a = b.
Proof.
  intros Ha Hb Heq. unfold digit in Heq.
  apply (f_equal N_of_ascii) in Heq.
  rewrite !N_ascii_embedding in Heq by lia. lia.
Qed.

Lemma digit_not_T (a : Z) : 0 ≤ a ≤ 9 → Ascii.eqb (digit a) "T" = false.
Proof.
  intros Ha. apply Ascii.eqb_neq. intros Heq. unfold digit in Heq.
  apply (f_equal N_of_ascii) in Heq.
  rewrite N_ascii_embedding in Heq by lia. cbn in Heq. lia.
Qed.

Lemma pad2_inj (a b : Z) : 0 ≤ a < 100 → 0 ≤ b < 100 → pad2 a = pad2 b → a = b.
Proof.
  intros Ha Hb [= H1 H2].
  apply digit_inj in H1; [|Z.div_mod_to_equations; lia..].
  apply digit_inj in H2; [|Z.div_mod_to_equations; lia..].
  Z.div_mod_to_equations; lia.
Qed.

Lemma date_string_inj (c1 c2 : Z * Z * Z) :
  0 ≤ c1.1.1 ≤ 9999 → 1 ≤ c1.1.2 ≤ 12 → 1 ≤ c1.2 ≤ 31 →
  0 ≤ c2.1.1 ≤ 9999 → 1 ≤ c2.1.2 ≤ 12 → 1 ≤ c2.2 ≤ 31 →
  date_string c1 = date_string c2 → c1 = c2.
Proof.
  destruct c1 as [[y1 m1] d1], c2 as [[y2 m2] d2]. cbn [fst snd].
  intros Hy1 Hm1 Hd1 Hy2 Hm2 Hd2. unfold date_string, year_string.
  cbn [fst snd].
  rewrite !(proj2 (andb_true_iff _ _)) by (split; lia).
  unfold pad4. unfold pad2 at 1 2 5 6. cbv [String.append].
  intros [= Ha Hb Hc Hd Hm Hdd].
  assert (pad2 (y1 / 100) = pad2 (y2 / 100)) as Hhi by (unfold pad2; congruence).
  assert (pad2 (y1 mod 100) = pad2 (y2 mod 100)) as Hlo by (unfold pad2; congruence).
  apply pad2_inj in Hhi; [|Z.div_mod_to_equations; lia..].
  apply pad2_inj in Hlo; [|Z.div_mod_to_equations; lia..].
  assert (pad2 m1 = pad2 m2) as Hmm by (unfold pad2 in *; congruence).
  apply pad2_inj in Hmm; [|lia..].
  assert (pad2 d1 = pad2 d2) as Hddd by (unfold pad2 in *; congruence).
  apply pad2_inj in Hddd; [|lia..].
  assert (y1 = y2) by (Z.div_mod_to_equations; lia). congruence.
Qed.

Lemma four_digit_year_day (t : Z) :
  four_digit_year t → -719528 ≤ Day t ≤ 2932896.
Proof.
  unfold four_digit_year, Day, msPerDay. intros H.
  Z.div_mod_to_equations. lia.
Qed.

Lemma Day_shift (t i : Z) : Day (t - i * msPerDay) = Day t - i.
Proof.
  unfold Day. replace (t - i * msPerDay) with (t + (- i) * msPerDay) by lia.
  rewrite Z.div_add by (unfold msPerDay; lia). lia.
Qed.

(** Within the four-digit years, two instants have the same ISO date
    exactly when they fall on the same UTC day. *)
Lemma iso_date_inj (t1 t2 : Z) :
  four_digit_year t1 → four_digit_year t2 →
  iso_date t1 = iso_date t2 → Day t1 = Day t2.
Proof.
  intros H1 H2 Heq. unfold iso_date in Heq.
  apply four_digit_year_day in H1, H2.
  apply date_string_inj in Heq;
    try apply civil_from_days_year; try apply civil_from_days_range; try done.
  rewrite <- (days_from_civil_from_days (Day t1)),
          <- (days_from_civil_from_days (Day t2)).
  by rewrite Heq.
Qed.

Lemma iso_date_days_ago_ne (t i j : Z) :
  four_digit_year (t - 6 * msPerDay) → four_digit_year t →
  0 ≤ i ≤ 6 → 0 ≤ j ≤ 6 → i ≠ j →
  iso_date (t - i * msPerDay) ≠ iso_date (t - j * msPerDay).
Proof.
  intros Hlo Hhi Hi Hj Hij Heq.
  apply iso_date_inj in Heq.
  - rewrite !Day_shift in Heq. lia.
  - unfold four_digit_year, msPerDay in *. lia.
  - unfold four_digit_year, msPerDay in *. lia.
Qed.

(** The date of [toISOString] has no [T] in it. *)
Lemma before_T_date (t : Z) (rest : string) :
  four_digit_year t → before_T (iso_date t +:+ "T" +:+ rest) = iso_date t.
Proof.
  intros Ht. apply four_digit_year_day in Ht.
  pose proof (civil_from_days_year _ Ht) as Hy.
  pose proof (civil_from_days_range (Day t)) as [Hm Hd].
  unfold iso_date, date_string, year_string.
  destruct (civil_from_days (Day t)) as [[y m] d]. cbn [fst snd] in *.
  rewrite !(proj2 (andb_true_iff _ _)) by (split; lia).
  unfold pad4, pad2. cbv [String.append before_T].
  rewrite !digit_not_T by (Z.div_mod_to_equations; lia).
  reflexivity.
Qed.

Lemma before_T_timestamptz_text (t : Z) :
  four_digit_year t → before_T (timestamptz_text t) = iso_date t.
Proof. intros Ht. unfold timestamptz_text. by apply before_T_date. Qed.

Lemma before_T_toISOString (t : Z) :
  four_digit_year t → before_T (toISOString t) = iso_date t.
Proof. intros Ht. unfold toISOString. by apply before_T_date. Qed.

(** *** The daily tally *)

Lemma obj_get_Some (k : string) (o : JsObject) :
  is_Some (obj_get k o) ↔ k ∈ keys o.
Proof.
  unfold keys. induction o as [|[k' v'] o IH]; cbn.
  - rewrite elem_of_nil. split; [by intros [? ?]|done].
  - rewrite elem_of_cons. case_bool_decide; subst.
    + split; [by left|by eexists].
    + rewrite IH. split; [by right|]. by intros [->|].
Qed.

(** Writing an own property of an object whose keys are distinct. *)
Lemma obj_set_own (k : string) (v : Z) (o : JsObject) :
  NoDup (keys o) →
  k ∈ keys o →
  obj_set k v o = (λ e : string * Z, if bool_decide (e.1 = k) then (k, v) else e) <$> o.
Proof.
  unfold keys. induction o as [|[k' v'] o IH]; cbn; [by rewrite elem_of_nil|].
  rewrite NoDup_cons, elem_of_cons. intros [Hnin Hnd] Hin.
  case_bool_decide as Hk; subst.
  - f_equal. symmetry. rewrite <- (list_fmap_id o) at 2.
    apply list_fmap_ext. intros i [k1 v1] Hlook. cbn.
    rewrite bool_decide_false; [done|]. intros ->.
    apply Hnin. apply list_elem_of_fmap. exists (k, v1). split; [done|].
    by eapply list_elem_of_lookup_2.
  - f_equal. apply IH; [done|]. destruct Hin; congruence.
Qed.

Lemma orders_dated_cons (d : string) (o : WeeklyOrderRow) (l : list WeeklyOrderRow) :
  orders_dated d (o :: l) =
    (if bool_decide (before_T (created_at o) = d) then 1 else 0) + orders_dated d l.
Proof.
  unfold orders_dated, count. rewrite filter_cons.
  destruct (decide (before_T (created_at o) = d)).
  - rewrite bool_decide_true by done. cbn [length]. lia.
  - rewrite bool_decide_false by done. lia.
Qed.

(** The tally adds to each day the number of rows that carry its date,
    and keeps the days, and their order, as seeded. *)
Lemma tally_spec (weeklyOrders : list WeeklyOrderRow) (o : JsObject) :
  NoDup (keys o) →
  tally o weeklyOrders =
    (λ e : string * Z, (e.1, e.2 + orders_dated e.1 weeklyOrders)) <$> o.
Proof.
  revert o. induction weeklyOrders as [|r rows IH]; intros o Hnd.
  - cbn. rewrite <- (list_fmap_id o) at 1. apply list_fmap_ext.
    intros i [k v] _. cbn. unfold orders_dated, count. cbn. f_equal. lia.
  - unfold tally. cbn [foldl]. fold (tally
      (if hasOwnProperty (before_T (created_at r)) o
       then obj_set (before_T (created_at r))
              (default 0 (obj_get (before_T (created_at r)) o) + 1) o
       else o) rows).
    set (d := before_T (created_at r)).
    unfold hasOwnProperty. case_bool_decide as Hown.
    + apply obj_get_Some in Hown as Hin.
      rewrite obj_set_own by done.
      rewrite IH.
      2:{ unfold keys. rewrite <- list_fmap_compose.
          erewrite list_fmap_ext; [exact Hnd|].
          intros i [k v] _. cbn. by case_bool_decide. }
      rewrite <- list_fmap_compose. apply list_fmap_ext.
      intros i [k v] Hlook. cbn. rewrite orders_dated_cons. fold d.
      case_bool_decide as Hk; subst; cbn.
      * rewrite bool_decide_true by done. f_equal.
        assert (obj_get d o = Some v) as ->; [|cbn; lia].
        clear -Hnd Hlook. revert i Hlook.
        unfold keys in Hnd. induction o as [|[k' v'] o IHo]; intros i Hlook;
          [done|].
        cbn in Hnd. apply NoDup_cons in Hnd as [Hnin Hnd].
        destruct i as [|i]; cbn in *.
        -- injection Hlook as -> ->. by rewrite bool_decide_true.
        -- rewrite bool_decide_false; [by eapply IHo|].
           intros ->. apply Hnin, list_elem_of_fmap. exists (d, v).
           split; [done|]. by eapply list_elem_of_lookup_2.
      * rewrite bool_decide_false by done. f_equal; lia.
    + rewrite IH by done. apply list_fmap_ext.
      intros i [k v] Hlook. cbn. rewrite orders_dated_cons. fold d.
      rewrite bool_decide_false; [f_equal; lia|].
      intros Hd. apply Hown, obj_get_Some. rewrite Hd.
      unfold keys. apply list_elem_of_fmap. exists (k, v). split; [done|].
      by eapply list_elem_of_lookup_2.
Qed.

(** *** The seeded days *)

Lemma obj_set_keys (k : string) (v : Z) (o : JsObject) :
  keys (obj_set k v o) = if decide (k ∈ keys o) then keys o else keys o ++ [k].
Proof.
  unfold keys. induction o as [|[k' v'] o IH]; cbn.
  - by rewrite decide_False by apply not_elem_of_nil.
  - case_bool_decide as Hk; subst; cbn.
    + by rewrite decide_True by left.
    + rewrite IH. destruct (decide (k ∈ o.*1)) as [Hin|Hnin].
      * by rewrite decide_True by (by right).
      * rewrite decide_False; [done|].
        rewrite elem_of_cons. intros [->|]; done.
Qed.

Lemma obj_set_NoDup (k : string) (v : Z) (o : JsObject) :
  NoDup (keys o) → NoDup (keys (obj_set k v o)).
Proof.
  intros Hnd. rewrite obj_set_keys. case_decide as Hin; [done|].
  apply NoDup_app. split; [done|]. split; [|apply NoDup_singleton].
  intros x Hx ->%list_elem_of_singleton. done.
Qed.

Lemma obj_set_zero (k : string) (o : JsObject) :
  Forall (λ e : string * Z, e.2 = 0) o →
  Forall (λ e : string * Z, e.2 = 0) (obj_set k 0 o).
Proof.
  induction o as [|[k' v'] o IH]; intros Hz; cbn.
  - by apply Forall_singleton.
  - apply Forall_cons in Hz as [Hv Hz]. case_bool_decide.
    + by apply Forall_cons.
    + apply Forall_cons. split; [done|by apply IH].
Qed.

Lemma obj_get_elem (k : string) (v : Z) (o : JsObject) :
  NoDup (keys o) → (k, v) ∈ o → obj_get k o = Some v.
Proof.
  unfold keys. induction o as [|[k' v'] o IH]; cbn; intros Hnd Hin.
  - by apply elem_of_nil in Hin.
  - apply NoDup_cons in Hnd as [Hnin Hnd].
    apply elem_of_cons in Hin as [[= -> ->]|Hin].
    + by rewrite bool_decide_true.
    + rewrite bool_decide_false; [by apply IH|].
      intros ->. apply Hnin, list_elem_of_fmap. by exists (k, v).
Qed.

(** The key of the seeding loop for [i], read at the instant [t]. *)
Lemma seeded (Date_now : nat → Z) (turns : list nat) (o : JsObject) :
  let step := λ (dailyOrders : JsObject) (i : nat),
    obj_set (before_T (toISOString
               (Date_now (6 - i)%nat - Z.of_nat i * (24 * 60 * 60 * 1000))))
            0 dailyOrders in
  NoDup (keys o) →
  Forall (λ e : string * Z, e.2 = 0) o →
  NoDup (keys (foldl step o turns))
  ∧ Forall (λ e : string * Z, e.2 = 0) (foldl step o turns)
  ∧ ∀ d, d ∈ keys (foldl step o turns) ↔
         d ∈ keys o
         ∨ ∃ i, i ∈ turns
                ∧ d = before_T (toISOString
                        (Date_now (6 - i)%nat - Z.of_nat i * msPerDay)).
Proof.
  intros step. revert o. induction turns as [|i turns IH]; intros o Hnd Hz.
  - cbn. split; [done|]. split; [done|]. intros d. split; [by left|].
    intros [?|(i & Hi & _)]; [done|]. by apply elem_of_nil in Hi.
  - cbn [foldl].
    destruct (IH (step o i)) as (Hnd' & Hz' & Hkeys).
    { by apply obj_set_NoDup. }
    { by apply obj_set_zero. }
    split; [done|]. split; [done|]. intros d. rewrite Hkeys.
    unfold step at 1. rewrite obj_set_keys. fold msPerDay.
    split.
    + intros [Hd|(j & Hj & ->)].
      * case_decide; [by left|].
        apply elem_of_app in Hd as [Hd|Hd%list_elem_of_singleton]; [by left|].
        right. exists i. split; [by left|done].
      * right. exists j. split; [by right|done].
    + intros [Hd|(j & Hj & ->)].
      * left. case_decide; [done|]. apply elem_of_app. by left.
      * apply elem_of_cons in Hj as [->|Hj].
        -- left. case_decide; [done|]. apply elem_of_app. right.
           by apply list_elem_of_singleton.
        -- right. by exists j.
Qed.

Lemma seed_days_NoDup (Date_now : nat → Z) : NoDup (keys (seed_days Date_now)).
Proof. apply (seeded Date_now _ []); [apply NoDup_nil_2|apply Forall_nil_2]. Qed.

Lemma seed_days_zero (Date_now : nat → Z) :
  Forall (λ e : string * Z, e.2 = 0) (seed_days Date_now).
Proof. apply (seeded Date_now _ []); [apply NoDup_nil_2|apply Forall_nil_2]. Qed.

Lemma seed_days_keys (Date_now : nat → Z) (d : string) :
  d ∈ keys (seed_days Date_now) ↔
  ∃ i, (i ≤ 6)%nat
       ∧ d = before_T (toISOString
               (Date_now (6 - i)%nat - Z.of_nat i * msPerDay)).
Proof.
  destruct (seeded Date_now [6; 5; 4; 3; 2; 1; 0]%nat [] NoDup_nil_2
              (Forall_nil_2 _)) as (_ & _ & Hkeys).
  unfold seed_days. rewrite Hkeys. split.
  - intros [Hd|(i & Hi & ->)]; [by apply elem_of_nil in Hd|].
    exists i. split; [|done].
    rewrite !elem_of_cons, elem_of_nil in Hi. lia.
  - intros (i & Hi & ->). right. exists i. split; [|done].
    rewrite !elem_of_cons, elem_of_nil. lia.
Qed.

(** The chart has one point for each key seeded, in the order of the
    seeding, with the number of the rows that carry its date. *)
Lemma chartData_keys (Date_now : nat → Z) (weeklyOrders : list WeeklyOrderRow) :
  chartData Date_now weeklyOrders =
    (λ d, mkPoint d (orders_dated d weeklyOrders))
    <$> keys (seed_days Date_now).
Proof.
  unfold chartData. cbv zeta.
  pose proof (seed_days_NoDup Date_now) as Hnd.
  pose proof (seed_days_zero Date_now) as Hz.
  rewrite tally_spec by done.
  set (o := seed_days Date_now) in *.
  assert (NoDup (keys ((λ e : string * Z,
                          (e.1, e.2 + orders_dated e.1 weeklyOrders)) <$> o)))
    as Hnd'.
  { unfold keys. rewrite <- list_fmap_compose.
    erewrite list_fmap_ext; [exact Hnd|]. by intros i [k v] _. }
  unfold keys at 1. rewrite <- !list_fmap_compose.
  unfold keys. rewrite <- list_fmap_compose.
  apply list_fmap_ext. intros i [k v] Hlook. cbn.
  rewrite (obj_get_elem k (v + orders_dated k weeklyOrders)); [|done|].
  - cbn. f_equal.
    assert (v = 0) as ->; [|lia].
    by apply (proj1 (Forall_forall _ _) Hz (k, v)),
             (list_elem_of_lookup_2 _ i).
  - apply list_elem_of_fmap. exists (k, v). split; [done|].
    by apply (list_elem_of_lookup_2 _ i).
Qed.

Lemma four_digit_year_iff (t : Z) :
  four_digit_year t ↔ -719528 ≤ Day t ≤ 2932896.
Proof.
  unfold four_digit_year, Day, msPerDay. split; intros H;
    Z.div_mod_to_equations; lia.
Qed.

(** The key seeded in a turn, when the clock is read on the day of
    [today]. *)
Lemma seeded_key (read today i : Z) :
  Day read = Day today →
  four_digit_year (today - i * msPerDay) →
  before_T (toISOString (read - i * (24 * 60 * 60 * 1000)))
  = iso_date (today - i * msPerDay).
Proof.
  intros Hday Hfd. fold msPerDay.
  rewrite before_T_toISOString.
  - unfold iso_date. by rewrite !Day_shift, Hday.
  - apply four_digit_year_iff. apply four_digit_year_iff in Hfd.
    by rewrite Day_shift, Hday, <- Day_shift.
Qed.

Lemma seed_days_same_day (Date_now : nat → Z) (today : Z) :
  (∀ turn, (turn ≤ 6)%nat → Day (Date_now turn) = Day today) →
  four_digit_year (today - 6 * msPerDay) → four_digit_year today →
  seed_days Date_now =
    (λ i, (iso_date (today - i * msPerDay), 0)) <$> [6; 5; 4; 3; 2; 1; 0].
Proof.
  intros Hday Hlo Hhi. unfold seed_days.
  cbn [foldl fmap list_fmap Nat.sub Z.of_nat Pos.of_succ_nat Pos.succ].
  rewrite !(seeded_key _ today)
    by (first [apply Hday; lia | unfold four_digit_year, msPerDay in *; lia]).
  repeat (cbn [obj_set];
          rewrite !bool_decide_false
            by (apply iso_date_days_ago_ne; (done || lia))).
  reflexivity.
Qed.

Lemma week_ending_NoDup (today : Z) :
  four_digit_year (today - 6 * msPerDay) → four_digit_year today →
  NoDup (week_ending today).
Proof.
  intros Hlo Hhi. unfold week_ending. cbn [fmap list_fmap].
  repeat (apply NoDup_cons; split;
          [rewrite ?elem_of_cons, elem_of_nil;
           intros Hin; repeat destruct Hin as [Hin|Hin]; try done;
           revert Hin; apply iso_date_days_ago_ne; (done || lia)|]).
  apply NoDup_nil_2.
Qed.




(** ** A run through the three order operations

    Product with 20 in stock at 100.00: an order of 2 totals 200.00 and
    leaves 18; an order of 100 is refused and leaves 18; deleting the
    pending order of 2 gives 20 back. *)
Example order_lifecycle :
  let w1 := (createOrder (buy 2) shop0).2 in
  let w2 := (createOrder (buy 100) w1).2 in
  let w3 := (deleteOrder "r1" "o1" w2).2 in
  (o_total_amount <$> orders w1 !! "o1") = Some 20000
  ∧ (p_stock <$> products w1 !! "p1") = Some 18
  ∧ (createOrder (buy 100) w1).1 =
      Sent (mkResponse 400 false
              (Some "Insufficient stock. Available: 18, Requested: 100") None)
  ∧ (p_stock <$> products w2 !! "p1") = Some 18
  ∧ (deleteOrder "r1" "o1" w2).1 =
      Sent (mkResponse 200 true (Some "Order deleted successfully") None)
  ∧ (p_stock <$> products w3 !! "p1") = Some 20
  ∧ orders w3 = ∅.
Proof. vm_compute. repeat split. Qed.

(** * The rest of the controllers *)

Lemma fault_at_send_unlisted n w :
  fault_at n (send_unlisted w).2 = fault_at (S n) w.
Proof. unfold fault_at, send_unlisted. cbn. by destruct (faults w). Qed.

(** ** More of [createOrder] and [deleteOrder] *)

(** X1. When the product lookup of an order creation is answered with an
    error, or the store holds no product with that id that belongs to the
    retailer and is active, [createOrder] answers 404; the lookup is the
    only statement sent and both tables are as before. *)
Theorem createOrder_product_unavailable (req : OrderRequest) (w : World) :
  is_Some (fault_at 0 w)
  ∨ (∀ p, products w !! product_id req = Some p →
          p_retailer_id p ≠ req_retailer req ∨ p_is_active p = false) →
  ∃ w',
    createOrder req w =
      (Sent (mkResponse 404 false (Some "Product not found or not available")
               None), w')
    ∧ orders w' = orders w
    ∧ products w' = products w
    ∧ journal w' = journal w ++ [SelectProduct (product_id req)]
    ∧ console w' = console w.
Proof.
  intros Hno. exists (sent (SelectProduct (product_id req)) w).
  split; [|done].
  unfold createOrder, select_active_product. db_simpl.
  destruct (fault_at 0 w) as [e|] eqn:Hf; [done|].
  destruct Hno as [[e He]|Hno]; [done|]. db_simpl.
  destruct (products w !! product_id req) as [p|] eqn:Hp; [|done].
  destruct (Hno p eq_refl) as [Hr|Ha].
  - by rewrite bool_decide_false.
  - rewrite Ha, andb_false_r. done.
Qed.

Lemma createOrder_product_unavailable_witness :
  (∃ w', createOrder (buy 1) shop0_flaky' = (Sent (mkResponse 404 false
            (Some "Product not found or not available") None), w')
         ∧ orders w' = orders shop0 ∧ products w' = products shop0
         ∧ journal w' = [SelectProduct "p1"] ∧ console w' = [])
  ∧ (∃ w', createOrder (mkOrderRequest "r1" "Ada" None None "p2" 1 None) shop2 =
           (Sent (mkResponse 404 false
              (Some "Product not found or not available") None), w')
         ∧ orders w' = orders shop2 ∧ products w' = products shop2
         ∧ journal w' = [SelectProduct "p2"] ∧ console w' = []).
Proof.
  split.
  - apply (createOrder_product_unavailable (buy 1) shop0_flaky').
    left. by eexists.
  - apply (createOrder_product_unavailable
             (mkOrderRequest "r1" "Ada" None None "p2" 1 None) shop2).
    right. intros p Hp. vm_compute in Hp. injection Hp as <-. by right.
Defined.

(** X2. When the product is found with enough stock but the insert is
    answered with an error, or the key drawn for the row is taken,
    [createOrder] throws that error: no stock write is sent and both
    tables are as before. *)
Theorem createOrder_insert_fails (req : OrderRequest) (w : World) (p : Product) :
  fault_at 0 w = None →
  products w !! product_id req = Some p →
  p_retailer_id p = req_retailer req →
  p_is_active p = true →
  quantity req ≤ p_stock p →
  is_Some (fault_at 1 w) ∨ is_Some (orders w !! gen_random_uuid w) →
  ∃ e w',
    createOrder req w = (Thrown e, w')
    ∧ (fault_at 1 w = Some e ∨ (fault_at 1 w = None ∧ e = unique_violation))
    ∧ orders w' = orders w
    ∧ products w' = products w
    ∧ journal w' =
        journal w ++ [SelectProduct (product_id req);
                      InsertOrder (order_of_request req p)]
    ∧ console w' = console w.
Proof.
  intros Hf0 Hp Hr Ha Hq Hfail. unfold createOrder.
  unfold mbind at 1, db_bind at 1.
  rewrite (select_active_product_found _ _ _ p) by done. db_simpl.
  rewrite bool_decide_false by lia. fold (order_of_request req p).
  unfold insert_order. db_simpl. rewrite fault_at_sent.
  destruct (fault_at 1 w) as [e|] eqn:Hf1.
  - exists e. eexists. split; [reflexivity|]. db_simpl.
    repeat split; try done; [by left|by rewrite <- app_assoc].
  - destruct Hfail as [[e He]|[o Ho]]; [done|]. db_simpl. rewrite Ho.
    exists unique_violation. eexists. split; [reflexivity|]. db_simpl.
    repeat split; try done; [by right|by rewrite <- app_assoc].
Qed.

Lemma createOrder_insert_fails_witness :
  ∃ e w',
    createOrder (buy 2) shop0_no_insert = (Thrown e, w')
    ∧ (fault_at 1 shop0_no_insert = Some e
       ∨ (fault_at 1 shop0_no_insert = None ∧ e = unique_violation))
    ∧ orders w' = orders shop0
    ∧ products w' = products shop0
    ∧ journal w' =
        [SelectProduct "p1";
         InsertOrder (order_of_request (buy 2)
            (mkProduct "r1" "Mug" None 10000 20 (Some "kitchen") None true))]
    ∧ console w' = [].
Proof.
  apply (createOrder_insert_fails (buy 2) shop0_no_insert
           (mkProduct "r1" "Mug" None 10000 20 (Some "kitchen") None true));
    [reflexivity | reflexivity | reflexivity | reflexivity | cbn; lia
    | left; by eexists].
Defined.

Ltac world_simpl :=
  cbn [products orders faults gen_random_uuid now journal console
       set_products set_orders sent].

Ltac world_simpl_in H :=
  cbn [products orders faults gen_random_uuid now journal console
       set_products set_orders sent] in H.

Lemma set_stock_back (p : Product) (q : Z) :
  set_stock (p_stock (set_stock (p_stock p - q) p) + q)
            (set_stock (p_stock p - q) p) = p.
Proof. destruct p. unfold set_stock. cbn. f_equal. lia. Qed.

(** Deleting a pending order whose product is in the store, up to the
    delete statement. *)
Lemma deleteOrder_pending_run (retailerId id : string) (w : World)
    (o : Order) (p : Product) :
  fault_at 0 w = None → fault_at 1 w = None → fault_at 2 w = None →
  orders w !! id = Some o →
  o_retailer_id o = retailerId →
  o_status o = "pending" →
  products w !! o_product_id o = Some p →
  let restored :=
    set_products
      (alter (set_stock (p_stock p + o_quantity o)) (o_product_id o))
      (sent (UpdateProductStock (o_product_id o) (p_stock p + o_quantity o))
         (sent (SelectProductStock (o_product_id o))
            (sent (SelectOrder id) w))) in
  deleteOrder retailerId id w =
    match fault_at 3 w with
    | Some deleteError => (Thrown deleteError, sent (DeleteOrder id) restored)
    | None =>
        (Sent (mkResponse 200 true (Some "Order deleted successfully") None),
         set_orders (delete id) (sent (DeleteOrder id) restored))
    end.
Proof.
  intros Hf0 Hf1 Hf2 Ho Hr Hst Hp restored. unfold deleteOrder.
  unfold mbind at 1, db_bind at 1.
  rewrite (select_order_found _ _ _ o) by done. db_simpl.
  rewrite bool_decide_true by (rewrite deletable_status; tauto). cbn [negb].
  rewrite (bool_decide_true (o_status o = "pending")) by done.
  rewrite (select_product_stock_found _ _ p) by (by rewrite ?fault_at_sent).
  db_simpl.
  rewrite update_product_stock_applied by (by rewrite ?fault_at_sent).
  db_simpl. fold restored.
  unfold delete_order. db_simpl.
  replace (fault_at 0 restored) with (fault_at 3 w)
    by (subst restored; unfold fault_at; cbn; by destruct (faults w) as [|? [|? [|? ?]]]).
  destruct (fault_at 3 w); [done|]. db_simpl.
  subst restored. db_simpl. rewrite Ho. by rewrite bool_decide_true.
Qed.

(** X3. With a store that executes every statement, creating an order
    and then deleting it while it is pending gives back the two tables as
    they were: the stock taken by the creation is restored exactly and the
    order row is gone. *)
Theorem createOrder_then_deleteOrder (req : OrderRequest) (w : World) (p : Product) :
  faults w = [] →
  products w !! product_id req = Some p →
  p_retailer_id p = req_retailer req →
  p_is_active p = true →
  quantity req ≤ p_stock p →
  orders w !! gen_random_uuid w = None →
  ∃ r1 w1 w2,
    createOrder req w = (Sent r1, w1)
    ∧ status r1 = 201
    ∧ deleteOrder (req_retailer req) (gen_random_uuid w) w1 =
        (Sent (mkResponse 200 true (Some "Order deleted successfully") None), w2)
    ∧ products w2 = products w
    ∧ orders w2 = orders w.
Proof.
  intros Hh Hp Hr Ha Hq Hfree.
  pose proof (createOrder_created req w p (fault_at_nil 0 w Hh)
                (fault_at_nil 1 w Hh) (fault_at_nil 2 w Hh) Hp Hr Ha Hq Hfree)
    as Hc. cbv zeta in Hc.
  set (o := stored_order (order_of_request req p) (now w)) in *.
  do 3 eexists. split; [exact Hc|]. split; [done|].
  match goal with |- deleteOrder _ _ ?x = _ ∧ _ => set (w1 := x) end.
  assert (faults w1 = []) as Hh1 by (subst w1; world_simpl; by rewrite Hh).
  assert (orders w1 !! gen_random_uuid w = Some o) as Ho1
    by (subst w1; world_simpl; apply lookup_insert_eq).
  assert (products w1 !! o_product_id o
          = Some (set_stock (p_stock p - quantity req) p)) as Hp1
    by (subst w1; world_simpl; cbn; by rewrite lookup_alter_eq, Hp).
  rewrite (deleteOrder_pending_run (req_retailer req) (gen_random_uuid w)
             w1 o (set_stock (p_stock p - quantity req) p)
             (fault_at_nil 0 w1 Hh1) (fault_at_nil 1 w1 Hh1)
             (fault_at_nil 2 w1 Hh1) Ho1 eq_refl eq_refl Hp1).
  rewrite (fault_at_nil 3 w1 Hh1).
  split; [reflexivity|]. subst w1. world_simpl. split.
  - apply map_eq. intros k. unfold o.
    cbn [o_product_id stored_order order_of_request n_product_id].
    destruct (decide (k = product_id req)) as [->|Hk].
    + rewrite !lookup_alter_eq, Hp. cbn [fmap option_fmap option_map].
      f_equal. apply (set_stock_back p (quantity req)).
    + by rewrite !lookup_alter_ne.
  - by apply delete_insert_id.
Qed.

Lemma createOrder_then_deleteOrder_witness :
  ∃ r1 w1 w2,
    createOrder (buy 2) shop0 = (Sent r1, w1)
    ∧ status r1 = 201
    ∧ deleteOrder "r1" "o1" w1 =
        (Sent (mkResponse 200 true (Some "Order deleted successfully") None), w2)
    ∧ products w2 = products shop0
    ∧ orders w2 = orders shop0.
Proof.
  apply (createOrder_then_deleteOrder (buy 2) shop0
           (mkProduct "r1" "Mug" None 10000 20 (Some "kitchen") None true));
    [reflexivity | reflexivity | reflexivity | reflexivity | cbn; lia
    | reflexivity].
Defined.

(** X4. When the delete statement of a pending order fails after its
    stock has been given back, [deleteOrder] throws that error with the
    order row still in the table and the stock already incremented; if
    the request is then repeated and the store executes it, the stock is
    incremented a second time: the product ends with twice the quantity
    of the order added. *)
Theorem deleteOrder_delete_fails (retailerId id : string) (w : World)
    (o : Order) (p : Product) (deleteError : ErrorObj) :
  fault_at 0 w = None → fault_at 1 w = None → fault_at 2 w = None →
  fault_at 3 w = Some deleteError →
  orders w !! id = Some o →
  o_retailer_id o = retailerId →
  o_status o = "pending" →
  products w !! o_product_id o = Some p →
  ∃ w1,
    deleteOrder retailerId id w = (Thrown deleteError, w1)
    ∧ orders w1 = orders w
    ∧ products w1 =
        <[o_product_id o := set_stock (p_stock p + o_quantity o) p]> (products w)
    ∧ console w1 = console w
    ∧ (fault_at 4 w = None → fault_at 5 w = None → fault_at 6 w = None →
       fault_at 7 w = None →
       ∃ w2,
         deleteOrder retailerId id w1 =
           (Sent (mkResponse 200 true (Some "Order deleted successfully") None),
            w2)
         ∧ orders w2 = delete id (orders w)
         ∧ products w2 =
             <[o_product_id o := set_stock (p_stock p + 2 * o_quantity o) p]>
               (products w)).
Proof.
  intros Hf0 Hf1 Hf2 Hf3 Ho Hr Hst Hp.
  pose proof (deleteOrder_pending_run retailerId id w o p Hf0 Hf1 Hf2 Ho Hr
                Hst Hp) as H1.
  cbv zeta in H1. rewrite Hf3 in H1.
  eexists. split; [exact H1|].
  match goal with |- orders ?x = _ ∧ _ => set (w1 := x) end.
  assert (products w1 =
          <[o_product_id o := set_stock (p_stock p + o_quantity o) p]>
            (products w)) as Hp1.
  { subst w1. world_simpl. apply map_eq. intros k.
    destruct (decide (k = o_product_id o)) as [->|Hk].
    - by rewrite lookup_alter_eq, lookup_insert_eq, Hp.
    - by rewrite lookup_alter_ne, lookup_insert_ne. }
  split; [done|]. split; [exact Hp1|]. split; [done|].
  intros Hf4 Hf5 Hf6 Hf7.
  assert (∀ n, fault_at n w1 = fault_at (4 + n) w) as Hshift.
  { intros n. subst w1. unfold fault_at. world_simpl.
    by destruct (faults w) as [|? [|? [|? [|? ?]]]]; destruct n. }
  pose proof (deleteOrder_pending_run retailerId id w1 o
                (set_stock (p_stock p + o_quantity o) p)) as H2.
  rewrite !Hshift in H2. cbn [Nat.add] in H2.
  rewrite Hf7 in H2. cbv zeta in H2.
  rewrite H2; try done.
  - eexists. split; [reflexivity|]. world_simpl. split; [done|].
    rewrite Hp1. apply map_eq. intros k.
    destruct (decide (k = o_product_id o)) as [->|Hk].
    + rewrite lookup_alter_eq, !lookup_insert_eq. cbn. f_equal.
      destruct p. unfold set_stock. cbn. f_equal. lia.
    + by rewrite lookup_alter_ne, !lookup_insert_ne.
  - rewrite Hp1. by rewrite lookup_insert_eq.
Qed.

Lemma deleteOrder_delete_fails_witness :
  ∃ w1 w2,
    deleteOrder "r1" "o1" shop1_no_delete = (Thrown timeout_error, w1)
    ∧ orders w1 = orders shop1
    ∧ products w1 = <["p1" := set_stock (18 + 2) mug]> (products shop1)
    ∧ deleteOrder "r1" "o1" w1 =
        (Sent (mkResponse 200 true (Some "Order deleted successfully") None),
         w2)
    ∧ orders w2 = delete "o1" (orders shop1)
    ∧ products w2 = <["p1" := set_stock (18 + 2 * 2) mug]> (products shop1).
Proof.
  destruct (deleteOrder_delete_fails "r1" "o1" shop1_no_delete
              (order_with "pending" 2) mug timeout_error
              eq_refl eq_refl eq_refl eq_refl eq_refl eq_refl eq_refl eq_refl)
    as (w1 & H1 & Ho1 & Hp1 & _ & Hagain).
  destruct (Hagain eq_refl eq_refl eq_refl eq_refl) as (w2 & H2 & Ho2 & Hp2).
  by exists w1, w2.
Defined.

(** ** What the handlers do to the two tables, whatever the store fails *)

Lemma createOrder_tables (req : OrderRequest) (w : World) :
  let w' := (createOrder req w).2 in
  (orders w' = orders w ∧ products w' = products w)
  ∨ ∃ p,
      products w !! product_id req = Some p
      ∧ p_retailer_id p = req_retailer req
      ∧ quantity req ≤ p_stock p
      ∧ orders w !! gen_random_uuid w = None
      ∧ orders w' =
          <[gen_random_uuid w := stored_order (order_of_request req p) (now w)]>
            (orders w)
      ∧ (products w' = products w
         ∨ products w' =
             <[product_id req := set_stock (p_stock p - quantity req) p]>
               (products w)).
Proof.
  unfold createOrder, select_active_product. db_simpl.
  destruct (fault_at 0 w); db_simpl; [by left|].
  destruct (products w !! product_id req) as [p|] eqn:Hp; db_simpl; [|by left].
  destruct (bool_decide (p_retailer_id p = req_retailer req)) eqn:Hr;
    [|by left].
  apply bool_decide_eq_true in Hr.
  destruct (p_is_active p); cbn [andb]; db_simpl; [|by left].
  case_bool_decide as Hq; db_simpl; [by left|].
  unfold insert_order. db_simpl.
  destruct (fault_at 0 (sent _ w)); db_simpl; [by left|].
  destruct (orders w !! gen_random_uuid w) eqn:Hfree; db_simpl; [by left|].
  fold (order_of_request req p). right. exists p.
  split; [done|]. split; [done|]. split; [lia|]. split; [done|].
  unfold update_product_stock. db_simpl.
  destruct (fault_at 0 _); db_simpl.
  - split; [done|]. by left.
  - split; [done|]. right. apply map_eq. intros k.
    destruct (decide (k = product_id req)) as [->|Hk].
    + by rewrite lookup_alter_eq, lookup_insert_eq, Hp.
    + by rewrite lookup_alter_ne, lookup_insert_ne.
Qed.

Lemma delete_order_tables (id retailer : string) (w : World) :
  let w' := (delete_order id retailer w).2 in
  ((orders w' = orders w)
   ∨ (∃ o, orders w !! id = Some o ∧ o_retailer_id o = retailer
           ∧ orders w' = delete id (orders w)))
  ∧ products w' = products w.
Proof.
  unfold delete_order. db_simpl.
  destruct (fault_at 0 w); db_simpl; [by split; [left|]|].
  destruct (orders w !! id) as [o|] eqn:Ho; db_simpl; [|by split; [left|]].
  case_bool_decide; db_simpl; [|by split; [left|]].
  split; [right; by exists o|done].
Qed.

Ltac run_delete_order :=
  match goal with
  | |- context [delete_order ?i ?r ?w0] =>
      let Hor := fresh "Hor" in
      let Hpr := fresh "Hpr" in
      destruct (delete_order_tables i r w0) as [Hor Hpr];
      cbv zeta in Hor, Hpr;
      destruct (delete_order i r w0) as [r3 w3];
      cbn [snd] in Hor, Hpr; world_simpl_in Hor; world_simpl_in Hpr;
      destruct (error r3); db_simpl
  end.

Lemma deleteOrder_tables (retailerId id : string) (w : World) :
  let w' := (deleteOrder retailerId id w).2 in
  (orders w' = orders w ∧ products w' = products w)
  ∨ ∃ o,
      orders w !! id = Some o
      ∧ o_retailer_id o = retailerId
      ∧ (o_status o = "pending" ∨ o_status o = "cancelled")
      ∧ (orders w' = orders w ∨ orders w' = delete id (orders w))
      ∧ (products w' = products w
         ∨ ∃ p, o_status o = "pending"
                ∧ products w !! o_product_id o = Some p
                ∧ products w' =
                    <[o_product_id o := set_stock (p_stock p + o_quantity o) p]>
                      (products w)).
Proof.
  unfold deleteOrder, select_order. db_simpl.
  destruct (fault_at 0 w) as [e|]; db_simpl.
  { left. by case_bool_decide. }
  destruct (orders w !! id) as [o|] eqn:Ho; db_simpl; [|by left].
  destruct (bool_decide (o_retailer_id o = retailerId)) eqn:Hr;
    db_simpl; [|by left].
  apply bool_decide_eq_true in Hr.
  case_bool_decide as Hdel; cbn [negb]; db_simpl; [|by left].
  apply deletable_status in Hdel.
  right. exists o. split; [done|]. split; [done|]. split; [done|].
  assert (∀ m : gmap string Order,
            m = orders w ∨ (∃ o0, orders w !! id = Some o0
                                  ∧ o_retailer_id o0 = retailerId
                                  ∧ m = delete id (orders w)) →
            m = orders w ∨ m = delete id (orders w)) as Hweak.
  { intros m [->|(? & _ & _ & ->)]; [by left|by right]. }
  case_bool_decide as Hpend; db_simpl.
  - unfold select_product_stock. db_simpl.
    destruct (fault_at 0 (sent (SelectOrder id) w)); db_simpl.
    { run_delete_order; (split; [by apply Hweak|left; by rewrite Hpr]). }
    destruct (products w !! o_product_id o) as [p|] eqn:Hp; db_simpl.
    + unfold update_product_stock. db_simpl.
      destruct (fault_at 0 _); db_simpl.
      * run_delete_order; (split; [by apply Hweak|left; by rewrite Hpr]).
      * assert (alter (set_stock (p_stock p + o_quantity o)) (o_product_id o)
                  (products w) =
          <[o_product_id o := set_stock (p_stock p + o_quantity o) p]>
            (products w)) as Hp3.
        { apply map_eq. intros k.
          destruct (decide (k = o_product_id o)) as [->|Hk].
          - by rewrite lookup_alter_eq, lookup_insert_eq, Hp.
          - by rewrite lookup_alter_ne, lookup_insert_ne. }
        run_delete_order;
          (split; [by apply Hweak|right; exists p; by rewrite Hpr, Hp3]).
    + run_delete_order; (split; [by apply Hweak|left; by rewrite Hpr]).
  - run_delete_order; (split; [by apply Hweak|left; by rewrite Hpr]).
Qed.

Lemma updateOrderStatus_tables (retailerId id status : string)
    (notes : option (option string)) (w : World) :
  let w' := (updateOrderStatus retailerId id status notes w).2 in
  products w' = products w
  ∧ (orders w' = orders w
     ∨ ∃ o, orders w !! id = Some o
            ∧ o_retailer_id o = retailerId
            ∧ orders w' = <[id := apply_updateData status notes o]> (orders w)).
Proof.
  unfold updateOrderStatus, update_order, send_unlisted. db_simpl.
  destruct (fault_at 0 w); db_simpl.
  { case_bool_decide; by split; [|left]. }
  destruct (orders w !! id) as [o|] eqn:Ho; db_simpl; [|by split; [|left]].
  case_bool_decide; db_simpl; [|by split; [|left]].
  split; [done|]. right. by exists o.
Qed.

Lemma toggleProductStatus_tables (retailerId id : string) (w : World) :
  let w' := (toggleProductStatus retailerId id w).2 in
  orders w' = orders w
  ∧ (products w' = products w
     ∨ ∃ p, products w !! id = Some p
            ∧ p_retailer_id p = retailerId
            ∧ products w' =
                <[id := set_is_active (negb (p_is_active p)) p]> (products w)).
Proof.
  unfold toggleProductStatus, select_product_active, update_product_active.
  db_simpl.
  destruct (fault_at 0 w); db_simpl.
  { case_bool_decide; by split; [|left]. }
  destruct (products w !! id) as [p|] eqn:Hp; db_simpl; [|by split; [|left]].
  case_bool_decide as Hr; db_simpl; [|by split; [|left]].
  destruct (fault_at 0 _); db_simpl; [by split; [|left]|].
  rewrite Hp. rewrite bool_decide_true by done. db_simpl.
  split; [done|]. right. by exists p.
Qed.

Lemma deleteProduct_tables (retailerId id : string) (w : World) :
  let w' := (deleteProduct retailerId id w).2 in
  orders w' = orders w
  ∧ (products w' = products w
     ∨ ∃ p, products w !! id = Some p
            ∧ p_retailer_id p = retailerId
            ∧ (∀ k o, orders w !! k = Some o → o_product_id o ≠ id)
            ∧ products w' = delete id (products w)).
Proof.
  unfold deleteProduct, select_orders_of_product, delete_product. db_simpl.
  destruct (fault_at 0 w); db_simpl; [by split; [|left]|].
  case_bool_decide as Href; db_simpl; [by split; [|left]|].
  destruct (fault_at 0 _); db_simpl; [by split; [|left]|].
  destruct (products w !! id) as [p|] eqn:Hp; db_simpl; [|by split; [|left]].
  case_bool_decide as Hr; db_simpl; [|by split; [|left]].
  split; [done|]. right. exists p. repeat split; try done.
  intros k o Hk Hid. apply Href, referencing_orders_nonempty. by exists k, o.
Qed.

Lemma getOrder_tables (retailerId id : string) (w : World) :
  let w' := (getOrder retailerId id w).2 in
  orders w' = orders w ∧ products w' = products w.
Proof.
  unfold getOrder, select_order_detail. db_simpl.
  destruct (fault_at 0 w); db_simpl; [by case_bool_decide|].
  destruct (orders w !! id) as [o|]; db_simpl; [|done].
  by case_bool_decide.
Qed.

Lemma getOrderStats_tables (retailerId : string) (w : World) :
  let w' := (getOrderStats retailerId w).2 in
  orders w' = orders w ∧ products w' = products w.
Proof.
  unfold getOrderStats, select_statuses, select_delivered_amounts,
    send_unlisted. db_simpl.
  destruct (fault_at 0 w); db_simpl; [done|].
  by destruct (fault_at 0 _); db_simpl.
Qed.

Lemma alter_stock_keeps_checks (tbl : gmap string Product) (id : string)
    (p : Product) (n : Z) :
  (∀ k q, tbl !! k = Some q → 0 ≤ p_stock q) → 0 ≤ n →
  ∀ k q, <[id := set_stock n p]> tbl !! k = Some q → 0 ≤ p_stock q.
Proof.
  intros Htbl Hn k q. destruct (decide (id = k)) as [->|Hk].
  - rewrite lookup_insert_eq. by intros [= <-].
  - rewrite lookup_insert_ne by done. apply Htbl.
Qed.

(** X5. The writes of the five mutating handlers respect the check
    constraints of the schema, whatever statements the store fails: if no
    stock is negative and every order has a positive quantity before a
    request, the same holds after it (for [createOrder], with a requested
    quantity of at least 1, as the order validator demands). *)
Theorem handlers_keep_checks (w : World) :
  checks_hold w →
  (∀ req, 1 ≤ quantity req → checks_hold (createOrder req w).2)
  ∧ (∀ retailerId id, checks_hold (deleteOrder retailerId id w).2)
  ∧ (∀ retailerId id status notes,
       checks_hold (updateOrderStatus retailerId id status notes w).2)
  ∧ (∀ retailerId id, checks_hold (toggleProductStatus retailerId id w).2)
  ∧ (∀ retailerId id, checks_hold (deleteProduct retailerId id w).2).
Proof.
  intros [Hstock Hqty]. split; [|split; [|split; [|split]]].
  - intros req Hq1. unfold checks_hold.
    destruct (createOrder_tables req w)
      as [[Ho Hp]|(p & Hlook & _ & Hq & _ & Ho & Hp)].
    { split; [rewrite Hp; apply Hstock|rewrite Ho; apply Hqty]. }
    split.
    + destruct Hp as [-> | ->]; [apply Hstock|].
      apply alter_stock_keeps_checks; [done|lia].
    + rewrite Ho. intros k o. destruct (decide (gen_random_uuid w = k)) as [->|].
      * rewrite lookup_insert_eq. intros [= <-]. cbn. lia.
      * rewrite lookup_insert_ne by done. apply Hqty.
  - intros retailerId id. unfold checks_hold.
    destruct (deleteOrder_tables retailerId id w)
      as [[Ho Hp]|(o & Hlook & _ & _ & Ho & Hp)].
    { split; [rewrite Hp; apply Hstock|rewrite Ho; apply Hqty]. }
    split.
    + destruct Hp as [->|(p & _ & Hpl & ->)]; [apply Hstock|].
      apply alter_stock_keeps_checks; [done|].
      specialize (Hstock _ _ Hpl). specialize (Hqty _ _ Hlook). lia.
    + destruct Ho as [-> | ->]; [apply Hqty|].
      intros k o'. destruct (decide (id = k)) as [->|].
      * by rewrite lookup_delete_eq.
      * rewrite lookup_delete_ne by done. apply Hqty.
  - intros retailerId id st notes. unfold checks_hold.
    destruct (updateOrderStatus_tables retailerId id st notes w)
      as [-> Ho].
    split; [apply Hstock|].
    destruct Ho as [->|(o & Hlook & _ & ->)]; [apply Hqty|].
    intros k o'. destruct (decide (id = k)) as [->|].
    + rewrite lookup_insert_eq. intros [= <-]. cbn. by apply (Hqty k o).
    + rewrite lookup_insert_ne by done. apply Hqty.
  - intros retailerId id. unfold checks_hold.
    destruct (toggleProductStatus_tables retailerId id w) as [-> Hp].
    split; [|apply Hqty].
    destruct Hp as [->|(p & Hlook & _ & ->)]; [apply Hstock|].
    intros k q. destruct (decide (id = k)) as [->|].
    + rewrite lookup_insert_eq. intros [= <-]. cbn. by apply (Hstock k p).
    + rewrite lookup_insert_ne by done. apply Hstock.
  - intros retailerId id. unfold checks_hold.
    destruct (deleteProduct_tables retailerId id w) as [-> Hp].
    split; [|apply Hqty].
    destruct Hp as [->|(p & Hlook & _ & _ & ->)]; [apply Hstock|].
    intros k q. destruct (decide (id = k)) as [->|].
    + by rewrite lookup_delete_eq.
    + rewrite lookup_delete_ne by done. apply Hstock.
Qed.

Lemma checks_hold_shop1 : checks_hold shop1.
Proof.
  split.
  - intros id p Hp. apply elem_of_map_to_list, list_elem_of_In in Hp.
    vm_compute in Hp. destruct Hp as [Hp|[]]. injection Hp as _ <-.
    vm_compute. discriminate.
  - intros id o Ho. apply elem_of_map_to_list, list_elem_of_In in Ho.
    vm_compute in Ho.
    destruct Ho as [Ho|[Ho|[Ho|[Ho|[]]]]]; injection Ho as _ <-; reflexivity.
Qed.

Lemma handlers_keep_checks_witness :
  checks_hold (createOrder (buy 2) shop1).2
  ∧ checks_hold (deleteOrder "r1" "o1" shop1).2
  ∧ checks_hold (updateOrderStatus "r1" "o1" "cancelled" None shop1).2
  ∧ checks_hold (toggleProductStatus "r1" "p1" shop1).2
  ∧ checks_hold (deleteProduct "r1" "p1" shop1).2.
Proof.
  destruct (handlers_keep_checks shop1 checks_hold_shop1)
    as (Hc & Hd & Hu & Ht & Hp).
  split; [apply Hc; cbn; lia|]. split; [apply Hd|]. split; [apply Hu|].
  split; [apply Ht|apply Hp].
Defined.

Lemma same_rows_refl {A} (owner : A → string) (r : string) (m : gmap string A) :
  same_rows_of_others owner r m m.
Proof. by intros k x _. Qed.

Lemma same_rows_insert {A} (owner : A → string) (r : string)
    (m : gmap string A) (k0 : string) (x0 : A) :
  owner x0 = r →
  (∀ y, m !! k0 = Some y → owner y = r) →
  same_rows_of_others owner r m (<[k0 := x0]> m).
Proof.
  intros Hx0 Hold k x Hx. destruct (decide (k0 = k)) as [->|Hk].
  - rewrite lookup_insert_eq. split.
    + intros [= <-]. done.
    + intros Hm. by apply Hold in Hm.
  - by rewrite lookup_insert_ne.
Qed.

Lemma same_rows_delete {A} (owner : A → string) (r : string)
    (m : gmap string A) (k0 : string) :
  (∀ y, m !! k0 = Some y → owner y = r) →
  same_rows_of_others owner r m (delete k0 m).
Proof.
  intros Hold k x Hx. destruct (decide (k0 = k)) as [->|Hk].
  - rewrite lookup_delete_eq. split; [done|].
    intros Hm. by apply Hold in Hm.
  - by rewrite lookup_delete_ne.
Qed.

(** X6. Tenant isolation of the writes, whatever statements the store
    fails: a request of one retailer to [createOrder], [deleteOrder],
    [updateOrderStatus], [toggleProductStatus] or [deleteProduct] neither
    changes, removes nor adds an order row of another retailer, and a
    request to [createOrder], [updateOrderStatus], [toggleProductStatus]
    or [deleteProduct] neither changes, removes nor adds a product row of
    another retailer.  For [deleteOrder] the products are kept under a
    condition only: the lookup and the write that restore the stock are
    not restricted to the retailer, so the product rows of the others are
    as they were when the product of the order, if it is in the table,
    is a product of the retailer who deletes. *)
Theorem other_retailers_rows_kept (retailerId : string) (w : World) :
  (∀ req, req_retailer req = retailerId →
     same_rows_of_others o_retailer_id retailerId
       (orders w) (orders (createOrder req w).2)
     ∧ same_rows_of_others p_retailer_id retailerId
         (products w) (products (createOrder req w).2))
  ∧ (∀ id,
       same_rows_of_others o_retailer_id retailerId
         (orders w) (orders (deleteOrder retailerId id w).2)
       ∧ ((∀ o p, orders w !! id = Some o →
                  products w !! o_product_id o = Some p →
                  p_retailer_id p = retailerId) →
          same_rows_of_others p_retailer_id retailerId
            (products w) (products (deleteOrder retailerId id w).2)))
  ∧ (∀ id status notes,
       same_rows_of_others o_retailer_id retailerId
         (orders w) (orders (updateOrderStatus retailerId id status notes w).2)
       ∧ same_rows_of_others p_retailer_id retailerId
           (products w)
           (products (updateOrderStatus retailerId id status notes w).2))
  ∧ (∀ id,
       same_rows_of_others o_retailer_id retailerId
         (orders w) (orders (toggleProductStatus retailerId id w).2)
       ∧ same_rows_of_others p_retailer_id retailerId
           (products w) (products (toggleProductStatus retailerId id w).2))
  ∧ (∀ id,
       same_rows_of_others o_retailer_id retailerId
         (orders w) (orders (deleteProduct retailerId id w).2)
       ∧ same_rows_of_others p_retailer_id retailerId
           (products w) (products (deleteProduct retailerId id w).2)).
Proof.
  split; [|split; [|split; [|split]]].
  - intros req Hreq.
    destruct (createOrder_tables req w)
      as [[-> ->]|(p & Hlook & Hr & _ & Hfree & -> & Hp)].
    + split; apply same_rows_refl.
    + split.
      * apply same_rows_insert; [by cbn|]. intros y. by rewrite Hfree.
      * destruct Hp as [->| ->]; [apply same_rows_refl|].
        apply same_rows_insert; [cbn; congruence|].
        intros y. rewrite Hlook. intros [= <-]. congruence.
  - intros id.
    destruct (deleteOrder_tables retailerId id w)
      as [[-> ->]|(o & Hlook & Hr & _ & Ho & Hp)];
      [split; [|intros _]; apply same_rows_refl|].
    split.
    + destruct Ho as [->| ->]; [apply same_rows_refl|].
      apply same_rows_delete. intros y. rewrite Hlook. by intros [= <-].
    + intros Hown. destruct Hp as [->|(p & _ & Hpl & ->)];
        [apply same_rows_refl|].
      apply same_rows_insert; [cbn; by apply (Hown o p)|].
      intros y. rewrite Hpl. intros [= <-]. by apply (Hown o p).
  - intros id status notes.
    destruct (updateOrderStatus_tables retailerId id status notes w)
      as [-> [->|(o & Hlook & Hr & ->)]].
    + split; apply same_rows_refl.
    + split; [|apply same_rows_refl].
      apply same_rows_insert; [by cbn|].
      intros y. rewrite Hlook. by intros [= <-].
  - intros id.
    destruct (toggleProductStatus_tables retailerId id w)
      as [-> [->|(p & Hlook & Hr & ->)]].
    + split; apply same_rows_refl.
    + split; [apply same_rows_refl|].
      apply same_rows_insert; [by cbn|].
      intros y. rewrite Hlook. by intros [= <-].
  - intros id.
    destruct (deleteProduct_tables retailerId id w)
      as [-> [->|(p & Hlook & Hr & _ & ->)]].
    + split; apply same_rows_refl.
    + split; [apply same_rows_refl|].
      apply same_rows_delete. intros y. rewrite Hlook. by intros [= <-].
Qed.

Lemma other_retailers_rows_kept_witness :
  products (createOrder (buy 2) shop2).2 !! "p3" = Some lamp
  ∧ products (toggleProductStatus "r1" "p3" shop2).2 !! "p3" = Some lamp
  ∧ products (deleteProduct "r1" "p3" shop2).2 !! "p3" = Some lamp
  ∧ products (deleteOrder "r1" "o1" shop2).2 !! "p3" = Some lamp.
Proof.
  destruct (other_retailers_rows_kept "r1" shop2) as (Hc & Ho & _ & Ht & Hd).
  split; [|split; [|split]].
  - apply (Hc (buy 2) eq_refl); [discriminate|reflexivity].
  - apply (Ht "p3"); [discriminate|reflexivity].
  - apply (Hd "p3"); [discriminate|reflexivity].
  - destruct (Ho "o1") as [_ Hp].
    apply Hp; [|discriminate|reflexivity].
    intros o p Hlo Hlp. vm_compute in Hlo. injection Hlo as <-.
    vm_compute in Hlp. by injection Hlp as <-.
Defined.

(** ** [updateOrderStatus] *)

Lemma update_order_applied (id retailer status : string)
    (notes : option (option string)) (w : World) (o : Order) :
  fault_at 0 w = None →
  orders w !! id = Some o →
  o_retailer_id o = retailer →
  update_order id retailer status notes w =
    (ok (id, apply_updateData status notes o,
         summary_of <$> products w !! o_product_id o),
     set_orders (insert id (apply_updateData status notes o))
                (send_unlisted w).2).
Proof.
  intros Hf Ho Hr. unfold update_order, send_unlisted. db_simpl.
  rewrite Hf. db_simpl. rewrite Ho, bool_decide_true by done. db_simpl. done.
Qed.

(** The run of [updateOrderStatus] on an order of the retailer. *)
Lemma updateOrderStatus_spec_run (retailerId id status : string)
    (notes : option (option string)) (w : World) (o : Order) :
  fault_at 0 w = None →
  orders w !! id = Some o →
  o_retailer_id o = retailerId →
  updateOrderStatus retailerId id status notes w =
    (Sent (mkResponse 200 true (Some "Order updated successfully")
             (Some (OrderData id (apply_updateData status notes o)
                      (summary_of <$> products w !! o_product_id o)))),
     set_orders (insert id (apply_updateData status notes o))
                (send_unlisted w).2).
Proof.
  intros Hf Ho Hr.
  unfold updateOrderStatus. unfold mbind at 1, db_bind at 1.
  rewrite (update_order_applied _ _ _ _ _ o) by done. db_simpl. done.
Qed.

(** X7. With the update executed by the store, [updateOrderStatus] on an
    order of the retailer answers 200 and rewrites that row with the new
    status, and with the new notes when the body has any; whatever the
    old and the new status are, the quantity, unit price, total amount,
    product, customer and creation time of the row stay as they were and
    the products table is not touched: no status change moves stock. *)
Theorem updateOrderStatus_spec (retailerId id status : string)
    (notes : option (option string)) (w : World) (o : Order) :
  fault_at 0 w = None →
  orders w !! id = Some o →
  o_retailer_id o = retailerId →
  ∃ o' w',
    updateOrderStatus retailerId id status notes w =
      (Sent (mkResponse 200 true (Some "Order updated successfully")
               (Some (OrderData id o'
                        (summary_of <$> products w !! o_product_id o)))), w')
    ∧ orders w' = <[id := o']> (orders w)
    ∧ products w' = products w
    ∧ o_status o' = status
    ∧ o_notes o' = default (o_notes o) notes
    ∧ o_quantity o' = o_quantity o
    ∧ o_unit_price o' = o_unit_price o
    ∧ o_total_amount o' = o_total_amount o
    ∧ o_product_id o' = o_product_id o
    ∧ o_retailer_id o' = o_retailer_id o
    ∧ o_customer_name o' = o_customer_name o
    ∧ o_customer_email o' = o_customer_email o
    ∧ o_customer_phone o' = o_customer_phone o
    ∧ o_created_at o' = o_created_at o.
Proof.
  intros Hf Ho Hr. exists (apply_updateData status notes o). eexists.
  unfold updateOrderStatus. unfold mbind at 1, db_bind at 1.
  rewrite (update_order_applied _ _ _ _ _ o) by done. db_simpl.
  split; [reflexivity|]. unfold send_unlisted. db_simpl.
  repeat split; try done.
Qed.

Lemma updateOrderStatus_spec_witness :
  ∃ o' w',
    updateOrderStatus "r1" "o3" "pending" (Some None) shop1 =
      (Sent (mkResponse 200 true (Some "Order updated successfully")
               (Some (OrderData "o3" o'
                        (Some (mkSummary "Mug" (Some "kitchen") None))))), w')
    ∧ orders w' = <["o3" := o']> (orders shop1)
    ∧ products w' = products shop1
    ∧ o_status o' = "pending"
    ∧ o_notes o' = None
    ∧ o_quantity o' = 3
    ∧ o_total_amount o' = 30000.
Proof.
  destruct (updateOrderStatus_spec "r1" "o3" "pending" (Some None) shop1
              (order_with "delivered" 3) eq_refl eq_refl eq_refl)
    as (o' & w' & Hrun & Ho & Hp & Hst & Hn & Hq & _ & Ht & _).
  exists o', w'. repeat split; done.
Defined.

(** X8. [updateOrderStatus] on an id that is not an order of the
    retailer (no such row, or the row of another retailer) answers 404
    and changes nothing. *)
Theorem updateOrderStatus_not_found (retailerId id status : string)
    (notes : option (option string)) (w : World) :
  fault_at 0 w = None →
  (∀ o, orders w !! id = Some o → o_retailer_id o ≠ retailerId) →
  ∃ w',
    updateOrderStatus retailerId id status notes w =
      (Sent (mkResponse 404 false (Some "Order not found") None), w')
    ∧ orders w' = orders w
    ∧ products w' = products w.
Proof.
  intros Hf Hno. eexists. unfold updateOrderStatus, update_order, send_unlisted.
  db_simpl. rewrite Hf. db_simpl.
  destruct (orders w !! id) as [o|] eqn:Ho; db_simpl.
  - rewrite bool_decide_false by (by apply Hno). db_simpl. done.
  - done.
Qed.

Lemma updateOrderStatus_not_found_witness :
  ∃ w',
    updateOrderStatus "r2" "o1" "delivered" None shop1 =
      (Sent (mkResponse 404 false (Some "Order not found") None), w')
    ∧ orders w' = orders shop1
    ∧ products w' = products shop1.
Proof.
  apply (updateOrderStatus_not_found "r2" "o1" "delivered" None shop1);
    [reflexivity|].
  intros o Ho. vm_compute in Ho. injection Ho as <-. discriminate.
Defined.

(** X9. Cancelling through the status and then deleting does not give
    the stock back.  With a store that executes every statement, setting
    an order of the retailer, pending or not, to [cancelled] and then
    deleting it answers 200 twice and removes the order, and the products
    table is exactly what it was before the two requests; deleting a
    pending order directly adds its quantity to the stock. *)
Theorem cancel_then_delete_keeps_stock (retailerId id : string)
    (notes : option (option string)) (w : World) (o : Order) :
  faults w = [] →
  orders w !! id = Some o →
  o_retailer_id o = retailerId →
  ∃ r1 w1 w2,
    updateOrderStatus retailerId id "cancelled" notes w = (Sent r1, w1)
    ∧ status r1 = 200
    ∧ deleteOrder retailerId id w1 =
        (Sent (mkResponse 200 true (Some "Order deleted successfully") None), w2)
    ∧ orders w2 = delete id (orders w)
    ∧ products w2 = products w.
Proof.
  intros Hh Ho Hr.
  pose proof (updateOrderStatus_spec_run retailerId id "cancelled" notes w o
                (fault_at_nil 0 w Hh) Ho Hr) as H1.
  do 3 eexists. split; [exact H1|]. split; [done|].
  match goal with |- deleteOrder _ _ ?x = _ ∧ _ => set (w1 := x) in * end.
  assert (faults w1 = []) as Hh1
    by (subst w1; unfold send_unlisted; world_simpl; cbn; by rewrite Hh).
  unfold deleteOrder. unfold mbind at 1, db_bind at 1.
  rewrite (select_order_found _ _ _ (apply_updateData "cancelled" notes o));
    [|by apply fault_at_nil|subst w1; world_simpl; by rewrite lookup_insert_eq
     |done].
  db_simpl.
  rewrite bool_decide_true by (rewrite deletable_status; cbn; tauto).
  cbn [negb]. rewrite (bool_decide_false (_ = "pending")) by (cbn; discriminate).
  db_simpl.
  rewrite (delete_order_applied _ _ _ (apply_updateData "cancelled" notes o));
    [|unfold fault_at; world_simpl; by rewrite Hh1
     |subst w1; world_simpl; by rewrite lookup_insert_eq|done].
  db_simpl. split; [reflexivity|]. subst w1. unfold send_unlisted. world_simpl.
  split; [|done]. by rewrite delete_insert_eq.
Qed.

Lemma cancel_then_delete_keeps_stock_witness :
  ∃ r1 w1 w2,
    updateOrderStatus "r1" "o1" "cancelled" None shop1 = (Sent r1, w1)
    ∧ status r1 = 200
    ∧ deleteOrder "r1" "o1" w1 =
        (Sent (mkResponse 200 true (Some "Order deleted successfully") None), w2)
    ∧ orders w2 = delete "o1" (orders shop1)
    ∧ products w2 = products shop1.
Proof.
  apply (cancel_then_delete_keeps_stock "r1" "o1" None shop1
           (order_with "pending" 2)); reflexivity.
Defined.

(** ** [getOrderStats] *)

Lemma getOrderStats_run (retailerId : string) (w : World) :
  fault_at 0 w = None → fault_at 1 w = None →
  getOrderStats retailerId w =
    (Sent (mkAnswer 200 true None
             (Some (order_stats_of retailerId (orders w)))),
     (send_unlisted (send_unlisted w).2).2).
Proof.
  intros Hf0 Hf1. unfold getOrderStats, select_statuses,
    select_delivered_amounts.
  unfold mbind at 1, db_bind at 1. unfold mbind at 1, db_bind at 1.
  destruct (send_unlisted w) as [f0 w0] eqn:H0.
  assert (f0 = None ∧ orders w0 = orders w ∧ fault_at 0 w0 = None)
    as (-> & Hw0 & Hf0').
  { unfold send_unlisted in H0. injection H0 as <- <-.
    split; [done|]. split; [done|].
    unfold fault_at in *. cbn. by destruct (faults w). }
  db_simpl. rewrite Hw0.
  destruct (send_unlisted w0) as [f1 w1] eqn:H1.
  assert (f1 = None ∧ orders w1 = orders w0) as (-> & Hw1).
  { unfold send_unlisted in H1. by injection H1 as <- <-. }
  db_simpl. rewrite Hw1, Hw0. done.
Qed.

(** Filtering the rows of a table, and the rows of the filtered table. *)
Lemma rows_of_filter {A} (P : string * A → Prop) `{!∀ x, Decision (P x)}
    (m : gmap string A) :
  filter P (map_to_list m) ≡ₚ map_to_list (filter P m).
Proof.
  apply NoDup_Permutation.
  - apply NoDup_filter, NoDup_map_to_list.
  - apply NoDup_map_to_list.
  - intros [k x]. rewrite list_elem_of_filter, !elem_of_map_to_list.
    rewrite map_lookup_filter_Some. tauto.
Qed.

Lemma status_counts_sum (l : list string) :
  six_counts (status_counts l) ≤ c_total (status_counts l)
  ∧ (Forall (λ s, s ∈ order_statuses) l →
     six_counts (status_counts l) = c_total (status_counts l)).
Proof.
  unfold six_counts, status_counts, count. cbn [c_total c_pending c_confirmed
    c_processing c_shipped c_delivered c_cancelled].
  induction l as [|s l [IH1 IH2]]; [by cbn|].
  rewrite !filter_cons. cbn [length].
  split.
  - repeat case_decide; subst; try discriminate; cbn [length]; lia.
  - intros Hall. apply Forall_cons in Hall as [Hs Hall].
    specialize (IH2 Hall). unfold order_statuses in Hs.
    rewrite !elem_of_cons, elem_of_nil in Hs.
    repeat case_decide; subst; try discriminate; cbn [length]; try lia.
    exfalso. tauto.
Qed.

(** X10. With its two statements executed, [getOrderStats] answers 200
    with [total] the number of orders of the retailer; the six status
    counts never add up to more than [total], and add up to exactly
    [total] when every order of the retailer has one of the six statuses
    the status validator accepts.  Both tables are left as they were. *)
Theorem getOrderStats_buckets (retailerId : string) (w : World) :
  fault_at 0 w = None → fault_at 1 w = None →
  ∃ d w',
    getOrderStats retailerId w = (Sent (mkAnswer 200 true None (Some d)), w')
    ∧ c_total (sd_orderStats d) =
        Z.of_nat (size (filter (of_retailer retailerId) (orders w)))
    ∧ six_counts (sd_orderStats d) ≤ c_total (sd_orderStats d)
    ∧ ((∀ k o, orders w !! k = Some o → o_retailer_id o = retailerId →
               o_status o ∈ order_statuses) →
       six_counts (sd_orderStats d) = c_total (sd_orderStats d))
    ∧ orders w' = orders w
    ∧ products w' = products w.
Proof.
  intros Hf0 Hf1. do 2 eexists.
  split; [by apply getOrderStats_run|].
  unfold order_stats_of. cbn [sd_orderStats].
  split; [|split; [apply status_counts_sum|split; [|done]]].
  - unfold status_counts. cbn [c_total]. rewrite length_fmap. f_equal.
    rewrite <- (length_map_to_list (filter _ (orders w))).
    apply Permutation_length, rows_of_filter.
  - intros Hall. apply status_counts_sum. apply Forall_fmap, Forall_forall.
    intros [k o] Hin. apply list_elem_of_filter in Hin as [Hr Hin].
    apply elem_of_map_to_list in Hin. cbn. by apply (Hall k o).
Qed.

Lemma getOrderStats_buckets_witness :
  ∃ d w',
    getOrderStats "r1" shop3 = (Sent (mkAnswer 200 true None (Some d)), w')
    ∧ c_total (sd_orderStats d) = 4
    ∧ six_counts (sd_orderStats d) ≤ c_total (sd_orderStats d).
Proof.
  destruct (getOrderStats_buckets "r1" shop3 eq_refl eq_refl)
    as (d & w' & Hrun & Htotal & Hle & _).
  exists d, w'. split; [done|]. split; [|done].
  rewrite Htotal. vm_compute. reflexivity.
Defined.

Lemma filter_ext_elem {A} (P Q : A → Prop) `{!∀ x, Decision (P x)}
    `{!∀ x, Decision (Q x)} (l : list A) :
  (∀ x, x ∈ l → (P x ↔ Q x)) → filter P l = filter Q l.
Proof.
  induction l as [|x l IH]; intros Hext; [done|].
  rewrite !filter_cons.
  rewrite IH by (intros y Hy; apply Hext; by right).
  destruct (decide (P x)) as [HP|HP], (decide (Q x)) as [HQ|HQ]; try done.
  - exfalso. apply HQ, Hext; [by left|done].
  - exfalso. apply HP, Hext; [by left|done].
Qed.

(** The rows of a table that pass a test on the row alone are the rows
    of the table restricted to them, in the same order. *)
Lemma gmap_dep_ne_fold_omap {A B C} (f : A → option B)
    (F : positive → B → C → C) P (t : gmap_dep_ne A P) j y :
  stdpp.gmap.gmap_dep_fold F j y (stdpp.gmap.gmap_dep_ne_omap f t)
  = stdpp.gmap.gmap_dep_ne_fold
      (λ i x acc, match f x with Some z => F i z acc | None => acc end) j y t.
Proof.
  revert j y.
  induction t as [P r IHr|P p x|P p x r IHr|P l IHl|P l IHl r IHr
                  |P l IHl p x|P l IHl p x r IHr]; intros j y; cbn.
  - rewrite <- IHr. by destruct (stdpp.gmap.gmap_dep_ne_omap f r).
  - by destruct (f x).
  - rewrite <- IHr.
    by destruct (f x), (stdpp.gmap.gmap_dep_ne_omap f r).
  - rewrite <- IHl. by destruct (stdpp.gmap.gmap_dep_ne_omap f l).
  - rewrite <- IHr, <- IHl.
    by destruct (stdpp.gmap.gmap_dep_ne_omap f l),
                (stdpp.gmap.gmap_dep_ne_omap f r).
  - rewrite <- IHl.
    by destruct (f x), (stdpp.gmap.gmap_dep_ne_omap f l).
  - rewrite <- IHr, <- IHl.
    by destruct (f x), (stdpp.gmap.gmap_dep_ne_omap f l),
                (stdpp.gmap.gmap_dep_ne_omap f r).
Qed.

Lemma gmap_dep_ne_fold_list_omap `{Countable K} {A B} (f : A → option B)
    P (t : gmap_dep_ne A P) j (acc : list (K * A)) :
  omap (λ r : K * A, (r.1,.) <$> f r.2)
    (stdpp.gmap.gmap_dep_ne_fold
       (λ i x, match decode i with Some k => cons (k, x) | None => id end)
       j acc t)
  = stdpp.gmap.gmap_dep_ne_fold
      (λ i x acc', match f x with
                   | Some z => match decode i with
                               | Some k => cons (k, z)
                               | None => id
                               end acc'
                   | None => acc'
                   end)
      j (omap (λ r : K * A, (r.1,.) <$> f r.2) acc) t.
Proof.
  revert j acc.
  induction t as [P r IHr|P p x|P p x r IHr|P l IHl|P l IHl r IHr
                  |P l IHl p x|P l IHl p x r IHr]; intros j acc; cbn;
    rewrite ?IHr, ?IHl; try done;
    destruct (decode (Pos.reverse j)) as [k|]; cbn; by destruct (f x).
Qed.

Lemma map_to_list_omap_gmap `{Countable K} {A B} (f : A → option B)
    (m : gmap K A) :
  map_to_list (omap f m)
  = omap (λ r : K * A, (r.1,.) <$> f r.2) (map_to_list m).
Proof.
  destruct m as [mt].
  unfold map_to_list, map_fold, gmap_fold, omap at 1, gmap_omap.
  cbn [gmap_car].
  destruct mt as [|t]; [done|].
  unfold stdpp.gmap.gmap_dep_omap, stdpp.gmap.gmap_dep_omap_aux.
  rewrite gmap_dep_ne_fold_omap.
  unfold stdpp.gmap.gmap_dep_fold, stdpp.gmap.gmap_fold_aux.
  by rewrite gmap_dep_ne_fold_list_omap.
Qed.

Lemma map_to_list_filter_gmap `{Countable K} {A} (P : A → Prop)
    `{!∀ x, Decision (P x)} (m : gmap K A) :
  filter (λ r : K * A, P r.2) (map_to_list m)
  = map_to_list (omap (λ x, if decide (P x) then Some x else None) m).
Proof.
  rewrite map_to_list_omap_gmap.
  induction (map_to_list m) as [|[k x] l IH]; [done|].
  rewrite filter_cons. cbn. destruct (decide (P x)); cbn; by rewrite IH.
Qed.

Lemma filter_rows_omap {A} (P : A → Prop) `{!∀ x, Decision (P x)}
    (Q : string * A → Prop) `{!∀ r, Decision (Q r)} (m : gmap string A) :
  (∀ r, Q r ↔ P r.2) →
  filter Q (map_to_list m)
  = map_to_list (omap (λ x, if decide (P x) then Some x else None) m).
Proof.
  intros HQ. rewrite <- map_to_list_filter_gmap.
  apply filter_ext_elem. intros r _. apply HQ.
Qed.

Lemma status_counts_Permutation (l1 l2 : list string) :
  l1 ≡ₚ l2 → status_counts l1 = status_counts l2.
Proof. intros Hp. unfold status_counts, count. by rewrite !Hp. Qed.

Lemma order_stats_of_own (retailerId : string) (m : gmap string Order) :
  order_stats_of retailerId m =
  order_stats_of retailerId (filter (of_retailer retailerId) m).
Proof.
  unfold order_stats_of. f_equal.
  - apply status_counts_Permutation. apply fmap_Permutation.
    rewrite !rows_of_filter. by rewrite map_filter_filter_l.
  - do 3 f_equal.
    rewrite !(filter_rows_omap
                (λ o, o_retailer_id o = retailerId ∧ o_status o = "delivered")
                (delivered_of retailerId)) by done.
    f_equal. apply map_eq. intros k. rewrite !lookup_omap.
    rewrite map_lookup_filter. destruct (m !! k) as [o|]; [|done]. cbn.
    case_guard as Hr; [done|]. cbn.
    rewrite decide_False; [done|]. intros [? _]. by apply Hr.
Qed.



Lemma count_fmap {A B} (f : A → B) (P : B → Prop) `{!∀ y, Decision (P y)}
    (l : list A) :
  count P (f <$> l) = count (λ x, P (f x)) l.
Proof.
  unfold count. f_equal. induction l as [|x l IH]; [done|].
  rewrite fmap_cons, !filter_cons.
  destruct (decide (P (f x))); cbn [length]; by rewrite IH.
Qed.

Lemma totalRevenue_rows (retailerId : string) (rows : list (string * Order)) :
  totalRevenue
    ((λ r : string * Order,
        mkRecent (o_status r.2) (o_total_amount r.2)
                 (timestamptz_text (o_created_at r.2)))
     <$> filter (of_retailer retailerId) rows)
  = foldl (λ sum total_amount, add sum (parseFloat (JSON_number total_amount)))
      zero
      ((λ r : string * Order, o_total_amount r.2)
       <$> filter (delivered_of retailerId) rows).
Proof.
  unfold totalRevenue. generalize zero.
  induction rows as [|[k o] rows IH]; intros sum; [done|].
  rewrite !(filter_cons _ (k, o)).
  destruct (decide (of_retailer retailerId (k, o))) as [Hr|Hr];
    destruct (decide (delivered_of retailerId (k, o))) as [Hd|Hd];
    unfold of_retailer, delivered_of in Hr, Hd; cbn [snd] in Hr, Hd.
  - rewrite !fmap_cons, filter_cons. cbn [ro_status snd].
    rewrite decide_True by tauto. cbn [foldl ro_total_amount].
    unfold parseFloat at 1 3. rewrite or_zero_JSON_number. apply IH.
  - rewrite !fmap_cons, filter_cons. cbn [ro_status snd].
    rewrite decide_False by tauto. apply IH.
  - tauto.
  - apply IH.
Qed.



Lemma order_stats_of_insert_pending (retailerId : string)
    (m : gmap string Order) (k : string) (o : Order) :
  m !! k = None →
  o_retailer_id o = retailerId →
  o_status o = "pending" →
  let s := order_stats_of retailerId m in
  let s' := order_stats_of retailerId (<[k := o]> m) in
  c_total (sd_orderStats s') = c_total (sd_orderStats s) + 1
  ∧ c_pending (sd_orderStats s') = c_pending (sd_orderStats s) + 1
  ∧ c_confirmed (sd_orderStats s') = c_confirmed (sd_orderStats s)
  ∧ c_processing (sd_orderStats s') = c_processing (sd_orderStats s)
  ∧ c_shipped (sd_orderStats s') = c_shipped (sd_orderStats s)
  ∧ c_delivered (sd_orderStats s') = c_delivered (sd_orderStats s)
  ∧ c_cancelled (sd_orderStats s') = c_cancelled (sd_orderStats s)
  ∧ sd_totalRevenue s' = sd_totalRevenue s.
Proof.
  intros Hk Hr Hst s s'. subst s s'. unfold order_stats_of.
  cbn [sd_orderStats sd_totalRevenue].
  assert (filter (of_retailer retailerId) (map_to_list (<[k:=o]> m))
          ≡ₚ (k, o) :: filter (of_retailer retailerId) (map_to_list m)) as Hown.
  { rewrite (map_to_list_insert m k o Hk), filter_cons.
    by rewrite decide_True by done. }
  assert (filter (delivered_of retailerId) (map_to_list (<[k:=o]> m))
          = filter (delivered_of retailerId) (map_to_list m)) as Hdel.
  { rewrite !(filter_rows_omap
                (λ o, o_retailer_id o = retailerId ∧ o_status o = "delivered")
                (delivered_of retailerId)) by done.
    f_equal. apply map_eq. intros k'. rewrite !lookup_omap.
    destruct (decide (k' = k)) as [->|Hne].
    - rewrite lookup_insert_eq, Hk. cbn.
      rewrite decide_False; [done|]. rewrite Hst. intros [_ ?]. discriminate.
    - by rewrite lookup_insert_ne. }
  rewrite (status_counts_Permutation _ _ (fmap_Permutation _ _ _ Hown)).
  rewrite Hdel.
  rewrite fmap_cons. cbn [snd]. rewrite Hst.
  unfold status_counts, count.
  cbn [c_total c_pending c_confirmed c_processing c_shipped c_delivered
       c_cancelled length].
  rewrite !filter_cons.
  repeat (first [rewrite decide_True by done
                | rewrite decide_False by discriminate]).
  cbn [length]. repeat split; lia.
Qed.

(** X13. With a store that executes every statement, an order that
    [createOrder] has just created shows in the statistics of the retailer
    as one more order and one more pending order; the five other status
    counts and the revenue are what they were. *)
Theorem createOrder_counted_as_pending (req : OrderRequest) (w : World)
    (p : Product) :
  faults w = [] →
  products w !! product_id req = Some p →
  p_retailer_id p = req_retailer req →
  p_is_active p = true →
  quantity req ≤ p_stock p →
  orders w !! gen_random_uuid w = None →
  ∃ r1 w1 s s' w2 w3,
    createOrder req w = (Sent r1, w1)
    ∧ status r1 = 201
    ∧ getOrderStats (req_retailer req) w =
        (Sent (mkAnswer 200 true None (Some s)), w2)
    ∧ getOrderStats (req_retailer req) w1 =
        (Sent (mkAnswer 200 true None (Some s')), w3)
    ∧ c_total (sd_orderStats s') = c_total (sd_orderStats s) + 1
    ∧ c_pending (sd_orderStats s') = c_pending (sd_orderStats s) + 1
    ∧ c_confirmed (sd_orderStats s') = c_confirmed (sd_orderStats s)
    ∧ c_processing (sd_orderStats s') = c_processing (sd_orderStats s)
    ∧ c_shipped (sd_orderStats s') = c_shipped (sd_orderStats s)
    ∧ c_delivered (sd_orderStats s') = c_delivered (sd_orderStats s)
    ∧ c_cancelled (sd_orderStats s') = c_cancelled (sd_orderStats s)
    ∧ sd_totalRevenue s' = sd_totalRevenue s.
Proof.
  intros Hh Hp Hr Ha Hq Hfree.
  pose proof (createOrder_created req w p (fault_at_nil 0 w Hh)
                (fault_at_nil 1 w Hh) (fault_at_nil 2 w Hh) Hp Hr Ha Hq Hfree)
    as Hc. cbv zeta in Hc.
  do 6 eexists. split; [exact Hc|]. split; [done|].
  split; [apply getOrderStats_run; by apply fault_at_nil|].
  split.
  { apply getOrderStats_run; unfold fault_at; world_simpl; by rewrite Hh. }
  world_simpl.
  by apply order_stats_of_insert_pending.
Qed.

Lemma createOrder_counted_as_pending_witness :
  ∃ r1 w1 s s' w2 w3,
    createOrder (buy 2) shop0 = (Sent r1, w1)
    ∧ status r1 = 201
    ∧ getOrderStats "r1" shop0 = (Sent (mkAnswer 200 true None (Some s)), w2)
    ∧ getOrderStats "r1" w1 = (Sent (mkAnswer 200 true None (Some s')), w3)
    ∧ c_total (sd_orderStats s') = c_total (sd_orderStats s) + 1
    ∧ c_pending (sd_orderStats s') = c_pending (sd_orderStats s) + 1
    ∧ c_confirmed (sd_orderStats s') = c_confirmed (sd_orderStats s)
    ∧ c_processing (sd_orderStats s') = c_processing (sd_orderStats s)
    ∧ c_shipped (sd_orderStats s') = c_shipped (sd_orderStats s)
    ∧ c_delivered (sd_orderStats s') = c_delivered (sd_orderStats s)
    ∧ c_cancelled (sd_orderStats s') = c_cancelled (sd_orderStats s)
    ∧ sd_totalRevenue s' = sd_totalRevenue s.
Proof.
  apply (createOrder_counted_as_pending (buy 2) shop0
           (mkProduct "r1" "Mug" None 10000 20 (Some "kitchen") None true));
    [reflexivity | reflexivity | reflexivity | reflexivity | cbn; lia
    | reflexivity].
Defined.

(** ** More of [getDashboard] *)

Lemma select_product_stats_any r w :
  select_product_stats r w =
    (match fault_at 0 w with
     | Some e => failed e
     | None => ok (product_stat_rows r (products w))
     end, sent (SelectProductStats r) w).
Proof. unfold select_product_stats. db_simpl. by destruct (fault_at 0 w). Qed.

Lemma select_recent_orders_any r since w :
  select_recent_orders r since w =
    (match fault_at 0 w with
     | Some e => failed e
     | None => ok (recent_order_rows r since (orders w))
     end, sent (SelectRecentOrders r since) w).
Proof. unfold select_recent_orders. db_simpl. by destruct (fault_at 0 w). Qed.

Lemma select_low_stock_any r w :
  select_low_stock r w =
    (match fault_at 0 w with
     | Some e => failed e
     | None => ok (low_stock_rows r (products w))
     end, sent (SelectLowStock r) w).
Proof. unfold select_low_stock. db_simpl. by destruct (fault_at 0 w). Qed.

Lemma select_weekly_orders_any r since w :
  select_weekly_orders r since w =
    (match fault_at 0 w with
     | Some e => failed e
     | None => ok (weekly_order_rows r since (orders w))
     end, sent (SelectWeeklyOrders r since) w).
Proof. unfold select_weekly_orders. db_simpl. by destruct (fault_at 0 w). Qed.

(** X14. [getDashboard] is all or nothing and reads only.  Whatever the
    store fails, the four statements are all sent and neither table
    changes; the answer is the complete dashboard when none of the four
    is answered with an error, and otherwise the handler throws the first
    of the errors, in the order products, orders, low stock, weekly, after
    writing it to the console: there is no partial dashboard. *)
Theorem getDashboard_all_or_nothing (Date_now : nat → Z) (retailerId : string)
    (w : World) :
  ∃ w',
    getDashboard Date_now retailerId w =
      (match first_dashboard_error w with
       | Some e => Thrown e
       | None =>
           Sent (mkResponse 200 true None
                   (Some (DashboardData (dashboard_of Date_now retailerId w))))
       end, w')
    ∧ orders w' = orders w
    ∧ products w' = products w
    ∧ journal w' =
        journal w ++
          [SelectProductStats retailerId;
           SelectRecentOrders retailerId (Date_now 0%nat - 30 * msPerDay);
           SelectLowStock retailerId;
           SelectWeeklyOrders retailerId (Date_now 1%nat - 7 * msPerDay)]
    ∧ console w' =
        console w ++
          match first_dashboard_error w with
          | Some e => [("Dashboard error:", e)]
          | None => []
          end.
Proof.
  unfold getDashboard, first_dashboard_error, rethrow.
  unfold mbind at 1, db_bind at 1. rewrite select_product_stats_any.
  unfold mbind at 1, db_bind at 1. rewrite select_recent_orders_any.
  unfold mbind at 1, db_bind at 1. rewrite select_low_stock_any.
  unfold mbind at 1, db_bind at 1. rewrite select_weekly_orders_any.
  rewrite !fault_at_sent.
  destruct (fault_at 0 w), (fault_at 1 w), (fault_at 2 w), (fault_at 3 w);
    db_simpl; eexists; (split; [reflexivity|]); db_simpl;
    rewrite <- ?app_assoc, ?app_nil_r; done.
Qed.

Lemma chart_dates (Date_now : nat → Z) (weeklyOrders : list WeeklyOrderRow) :
  date <$> chartData Date_now weeklyOrders = keys (seed_days Date_now).
Proof.
  rewrite chartData_keys, <- list_fmap_compose.
  rewrite <- (list_fmap_id (keys _)) at 2. by apply list_fmap_ext.
Qed.

Lemma chart_total_keys (ds : list string) (rows : list WeeklyOrderRow) :
  chart_total ((λ d, mkPoint d (orders_dated d rows)) <$> ds)
  = foldr (λ d total, orders_dated d rows + total) 0 ds.
Proof.
  unfold chart_total. induction ds as [|d ds IH]; [done|].
  cbn [fmap list_fmap foldr orders_on]. by rewrite <- IH.
Qed.

Lemma orders_dated_sum (ds : list string) (rows : list WeeklyOrderRow) :
  NoDup ds →
  foldr (λ d total, orders_dated d rows + total) 0 ds
  = count (λ o, before_T (created_at o) ∈ ds) rows.
Proof.
  intros Hnd. induction rows as [|o rows IH].
  - unfold count. cbn. induction ds as [|d ds IHd]; [done|].
    apply NoDup_cons in Hnd as [_ Hnd]. cbn. rewrite (IHd Hnd).
    unfold orders_dated, count. cbn. lia.
  - unfold count in *. rewrite filter_cons.
    assert (foldr (λ d total, orders_dated d (o :: rows) + total) 0 ds
            = (if decide (before_T (created_at o) ∈ ds) then 1 else 0)
              + foldr (λ d total, orders_dated d rows + total) 0 ds) as ->.
    { clear IH. induction ds as [|d ds IHd].
      - cbn. by rewrite decide_False by apply not_elem_of_nil.
      - apply NoDup_cons in Hnd as [Hnin Hnd]. cbn [foldr].
        rewrite (IHd Hnd), orders_dated_cons.
        destruct (decide (before_T (created_at o) = d)) as [Heq|Hne].
        + rewrite bool_decide_true by done.
          rewrite (decide_True (P := _ ∈ d :: ds)) by (rewrite Heq; left).
          rewrite decide_False by (by rewrite Heq). lia.
        + rewrite bool_decide_false by done.
          destruct (decide (before_T (created_at o) ∈ ds)) as [Hin|Hnin'].
          * rewrite (decide_True (P := _ ∈ d :: ds)) by (by right). lia.
          * rewrite (decide_False (P := _ ∈ d :: ds)); [lia|].
            rewrite elem_of_cons. tauto. }
    rewrite IH. destruct (decide (before_T (created_at o) ∈ ds));
      cbn [length]; lia.
Qed.

Lemma count_le_length {A} (P : A → Prop) `{!∀ x, Decision (P x)} (l : list A) :
  count P l ≤ Z.of_nat (length l).
Proof. unfold count. pose proof (length_filter P l). lia. Qed.

(** X15. Whatever the clock reads in the seven turns of the seeding
    loop, the counts of the weekly chart add up to the number of fetched
    rows whose creation date is one of the dates of the chart: no row is
    counted twice and a row dated on no day of the chart is not counted
    at all; so the total never exceeds the number of fetched rows.  A row
    of the eighth day back, which the weekly query still fetches, is
    dated on no day of the chart when no turn reads the clock on an
    earlier day than the day the count of days is taken from. *)
Theorem chart_total_counts_window (Date_now : nat → Z)
    (weeklyOrders : list WeeklyOrderRow) :
  let chart := chartData Date_now weeklyOrders in
  chart_total chart
  = count (λ o, before_T (created_at o) ∈ date <$> chart) weeklyOrders
  ∧ chart_total chart ≤ Z.of_nat (length weeklyOrders)
  ∧ (∀ t created,
       (∀ turn, (turn ≤ 6)%nat →
          Day t ≤ Day (Date_now turn)
          ∧ four_digit_year (Date_now turn - 6 * msPerDay)
          ∧ four_digit_year (Date_now turn)) →
       four_digit_year created → Day created = Day t - 7 →
       before_T (timestamptz_text created) ∉ date <$> chart).
Proof.
  intros chart. subst chart. rewrite chart_dates.
  rewrite chartData_keys, chart_total_keys.
  rewrite orders_dated_sum by apply seed_days_NoDup.
  split; [done|]. split; [apply count_le_length|].
  intros t created Hclock Hc Hday Hin.
  rewrite before_T_timestamptz_text in Hin by done.
  apply seed_days_keys in Hin as (i & Hi & Heq).
  destruct (Hclock (6 - i)%nat ltac:(lia)) as (Hle & Hlo & Hhi).
  rewrite before_T_toISOString in Heq
    by (unfold four_digit_year, msPerDay in *; lia).
  apply iso_date_inj in Heq;
    [|done|unfold four_digit_year, msPerDay in *; lia].
  rewrite Day_shift in Heq. lia.
Qed.

Lemma chart_total_counts_window_witness :
  chart_total (chartData (frozen 1700000000000) week_rows) = 3
  ∧ chart_total (chartData (frozen 1700000000000) week_rows) ≤ 4
  ∧ before_T (timestamptz_text (1700000000000 - 7 * msPerDay))
    ∉ date <$> chartData (frozen 1700000000000) week_rows.
Proof.
  destruct (chart_total_counts_window (frozen 1700000000000) week_rows)
    as (Htotal & Hle & Hout).
  split; [|split; [exact Hle|]].
  - rewrite Htotal. vm_compute. reflexivity.
  - apply (Hout 1700000000000).
    + intros turn _. unfold frozen, four_digit_year, msPerDay. lia.
    + unfold four_digit_year, msPerDay. lia.
    + vm_compute. reflexivity.
Defined.

(** ** The error middleware *)

Ltac in_list :=
  repeat first [ apply list_elem_of_here | apply list_elem_of_further ].


Lemma error_response_failure_of (e : ErrorObj) :
  error_response (failure_of e) =
    if bool_decide (err_code e = "") then
      mkErrorBody false "Internal Server Error" 500 None
    else if bool_decide (err_code e = "23505") then
      mkErrorBody false "Resource already exists" 409 None
    else if bool_decide (err_code e = "23503") then
      mkErrorBody false "Invalid reference - related resource not found" 400 None
    else if bool_decide (err_code e = "23502") then
      mkErrorBody false "Required field is missing" 400 None
    else mkErrorBody false "Database operation failed" 400 None.
Proof.
  unfold error_response, failure_of.
  cbn [f_code f_type f_name f_statusCode f_message f_errors e_errors].
  rewrite (bool_decide_false ("" = "validation")) by done.
  rewrite (bool_decide_false ("" = "JsonWebTokenError")) by done.
  rewrite (bool_decide_false ("" = "TokenExpiredError")) by done.
  rewrite (bool_decide_false (0 ≠ 0)) by (intros ?; done).
  by repeat case_bool_decide.
Qed.

(** X17. An error thrown by a handler reaches [errorHandler] through
    [asyncHandler]: the answer is 500 exactly when the error has no code,
    409 exactly when the code is 23505, and 400 for every other code, the
    no-row code PGRST116 included; the message is one of the fixed ones,
    there is no [errors] field, the console gets one more line and the
    tables are as the handler left them. *)
Theorem asyncHandler_thrown {R} (fn : Db (Outcome R)) (w w1 : World)
    (e : ErrorObj) :
  fn w = (Thrown e, w1) →
  ∃ body w',
    asyncHandler fn w = (inr body, w')
    ∧ (e_statusCode body = 500 ↔ err_code e = "")
    ∧ (e_statusCode body = 409 ↔ err_code e = "23505")
    ∧ (e_statusCode body = 400 ↔ err_code e ≠ "" ∧ err_code e ≠ "23505")
    ∧ e_success body = false
    ∧ e_message body ∈ stock_messages
    ∧ e_errors body = None
    ∧ console w' = console w1 ++ [("Error:", mkError (err_code e) (err_message e))]
    ∧ products w' = products w1 ∧ orders w' = orders w1.
Proof.
  intros Hfn. unfold asyncHandler, errorHandler.
  unfold mbind, db_bind. rewrite Hfn.
  cbn [console_error mret db_ret fst snd].
  eexists _, _. split; [reflexivity|].
  rewrite error_response_failure_of. unfold stock_messages.
  cbn [console products orders f_code f_message failure_of].
  case_bool_decide as H0.
  { cbn. rewrite H0. repeat split; try done; try in_list. intros [? _]. done. }
  case_bool_decide as H1.
  { cbn. rewrite H1. repeat split; try done; try in_list. intros [_ ?]. done. }
  case_bool_decide as H2.
  { cbn. repeat split; try done; in_list. }
  case_bool_decide as H3.
  { cbn. repeat split; try done; in_list. }
  cbn. repeat split; try done; in_list.
Qed.

Lemma asyncHandler_thrown_witness :
  ∃ body w',
    asyncHandler (toggleProductStatus "r1" "p1") shop1_flaky = (inr body, w')
    ∧ e_statusCode body = 500.
Proof.
  destruct (asyncHandler_thrown (toggleProductStatus "r1" "p1") shop1_flaky
              (toggleProductStatus "r1" "p1" shop1_flaky).2 timeout_error)
    as (body & w' & H & H500 & _).
  - vm_compute. reflexivity.
  - exists body, w'. split; [exact H|]. by apply H500.
Defined.
(** ** What an answer says about the tables, whatever the store fails *)

Lemma createOrder_sent (req : OrderRequest) (w : World) :
  match createOrder req w with
  | (Sent r, w') =>
      (success r = false ∧ (status r = 400 ∨ status r = 404)
       ∧ orders w' = orders w ∧ products w' = products w)
      ∨ (success r = true ∧ status r = 201
         ∧ ∃ p, products w !! product_id req = Some p
                ∧ p_retailer_id p = req_retailer req
                ∧ p_is_active p = true
                ∧ quantity req ≤ p_stock p
                ∧ orders w !! gen_random_uuid w = None
                ∧ orders w' =
                    <[gen_random_uuid w :=
                        stored_order (order_of_request req p) (now w)]>
                      (orders w)
                ∧ payload r =
                    Some (OrderData (gen_random_uuid w)
                            (stored_order (order_of_request req p) (now w))
                            (Some (summary_of p))))
  | (Thrown _, _) => True
  end.
Proof.
  unfold createOrder, select_active_product. db_simpl.
  destruct (fault_at 0 w); db_simpl; [left; by auto|].
  destruct (products w !! product_id req) as [p|] eqn:Hp; db_simpl;
    [|left; by auto].
  destruct (bool_decide (p_retailer_id p = req_retailer req)) eqn:Hr;
    [|left; by auto].
  apply bool_decide_eq_true in Hr.
  destruct (p_is_active p) eqn:Ha; cbn [andb]; db_simpl; [|left; by auto].
  case_bool_decide as Hq; db_simpl; [left; by auto|].
  unfold insert_order. db_simpl.
  destruct (fault_at 0 (sent _ w)); db_simpl; [done|].
  destruct (orders w !! gen_random_uuid w) eqn:Hfree; db_simpl; [done|].
  fold (order_of_request req p).
  unfold update_product_stock. db_simpl.
  assert (n_product_id (order_of_request req p) = product_id req) as Hid by done.
  destruct (fault_at 0 _); db_simpl; right;
    (split; [done|]); (split; [done|]); exists p;
    rewrite ?Hid, ?Hp; repeat split; try done; lia.
Qed.
Lemma delete_order_sent (id retailer : string) (w : World) (o : Order) :
  orders w !! id = Some o → o_retailer_id o = retailer →
  products (delete_order id retailer w).2 = products w
  ∧ (error (delete_order id retailer w).1 = None →
     orders (delete_order id retailer w).2 = delete id (orders w)).
Proof.
  intros Ho Hr. unfold delete_order. db_simpl.
  destruct (fault_at 0 w); db_simpl; [done|].
  rewrite Ho. rewrite bool_decide_true by done. by db_simpl.
Qed.

Ltac run_delete_order_of o :=
  match goal with
  | |- context [delete_order ?i ?r ?w0] =>
      let Hpr := fresh "Hpr" in
      let Hor := fresh "Hor" in
      destruct (delete_order_sent i r w0 o) as [Hpr Hor];
      [by world_simpl|done|];
      destruct (delete_order i r w0) as [r3 w3];
      cbn [fst snd] in Hor, Hpr; world_simpl_in Hor; world_simpl_in Hpr;
      destruct (error r3); db_simpl
  end.

Lemma deleteOrder_sent (retailerId id : string) (w : World) :
  match deleteOrder retailerId id w with
  | (Sent r, w') =>
      (success r = false ∧ (status r = 404 ∨ status r = 409)
       ∧ orders w' = orders w ∧ products w' = products w)
      ∨ (success r = true ∧ status r = 200
         ∧ ∃ o, orders w !! id = Some o
                ∧ o_retailer_id o = retailerId
                ∧ (o_status o = "pending" ∨ o_status o = "cancelled")
                ∧ orders w' = delete id (orders w))
  | (Thrown _, _) => True
  end.
Proof.
  unfold deleteOrder, select_order. db_simpl.
  destruct (fault_at 0 w) as [e|]; db_simpl.
  { case_bool_decide; [left; by auto|done]. }
  destruct (orders w !! id) as [o|] eqn:Ho; db_simpl; [|left; by auto].
  destruct (bool_decide (o_retailer_id o = retailerId)) eqn:Hr;
    db_simpl; [|left; by auto].
  apply bool_decide_eq_true in Hr.
  case_bool_decide as Hdel; cbn [negb]; db_simpl; [|left; by auto].
  apply deletable_status in Hdel.
  case_bool_decide as Hpend; db_simpl.
  - unfold select_product_stock. db_simpl.
    destruct (fault_at 0 (sent (SelectOrder id) w)); db_simpl.
    { run_delete_order_of o; [done|].
      right. split; [done|]. split; [done|]. exists o. by rewrite Hor. }
    destruct (products w !! o_product_id o) as [p|] eqn:Hp; db_simpl.
    + unfold update_product_stock. db_simpl.
      destruct (fault_at 0 _); db_simpl;
        (run_delete_order_of o; [done|];
         right; split; [done|]; split; [done|]; exists o; by rewrite Hor).
    + run_delete_order_of o; [done|].
      right. split; [done|]. split; [done|]. exists o. by rewrite Hor.
  - run_delete_order_of o; [done|].
    right. split; [done|]. split; [done|]. exists o. by rewrite Hor.
Qed.

Lemma updateOrderStatus_sent (retailerId id st : string)
    (notes : option (option string)) (w : World) :
  match updateOrderStatus retailerId id st notes w with
  | (Sent r, w') =>
      products w' = products w
      ∧ ((success r = false ∧ status r = 404 ∧ orders w' = orders w)
         ∨ (success r = true ∧ status r = 200
            ∧ ∃ o, orders w !! id = Some o
                   ∧ o_retailer_id o = retailerId
                   ∧ orders w' =
                       <[id := apply_updateData st notes o]> (orders w)))
  | (Thrown _, _) => True
  end.
Proof.
  unfold updateOrderStatus, update_order, send_unlisted. db_simpl.
  destruct (fault_at 0 w); db_simpl.
  { case_bool_decide; [split; [done|left; by auto]|done]. }
  destruct (orders w !! id) as [o|] eqn:Ho; db_simpl;
    [|split; [done|left; by auto]].
  case_bool_decide; db_simpl; [|split; [done|left; by auto]].
  split; [done|]. right. split; [done|]. split; [done|]. by exists o.
Qed.

Lemma toggleProductStatus_sent (retailerId id : string) (w : World) :
  match toggleProductStatus retailerId id w with
  | (Sent r, w') =>
      orders w' = orders w
      ∧ ((success r = false ∧ status r = 404 ∧ products w' = products w)
         ∨ (success r = true ∧ status r = 200
            ∧ ∃ p, products w !! id = Some p
                   ∧ p_retailer_id p = retailerId
                   ∧ products w' =
                       <[id := set_is_active (negb (p_is_active p)) p]>
                         (products w)))
  | (Thrown _, _) => True
  end.
Proof.
  unfold toggleProductStatus, select_product_active, update_product_active.
  db_simpl.
  destruct (fault_at 0 w); db_simpl.
  { case_bool_decide; [split; [done|left; by auto]|done]. }
  destruct (products w !! id) as [p|] eqn:Hp; db_simpl;
    [|split; [done|left; by auto]].
  case_bool_decide as Hr; db_simpl; [|split; [done|left; by auto]].
  destruct (fault_at 0 _); db_simpl; [done|].
  rewrite Hp. rewrite bool_decide_true by done. db_simpl.
  split; [done|]. right. split; [done|]. split; [done|]. by exists p.
Qed.

Lemma deleteProduct_sent (retailerId id : string) (w : World) :
  match deleteProduct retailerId id w with
  | (Sent r, w') =>
      orders w' = orders w
      ∧ ((success r = false ∧ status r = 409 ∧ products w' = products w)
         ∨ (success r = true ∧ status r = 200
            ∧ (∀ k o, orders w !! k = Some o → o_product_id o ≠ id)
            ∧ (∀ p, products w !! id = Some p → p_retailer_id p = retailerId →
                 products w' = delete id (products w))
            ∧ (∀ p, products w !! id = Some p → p_retailer_id p ≠ retailerId →
                 products w' = products w)
            ∧ (products w !! id = None → products w' = products w)))
  | (Thrown _, _) => True
  end.
Proof.
  unfold deleteProduct, select_orders_of_product, delete_product. db_simpl.
  destruct (fault_at 0 w); db_simpl; [done|].
  case_bool_decide as Href; db_simpl; [split; [done|left; by auto]|].
  assert (∀ k o, orders w !! k = Some o → o_product_id o ≠ id) as Hnone.
  { intros k o Hk Hid. apply Href, referencing_orders_nonempty. by exists k, o. }
  destruct (fault_at 0 _); db_simpl; [done|].
  destruct (products w !! id) as [p|] eqn:Hp; db_simpl.
  - case_bool_decide as Hr; db_simpl;
      (split; [done|]); right; repeat split; try done.
    + intros q [= <-] Hq. done.
    + intros q [= <-] Hq. done.
  - split; [done|]. right. repeat split; try done.
Qed.
Lemma asyncHandler_sent {R} (fn : Db (Outcome R)) (w w' : World) (r : R) :
  asyncHandler fn w = (inl r, w') → fn w = (Sent r, w').
Proof.
  unfold asyncHandler, errorHandler, mbind, db_bind.
  destruct (fn w) as [[r0|e] w0]; cbn [console_error mret db_ret fst snd].
  - by intros [= -> ->].
  - discriminate.
Qed.

(** X18. A refusal that one of the five mutating handlers, as exported
    through [asyncHandler], sends itself -- an answer with
    [success: false] that is the handler's own and not the one the error
    middleware builds for an error thrown -- comes with nothing written:
    both tables are as they were, whatever statements the store failed;
    and the status of such a refusal is 400, 404 or 409.  The answers of
    the error middleware have [success: false] as well and give no such
    guarantee: see [deleteOrder_delete_fails]. *)
Theorem refusals_write_nothing (w w' : World) (r : Response) :
  success r = false →
  ((∃ req, asyncHandler (createOrder req) w = (inl r, w'))
   ∨ (∃ retailerId id, asyncHandler (deleteOrder retailerId id) w = (inl r, w'))
   ∨ (∃ retailerId id st notes,
        asyncHandler (updateOrderStatus retailerId id st notes) w = (inl r, w'))
   ∨ (∃ retailerId id,
        asyncHandler (toggleProductStatus retailerId id) w = (inl r, w'))
   ∨ (∃ retailerId id,
        asyncHandler (deleteProduct retailerId id) w = (inl r, w'))) →
  orders w' = orders w ∧ products w' = products w
  ∧ status r ∈ [400; 404; 409].
Proof.
  intros Hr [(req & H)|[(rid & id & H)|[(rid & id & st & notes & H)|
             [(rid & id & H)|(rid & id & H)]]]];
    apply asyncHandler_sent in H.
  - pose proof (createOrder_sent req w) as L. rewrite H in L.
    destruct L as [(_ & Hs & Ho & Hp)|(Hs & _)]; [|congruence].
    split; [done|]. split; [done|].
    destruct Hs as [-> | ->]; in_list.
  - pose proof (deleteOrder_sent rid id w) as L. rewrite H in L.
    destruct L as [(_ & Hs & Ho & Hp)|(Hs & _)]; [|congruence].
    split; [done|]. split; [done|].
    destruct Hs as [-> | ->]; in_list.
  - pose proof (updateOrderStatus_sent rid id st notes w) as L.
    rewrite H in L.
    destruct L as [Hp [(_ & -> & Ho)|(Hs & _)]]; [|congruence].
    split; [done|]. split; [done|]. in_list.
  - pose proof (toggleProductStatus_sent rid id w) as L. rewrite H in L.
    destruct L as [Ho [(_ & -> & Hp)|(Hs & _)]]; [|congruence].
    split; [done|]. split; [done|]. in_list.
  - pose proof (deleteProduct_sent rid id w) as L. rewrite H in L.
    destruct L as [Ho [(_ & -> & Hp)|(Hs & _)]]; [|congruence].
    split; [done|]. split; [done|]. in_list.
Qed.

Lemma refusals_write_nothing_witness :
  orders (asyncHandler (deleteOrder "r1" "o3") shop1).2 = orders shop1
  ∧ products (asyncHandler (deleteOrder "r1" "o3") shop1).2 = products shop1
  ∧ status (mkResponse 409 false
              (Some "Only pending or cancelled orders can be deleted") None)
      ∈ [400; 404; 409].
Proof.
  apply (refusals_write_nothing shop1
           (asyncHandler (deleteOrder "r1" "o3") shop1).2
           (mkResponse 409 false
              (Some "Only pending or cancelled orders can be deleted") None)).
  - reflexivity.
  - right. left. exists "r1", "o3". vm_compute. reflexivity.
Defined.

(** X19. A success answer of a mutating handler is never sent without
    its write: whatever statements the store failed, after 201 from
    [createOrder] the order is stored for an active product of the
    retailer that had the stock; after 200 from [deleteOrder] the order,
    which was the retailer's and pending or cancelled, is gone; after 200
    from [updateOrderStatus] or [toggleProductStatus] the row of the
    retailer holds the new value; after 200 from [deleteProduct] no order
    referenced the product and no product of the retailer has that id. *)
Theorem success_means_written (w w' : World) (r : Response) :
  success r = true →
  (∀ req, createOrder req w = (Sent r, w') →
     status r = 201
     ∧ ∃ p, products w !! product_id req = Some p
            ∧ p_retailer_id p = req_retailer req
            ∧ p_is_active p = true
            ∧ quantity req ≤ p_stock p
            ∧ orders w' !! gen_random_uuid w =
                Some (stored_order (order_of_request req p) (now w))
            ∧ payload r =
                Some (OrderData (gen_random_uuid w)
                        (stored_order (order_of_request req p) (now w))
                        (Some (summary_of p))))
  ∧ (∀ retailerId id, deleteOrder retailerId id w = (Sent r, w') →
       status r = 200
       ∧ orders w' !! id = None
       ∧ ∃ o, orders w !! id = Some o ∧ o_retailer_id o = retailerId
              ∧ (o_status o = "pending" ∨ o_status o = "cancelled"))
  ∧ (∀ retailerId id st notes,
       updateOrderStatus retailerId id st notes w = (Sent r, w') →
       status r = 200
       ∧ ∃ o, orders w !! id = Some o ∧ o_retailer_id o = retailerId
              ∧ orders w' !! id = Some (apply_updateData st notes o))
  ∧ (∀ retailerId id, toggleProductStatus retailerId id w = (Sent r, w') →
       status r = 200
       ∧ ∃ p, products w !! id = Some p ∧ p_retailer_id p = retailerId
              ∧ products w' !! id =
                  Some (set_is_active (negb (p_is_active p)) p))
  ∧ (∀ retailerId id, deleteProduct retailerId id w = (Sent r, w') →
       status r = 200
       ∧ (∀ k o, orders w !! k = Some o → o_product_id o ≠ id)
       ∧ (∀ p, products w' !! id = Some p → p_retailer_id p ≠ retailerId)).
Proof.
  intros Hr. repeat apply conj.
  - intros req H. pose proof (createOrder_sent req w) as L. rewrite H in L.
    destruct L as [(Hs & _)|(_ & Hs & p & Hp & Hown & Ha & Hq & _ & Ho & Hpay)];
      [congruence|].
    split; [done|]. exists p. rewrite Ho, lookup_insert_eq. done.
  - intros rid id H. pose proof (deleteOrder_sent rid id w) as L.
    rewrite H in L.
    destruct L as [(Hs & _)|(_ & Hs & o & Ho & Hown & Hst & Hdel)];
      [congruence|].
    split; [done|]. split; [by rewrite Hdel, lookup_delete_eq|]. by exists o.
  - intros rid id st notes H.
    pose proof (updateOrderStatus_sent rid id st notes w) as L.
    rewrite H in L.
    destruct L as [_ [(Hs & _)|(_ & Hs & o & Ho & Hown & Hup)]];
      [congruence|].
    split; [done|]. exists o. by rewrite Hup, lookup_insert_eq.
  - intros rid id H. pose proof (toggleProductStatus_sent rid id w) as L.
    rewrite H in L.
    destruct L as [_ [(Hs & _)|(_ & Hs & p & Hp & Hown & Hup)]];
      [congruence|].
    split; [done|]. exists p. by rewrite Hup, lookup_insert_eq.
  - intros rid id H. pose proof (deleteProduct_sent rid id w) as L.
    rewrite H in L.
    destruct L as [_ [(Hs & _)|(_ & Hs & Hnone & Hown & Hother & Habsent)]];
      [congruence|].
    split; [done|]. split; [done|].
    intros p Hp' Hrid.
    destruct (products w !! id) as [q|] eqn:Hq.
    + destruct (decide (p_retailer_id q = rid)) as [Hq'|Hq'].
      * rewrite (Hown q eq_refl Hq'), lookup_delete_eq in Hp'. done.
      * rewrite (Hother q eq_refl Hq'), Hq in Hp'. congruence.
    + rewrite (Habsent eq_refl), Hq in Hp'. done.
Qed.

Lemma success_means_written_witness :
  status (mkResponse 200 true (Some "Order deleted successfully") None) = 200
  ∧ orders (deleteOrder "r1" "o1" shop1).2 !! "o1" = None
  ∧ ∃ o, orders shop1 !! "o1" = Some o ∧ o_retailer_id o = "r1"
         ∧ (o_status o = "pending" ∨ o_status o = "cancelled").
Proof.
  destruct (success_means_written shop1 (deleteOrder "r1" "o1" shop1).2
              (mkResponse 200 true (Some "Order deleted successfully") None)
              eq_refl) as (_ & H & _).
  apply (H "r1" "o1"). vm_compute. reflexivity.
Defined.
(** ** Reading one row *)

(** X20. With its statement executed by the store, [getOrder] answers 200
    with the order and the columns of its product when the id is an order
    of the retailer, and 404 when it is not; the 404 is the same whether
    the id is unknown or the order of another retailer, and the handler
    writes nothing in either table. *)
Theorem getOrder_spec (retailerId id : string) (w : World) :
  fault_at 0 w = None →
  (∀ o, orders w !! id = Some o → o_retailer_id o = retailerId →
     (getOrder retailerId id w).1 =
       Sent (mkAnswer 200 true None
               (Some (id, o, detail_of <$> products w !! o_product_id o))))
  ∧ ((∀ o, orders w !! id = Some o → o_retailer_id o ≠ retailerId) →
     (getOrder retailerId id w).1 =
       Sent (mkAnswer 404 false (Some "Order not found") None))
  ∧ orders (getOrder retailerId id w).2 = orders w
  ∧ products (getOrder retailerId id w).2 = products w.
Proof.
  intros Hf. split; [|split].
  - intros o Ho Hown. unfold getOrder, select_order_detail. db_simpl.
    rewrite Hf. db_simpl. rewrite Ho. db_simpl.
    rewrite bool_decide_true by done. by db_simpl.
  - intros Hother. unfold getOrder, select_order_detail. db_simpl.
    rewrite Hf. db_simpl.
    destruct (orders w !! id) as [o|] eqn:Ho; db_simpl; [|done].
    rewrite bool_decide_false by (by apply Hother). by db_simpl.
  - apply getOrder_tables.
Qed.

Lemma getOrder_spec_witness :
  (getOrder "r2" "o1" shop1).1 =
    Sent (mkAnswer 404 false (Some "Order not found") None).
Proof.
  destruct (getOrder_spec "r2" "o1" shop1 eq_refl) as (_ & H & _).
  apply H. intros o. vm_compute. intros [= <-]. discriminate.
Defined.

Lemma getProduct_tables (retailerId id : string) (w : World) :
  orders (getProduct retailerId id w).2 = orders w
  ∧ products (getProduct retailerId id w).2 = products w.
Proof.
  unfold getProduct, select_product, send_unlisted. db_simpl.
  destruct (fault_at 0 w); db_simpl; [by case_bool_decide|].
  destruct (products w !! id) as [p|]; db_simpl; [|done].
  by case_bool_decide.
Qed.

(** X21. With its statement executed by the store, [getProduct] answers
    200 with the row when the id is a product of the retailer, and the
    same 404 for an unknown id and for the product of another retailer;
    an inactive product of the retailer is still answered.  The handler
    writes nothing. *)
Theorem getProduct_spec (retailerId id : string) (w : World) :
  fault_at 0 w = None →
  (∀ p, products w !! id = Some p → p_retailer_id p = retailerId →
     (getProduct retailerId id w).1 =
       Sent (mkAnswer 200 true None (Some (id, p))))
  ∧ ((∀ p, products w !! id = Some p → p_retailer_id p ≠ retailerId) →
     (getProduct retailerId id w).1 =
       Sent (mkAnswer 404 false (Some "Product not found") None))
  ∧ orders (getProduct retailerId id w).2 = orders w
  ∧ products (getProduct retailerId id w).2 = products w.
Proof.
  intros Hf. split; [|split].
  - intros p Hp Hown. unfold getProduct, select_product, send_unlisted.
    db_simpl. rewrite Hf. db_simpl. rewrite Hp.
    rewrite bool_decide_true by done. by db_simpl.
  - intros Hother. unfold getProduct, select_product, send_unlisted.
    db_simpl. rewrite Hf. db_simpl.
    destruct (products w !! id) as [p|] eqn:Hp; db_simpl; [|done].
    rewrite bool_decide_false by (by apply Hother). by db_simpl.
  - apply getProduct_tables.
Qed.

Lemma getProduct_spec_witness :
  ∃ p, p_is_active p = false
       ∧ (getProduct "r1" "p2" shop2).1 =
           Sent (mkAnswer 200 true None (Some ("p2", p))).
Proof.
  destruct (getProduct_spec "r1" "p2" shop2 eq_refl) as (H & _).
  eexists. split; [|apply H; [vm_compute; reflexivity|reflexivity]].
  reflexivity.
Defined.
(** ** [getCategories] *)

Lemma spread_Set_acc (xs seen : list string) :
  NoDup seen →
  ∃ ys,
    foldl (λ seen x, if decide (x ∈ seen) then seen else seen ++ [x]) seen xs
      = seen ++ ys
    ∧ NoDup (seen ++ ys)
    ∧ sublist ys xs
    ∧ (∀ x, x ∈ xs → x ∈ seen ++ ys).
Proof.
  revert seen. induction xs as [|x xs IH]; intros seen Hnd.
  - exists []. rewrite app_nil_r. cbn. repeat split; try done.
    intros x Hx. by apply elem_of_nil in Hx.
  - cbn [foldl]. destruct (decide (x ∈ seen)) as [Hin|Hout].
    + destruct (IH seen Hnd) as (ys & Heq & Hnd' & Hsub & Hall).
      exists ys. split; [done|]. split; [done|].
      split; [by apply sublist_cons|].
      intros y [->|Hy]%elem_of_cons; [|by apply Hall].
      apply elem_of_app. by left.
    + assert (NoDup (seen ++ [x])) as Hnd1.
      { apply NoDup_app. split; [done|]. split; [|apply NoDup_singleton].
        intros y Hy ->%list_elem_of_singleton. done. }
      destruct (IH (seen ++ [x]) Hnd1) as (ys & Heq & Hnd' & Hsub & Hall).
      exists (x :: ys). rewrite Heq, <- app_assoc. cbn.
      split; [done|]. split; [by rewrite <- app_assoc in Hnd'|].
      split; [by apply sublist_skip|].
      intros y [->|Hy]%elem_of_cons.
      * apply elem_of_app. right. by left.
      * specialize (Hall y Hy). by rewrite <- app_assoc in Hall.
Qed.

Lemma spread_Set_spec (xs : list string) :
  NoDup (spread_Set xs)
  ∧ sublist (spread_Set xs) xs
  ∧ (∀ x, x ∈ spread_Set xs ↔ x ∈ xs).
Proof.
  unfold spread_Set.
  destruct (spread_Set_acc xs [] NoDup_nil_2) as (ys & -> & Hnd & Hsub & Hall).
  cbn in *. split; [done|]. split; [done|].
  intros x. split; [|by apply Hall].
  intros Hx. by eapply elem_of_sublist.
Qed.

(** X22. With its statement executed by a store whose ordering only
    permutes the rows, [getCategories] answers 200 with a list that has
    no duplicate, that keeps the order the store gave, and whose values
    are exactly the categories carried by a product of the retailer,
    active or not; products without category and products of other
    retailers add nothing. *)
Theorem getCategories_spec (order_by : list string → list string)
    (retailerId : string) (w : World) :
  (∀ l, order_by l ≡ₚ l) →
  fault_at 0 w = None →
  ∃ cs rows,
    (getCategories order_by retailerId w).1 =
      Sent (mkAnswer 200 true None (Some cs))
    ∧ NoDup cs
    ∧ sublist cs (order_by rows)
    ∧ (∀ c, c ∈ cs ↔
            ∃ id p, products w !! id = Some p
                    ∧ p_retailer_id p = retailerId
                    ∧ p_category p = Some c)
    ∧ orders (getCategories order_by retailerId w).2 = orders w
    ∧ products (getCategories order_by retailerId w).2 = products w.
Proof.
  intros Hperm Hf.
  unfold getCategories, select_categories, send_unlisted. db_simpl.
  rewrite Hf. db_simpl.
  set (rows := omap (λ r : string * Product, p_category r.2)
                 (filter (has_category retailerId) (map_to_list (products w)))).
  destruct (spread_Set_spec (order_by rows)) as (Hnd & Hsub & Hel).
  exists (spread_Set (order_by rows)), rows.
  split; [done|]. split; [done|]. split; [done|]. split; [|done].
  intros c. rewrite Hel, (Hperm rows). unfold rows.
  rewrite list_elem_of_omap. split.
  - intros ([id p] & Hin & Hc). apply list_elem_of_filter in Hin as [[Hown _] Hin].
    apply elem_of_map_to_list in Hin. by exists id, p.
  - intros (id & p & Hp & Hown & Hc). exists (id, p). split; [|done].
    apply list_elem_of_filter. split.
    + split; [done|]. cbn. by rewrite Hc.
    + by apply elem_of_map_to_list.
Qed.

Lemma getCategories_spec_witness :
  ∃ cs rows,
    (getCategories (λ l, l) "r1" shop2).1 =
      Sent (mkAnswer 200 true None (Some cs))
    ∧ NoDup cs
    ∧ sublist cs rows.
Proof.
  destruct (getCategories_spec (λ l, l) "r1" shop2 (λ l, reflexivity l) eq_refl)
    as (cs & rows & H & Hnd & Hsub & _).
  exists cs, rows. split; [exact H|]. split; [exact Hnd|exact Hsub].
Defined.
(** ** The authentication middleware *)

Lemma split_nonempty (c : ascii) (s : string) : split c s ≠ [].
Proof.
  destruct s as [|a s]; cbn; [done|].
  destruct (Ascii.eqb a c); [done|]. by destruct (split c s).
Qed.

Lemma split_no_separator (c : ascii) (s : string) :
  c ∉ String.list_ascii_of_string s → split c s = [s].
Proof.
  induction s as [|a s IH]; cbn; [done|].
  intros Hc. apply not_elem_of_cons in Hc as [Hca Hcs].
  destruct (Ascii.eqb_spec a c) as [->|_]; [done|].
  by rewrite (IH Hcs).
Qed.

Lemma split_first_separator (c : ascii) (s t : string) :
  c ∉ String.list_ascii_of_string s →
  split c (s +:+ String c t) = s :: split c t.
Proof.
  induction s as [|a s IH]; intros Hc.
  - change ("" +:+ String c t) with (String c t). cbn.
    by rewrite Ascii.eqb_refl.
  - cbn in Hc. apply not_elem_of_cons in Hc as [Hca Hcs].
    change (String a s +:+ String c t) with (String a (s +:+ String c t)).
    cbn [split]. destruct (Ascii.eqb_spec a c) as [->|_]; [done|].
    by rewrite (IH Hcs).
Qed.

Lemma append_nonempty (s t : string) : s +:+ String " " t ≠ "".
Proof. by destruct s. Qed.

Lemma token_of_after_scheme (s t : string) :
  " "%char ∉ String.list_ascii_of_string s →
  token_of (Some (s +:+ String " " t)) =
    match split " " t with
    | h :: _ => if bool_decide (h = "") then None else Some h
    | [] => None
    end.
Proof.
  intros Hs. unfold token_of.
  rewrite bool_decide_false by apply append_nonempty.
  rewrite split_first_separator by done. cbn [lookup list_lookup].
  by destruct (split " " t).
Qed.

(** X23. The scheme word of the [Authorization] header is not looked at:
    whatever stands before the first space, [Bearer] or anything else
    without a space, the middleware answers as it does for the same rest
    of the header sent after [Bearer]; when that rest is not empty and
    has no space, it is the token. *)
Theorem authenticateToken_ignores_scheme (scheme t : string)
    (getUser : string → option UserReply)
    (retailer_of_user : string → Reply Retailer) :
  " "%char ∉ String.list_ascii_of_string scheme →
  authenticateToken (Some (scheme +:+ String " " t)) getUser retailer_of_user
    = authenticateToken (Some ("Bearer" +:+ String " " t)) getUser
        retailer_of_user
  ∧ (" "%char ∉ String.list_ascii_of_string t → t ≠ "" →
     token_of (Some (scheme +:+ String " " t)) = Some t).
Proof.
  intros Hs. split.
  - unfold authenticateToken.
    rewrite (token_of_after_scheme scheme t Hs).
    rewrite (token_of_after_scheme "Bearer" t); [done|].
    cbn. rewrite !not_elem_of_cons. repeat split; try done.
    apply not_elem_of_nil.
  - intros Ht Hne. rewrite (token_of_after_scheme scheme t Hs).
    rewrite (split_no_separator " " t Ht).
    by rewrite bool_decide_false.
Qed.

Lemma authenticateToken_ignores_scheme_witness :
  authenticateToken (Some "Basic tok123") provider retailers_by_user
    = Next ada ada_shop.
Proof.
  destruct (authenticateToken_ignores_scheme "Basic" "tok123" provider
              retailers_by_user) as [H _].
  - cbn. rewrite !not_elem_of_cons. repeat split; try done.
    apply not_elem_of_nil.
  - change ("Basic" +:+ String " " "tok123") with "Basic tok123" in H.
    rewrite H. vm_compute. reflexivity.
Defined.

(** X24. A request without [Authorization] header, or with a header that
    has no space in it, such as a bare token, is answered 401 by
    [authenticateToken] whatever the identity provider would have said
    of it, and goes on without user through [optionalAuth]. *)
Theorem bare_token_is_no_token (authorization : option string)
    (getUser : string → option UserReply)
    (retailer_of_user : string → Reply Retailer) :
  (∀ h, authorization = Some h → " "%char ∉ String.list_ascii_of_string h) →
  authenticateToken authorization getUser retailer_of_user =
    Refused (mkAnswer 401 false
      (Some "Access token is required. Please include Authorization header.")
      None)
  ∧ optionalAuth authorization getUser retailer_of_user = (None, None).
Proof.
  intros Hh.
  assert (token_of authorization = None) as Htok.
  { destruct authorization as [h|]; [|done]. unfold token_of.
    case_bool_decide; [done|].
    by rewrite (split_no_separator " " h (Hh h eq_refl)). }
  unfold authenticateToken, optionalAuth. by rewrite Htok.
Qed.

Lemma bare_token_is_no_token_witness :
  authenticateToken (Some "tok123") provider retailers_by_user =
    Refused (mkAnswer 401 false
      (Some "Access token is required. Please include Authorization header.")
      None)
  ∧ optionalAuth (Some "tok123") provider retailers_by_user = (None, None).
Proof.
  apply (bare_token_is_no_token (Some "tok123") provider retailers_by_user).
  intros h [= <-]. cbn. rewrite !not_elem_of_cons. repeat split; try done.
  apply not_elem_of_nil.
Defined.

(** X25. [authenticateToken] lets a request through only with a token
    for which the provider answered a user and no error, and with the
    retailer row found for the id of that user; [optionalAuth] then
    attaches the same user and retailer.  Every refusal has [success]
    false and status 401, 404 or 500. *)
Theorem authenticateToken_sound (authorization : option string)
    (getUser : string → option UserReply)
    (retailer_of_user : string → Reply Retailer) :
  match authenticateToken authorization getUser retailer_of_user with
  | Next user retailer =>
      (∃ token reply,
         token_of authorization = Some token
         ∧ getUser token = Some reply
         ∧ ur_user reply = Some user ∧ ur_error reply = None
         ∧ data (retailer_of_user (user_id user)) = Some retailer
         ∧ error (retailer_of_user (user_id user)) = None)
      ∧ optionalAuth authorization getUser retailer_of_user
          = (Some user, Some retailer)
  | Refused a =>
      a_success a = false ∧ a_data a = None
      ∧ (a_status a = 401 ∨ a_status a = 404 ∨ a_status a = 500)
  end.
Proof.
  unfold authenticateToken, optionalAuth.
  destruct (token_of authorization) as [token|]; [|cbn; by auto].
  destruct (getUser token) as [reply|] eqn:Hg; [|cbn; by auto].
  destruct (ur_error reply) eqn:He; [cbn; by auto|].
  destruct (ur_user reply) as [user|] eqn:Hu; [|cbn; by auto].
  destruct (error (retailer_of_user (user_id user))) eqn:Hre; [cbn; by auto|].
  destruct (data (retailer_of_user (user_id user))) as [rt|] eqn:Hrd;
    [|cbn; by auto].
  split; [|done]. by exists token, reply.
Qed.
(** ** The window of the two listings *)

Lemma horner_of_uint_acc (d : Decimal.uint) (acc : positive) :
  Z.pos (Pos.of_uint_acc d acc) = horner d (Z.pos acc).
Proof.
  revert acc. induction d; intros acc; cbn [Pos.of_uint_acc horner];
    [done|rewrite IHd; f_equal; lia..].
Qed.

Lemma horner_of_uint (d : Decimal.uint) : Z.of_uint d = horner d 0.
Proof.
  unfold Z.of_uint. induction d; cbn [Pos.of_uint horner Z.of_N];
    [done|exact IHd|apply horner_of_uint_acc..].
Qed.

Lemma horner_shift (d : Decimal.uint) (acc : Z) :
  horner d acc = acc * 10 ^ Z.of_nat (Decimal.nb_digits d) + horner d 0.
Proof.
  revert acc. induction d; intros acc; cbn [horner Decimal.nb_digits];
    [cbn; lia|rewrite Nat2Z.inj_succ, Z.pow_succ_r by lia;
              rewrite IHd; symmetry; rewrite IHd; lia..].
Qed.

Lemma horner_nonneg (d : Decimal.uint) : 0 ≤ horner d 0.
Proof. rewrite <- horner_of_uint. unfold Z.of_uint. lia. Qed.
Lemma length_string_of_uint (d : Decimal.uint) :
  String.length (DecimalString.NilEmpty.string_of_uint d) = Decimal.nb_digits d.
Proof. induction d; cbn; congruence. Qed.

Lemma uint_of_string_append (u d : Decimal.uint) :
  ∃ d', DecimalString.NilEmpty.uint_of_string
          (DecimalString.NilEmpty.string_of_uint u
           +:+ DecimalString.NilEmpty.string_of_uint d) = Some d'
        ∧ ∀ acc, horner d' acc = horner d (horner u acc).
Proof.
  induction u as [|u (d' & IH & Hv)|u (d' & IH & Hv)|u (d' & IH & Hv)
                  |u (d' & IH & Hv)|u (d' & IH & Hv)|u (d' & IH & Hv)
                  |u (d' & IH & Hv)|u (d' & IH & Hv)|u (d' & IH & Hv)
                  |u (d' & IH & Hv)];
    cbn [DecimalString.NilEmpty.string_of_uint].
  { exists d. split; [apply DecimalString.NilEmpty.usu|done]. }
  all: eexists; cbv [String.append] in *;
    cbn [DecimalString.NilEmpty.uint_of_string]; rewrite IH; cbn;
    (split; [done|]); intros acc; cbn [horner]; apply Hv.
Qed.

Lemma safe_integer_in (z : Z) :
  Z.abs z ≤ 2 ^ 53 → safe_integer z = Some z.
Proof. intros H. unfold safe_integer. by rewrite bool_decide_true. Qed.

Lemma ToNumber_digits (s : string) (n : Z) :
  digits s n → n ≤ 2 ^ 53 → ToNumber s = Some n.
Proof.
  intros (Hne & d & Hd & ->) Hn. unfold ToNumber.
  rewrite bool_decide_false by done.
  destruct s as [|a s]; [done|].
  unfold DecimalString.NilZero.int_of_string,
    DecimalString.NilZero.uint_of_string.
  destruct (Ascii.eqb_spec a "-") as [->|_].
  { cbn in Hd. by destruct (DecimalString.NilEmpty.uint_of_string s). }
  rewrite Hd. cbn [option_map mbind option_bind Z.of_int].
  apply safe_integer_in. rewrite horner_of_uint in *.
  pose proof (horner_nonneg d). lia.
Qed.

Lemma ToString_nonneg (n : Z) :
  0 ≤ n →
  ∃ u, ToString n = DecimalString.NilEmpty.string_of_uint u
       ∧ u ≠ Decimal.Nil ∧ horner u 0 = n.
Proof.
  intros Hn. unfold ToString.
  pose proof (DecimalZ.of_to n) as Hof.
  destruct n as [|p|p]; [by exists (Decimal.D0 Decimal.Nil)| |lia].
  cbn [Z.to_int] in *. exists (Pos.to_uint p).
  cbn [Z.of_int] in Hof. rewrite horner_of_uint in Hof.
  assert (Pos.to_uint p ≠ Decimal.Nil) as Hnil.
  { intros Hnil. rewrite Hnil in Hof. done. }
  split; [|done]. cbn [DecimalString.NilZero.string_of_int].
  unfold DecimalString.NilZero.string_of_uint.
  by destruct (Pos.to_uint p).
Qed.

Lemma ToNumber_joined (n : Z) (s : string) (m : Z) :
  0 ≤ n → digits s m →
  n * 10 ^ Z.of_nat (String.length s) + m ≤ 2 ^ 53 →
  ToNumber (ToString n +:+ s) =
    Some (n * 10 ^ Z.of_nat (String.length s) + m).
Proof.
  intros Hn (Hne & d & Hd & ->) Hle.
  destruct (ToString_nonneg n Hn) as (u & -> & Hu & Hval).
  apply DecimalString.NilEmpty.sus in Hd as Hs. subst s.
  destruct (uint_of_string_append u d) as (d' & Hd' & Hv).
  rewrite length_string_of_uint in *.
  rewrite horner_of_uint in *.
  assert (horner d' 0 = n * 10 ^ Z.of_nat (Decimal.nb_digits d) + horner d 0)
    as Hval'.
  { rewrite Hv, Hval. apply horner_shift. }
  rewrite <- Hval' in *.
  apply ToNumber_digits; [|done].
  split.
  - destruct u; try done; by cbv [String.append].
  - exists d'. split; [done|]. by rewrite horner_of_uint.
Qed.

(** X26. Without [limit] in the query string, the window of
    [getOrders] and [getProducts] for page [P] is the ten rows from
    [(P - 1) * 10]; without [page] either, the rows 0 to 9. *)
Theorem range_args_default_limit (page : string) (P : Z) :
  digits page P → P ≤ 2 ^ 49 →
  range_args (Some page) None = Some ((P - 1) * 10, (P - 1) * 10 + 9)
  ∧ range_args None None = Some (0, 9).
Proof.
  intros Hp Hle. split; [|done].
  change (2 ^ 49) with 562949953421312 in Hle.
  assert (2 ^ 53 = 9007199254740992) as H53 by reflexivity.
  assert (0 ≤ P) as Hpos.
  { destruct Hp as (_ & d & _ & ->). rewrite horner_of_uint.
    apply horner_nonneg. }
  unfold range_args. rewrite (ToNumber_digits page P Hp) by lia.
  cbn [mbind option_bind].
  rewrite (safe_integer_in ((P - 1) * 10)) by lia. cbn [mbind option_bind].
  rewrite (safe_integer_in ((P - 1) * 10 + 10)) by lia.
  cbn [mbind option_bind].
  rewrite (safe_integer_in ((P - 1) * 10 + 10 - 1)) by lia.
  cbn [mbind option_bind]. do 2 f_equal. lia.
Qed.

Lemma range_args_default_limit_witness :
  range_args (Some "3") None = Some (20, 29)
  ∧ range_args None None = Some (0, 9).
Proof.
  apply (range_args_default_limit "3" 3).
  - split; [done|]. by exists (Decimal.D3 Decimal.Nil).
  - lia.
Defined.

(** X27. With [limit] in the query string, the end of the window is
    not [offset + limit - 1]: the offset and the text of [limit] are
    joined before the subtraction.  For page 1 the window is still the
    first [limit] rows; for every later page it starts at
    [(P - 1) * L] and asks for at least nine rows more than [limit]. *)
Theorem range_args_limit_given (page limit : string) (P L : Z) :
  digits page P → digits limit L → 1 ≤ P → P ≤ 2 ^ 53 →
  (P - 1) * L * 10 ^ Z.of_nat (String.length limit) + L ≤ 2 ^ 53 →
  ∃ last,
    range_args (Some page) (Some limit) = Some ((P - 1) * L, last)
    ∧ last = (P - 1) * L * 10 ^ Z.of_nat (String.length limit) + L - 1
    ∧ (P = 1 → last = L - 1)
    ∧ (2 ≤ P → 1 ≤ L → L + 9 ≤ last - (P - 1) * L + 1).
Proof.
  intros Hp Hl HP HP' Hle.
  assert (2 ^ 53 = 9007199254740992) as H53 by reflexivity.
  assert (0 ≤ L) as HL.
  { destruct Hl as (_ & d & _ & ->). rewrite horner_of_uint.
    apply horner_nonneg. }
  assert (1 ≤ Z.of_nat (String.length limit)) as Hlen.
  { destruct Hl as (Hne & _). destruct limit; [done|]. cbn [String.length]. lia. }
  assert (10 ≤ 10 ^ Z.of_nat (String.length limit)) as Hpow.
  { change 10 with (10 ^ 1) at 1. apply Z.pow_le_mono_r; lia. }
  assert (0 ≤ (P - 1) * L) as Hoff by nia.
  assert ((P - 1) * L * 10 ≤ (P - 1) * L * 10 ^ Z.of_nat (String.length limit))
    as Hbig by (apply Z.mul_le_mono_nonneg_l; lia).
  eexists. split; [|split; [reflexivity|split]].
  - unfold range_args. rewrite (ToNumber_digits page P Hp) by lia.
    cbn [mbind option_bind].
    rewrite (ToNumber_digits limit L Hl) by lia.
    cbn [mbind option_bind].
    rewrite (safe_integer_in ((P - 1) * L)) by lia.
    cbn [mbind option_bind].
    rewrite (ToNumber_joined ((P - 1) * L) limit L Hoff Hl Hle).
    cbn [mbind option_bind].
    rewrite safe_integer_in by lia. done.
  - intros ->. lia.
  - intros HP2 HL1. assert (1 ≤ (P - 1) * L) by nia. lia.
Qed.

Lemma range_args_limit_given_witness :
  ∃ last, range_args (Some "2") (Some "10") = Some ((2 - 1) * 10, last)
          ∧ last = 1009.
Proof.
  destruct (range_args_limit_given "2" "10" 2 10) as (last & H & -> & _).
  - split; [done|]. by exists (Decimal.D2 Decimal.Nil).
  - split; [done|]. by exists (Decimal.D1 (Decimal.D0 Decimal.Nil)).
  - lia.
  - lia.
  - cbn. lia.
  - exists ((2 - 1) * 10 * 10 ^ Z.of_nat (String.length "10") + 10 - 1).
    split; [exact H|reflexivity].
Defined.

(** ** The public store *)

Lemma getPublicStore_run {Store} (store : Store)
    (order_by : list (string * Product) → list (string * Product))
    (retailerId : string) (w : World) :
  fault_at 0 w = None →
  (getPublicStore (ok store) order_by retailerId w).1 =
    Sent (mkAnswer 200 true None
            (Some (mkPublicStore store (public_listing order_by retailerId w)
                     (Z.of_nat (length (public_listing order_by retailerId w)))))).
Proof.
  intros Hf. unfold getPublicStore, select_public_products, send_unlisted.
  db_simpl. by rewrite Hf.
Qed.

Lemma public_listing_spec
    (order_by : list (string * Product) → list (string * Product))
    (retailerId : string) (w : World) (pp : PublicProduct) :
  (∀ l, order_by l ≡ₚ l) →
  pp ∈ public_listing order_by retailerId w ↔
    ∃ p, products w !! pub_id pp = Some p
         ∧ p_retailer_id p = retailerId ∧ p_is_active p = true ∧ 0 < p_stock p
         ∧ pp = public_of (pub_id pp, p).
Proof.
  intros Hperm. unfold public_listing. rewrite list_elem_of_fmap. split.
  - intros ([id p] & -> & Hin). rewrite (Hperm _) in Hin.
    apply list_elem_of_filter in Hin as [(Hown & Ha & Hs) Hin].
    apply elem_of_map_to_list in Hin. by exists p.
  - intros (p & Hp & Hown & Ha & Hs & Hpp). exists (pub_id pp, p).
    split; [done|]. rewrite (Hperm _). apply list_elem_of_filter.
    split; [done|]. by apply elem_of_map_to_list.
Qed.

(** X28. With its statement executed and the retailer row found, the
    public store answers 200 with a count equal to the number of
    products listed, and a product is listed exactly when it is a row of
    that retailer that is active and has stock left, with the columns of
    that row.  When the retailer row is not found the answer is 404,
    whatever the store answered for the products. *)
Theorem getPublicStore_spec {Store} (store : Store)
    (retailer_row : Reply Store)
    (order_by : list (string * Product) → list (string * Product))
    (retailerId : string) (w : World) :
  (∀ l, order_by l ≡ₚ l) →
  (fault_at 0 w = None → retailer_row = ok store →
   ∃ ps,
     (getPublicStore retailer_row order_by retailerId w).1 =
       Sent (mkAnswer 200 true None
               (Some (mkPublicStore store ps (Z.of_nat (length ps)))))
     ∧ ∀ pp, pp ∈ ps ↔
         ∃ p, products w !! pub_id pp = Some p
              ∧ p_retailer_id p = retailerId
              ∧ p_is_active p = true ∧ 0 < p_stock p
              ∧ pp = public_of (pub_id pp, p))
  ∧ (data retailer_row = None ∨ error retailer_row ≠ None →
     (getPublicStore retailer_row order_by retailerId w).1 =
       Sent (mkAnswer 404 false (Some "Store not found or not available")
               None))
  ∧ orders (getPublicStore retailer_row order_by retailerId w).2 = orders w
  ∧ products (getPublicStore retailer_row order_by retailerId w).2
      = products w.
Proof.
  intros Hperm. split; [|split].
  - intros Hf ->. exists (public_listing order_by retailerId w).
    split; [by apply getPublicStore_run|].
    intros pp. by apply public_listing_spec.
  - intros Hmiss. unfold getPublicStore, select_public_products, send_unlisted.
    db_simpl.
    destruct (fault_at 0 w); db_simpl;
      destruct (error retailer_row), (data retailer_row), Hmiss; done.
  - unfold getPublicStore, select_public_products, send_unlisted. db_simpl.
    destruct (fault_at 0 w); db_simpl;
      by destruct (error retailer_row), (data retailer_row).
Qed.

Lemma getPublicStore_spec_witness :
  ∃ ps,
    (getPublicStore (ok ada_shop) (λ l, l) "r1" shop2).1 =
      Sent (mkAnswer 200 true None
              (Some (mkPublicStore ada_shop ps (Z.of_nat (length ps))))).
Proof.
  destruct (getPublicStore_spec ada_shop (ok ada_shop) (λ l, l) "r1" shop2
              (λ l, reflexivity l)) as (H & _).
  destruct (H eq_refl eq_refl) as (ps & Hps & _).
  exists ps. exact Hps.
Defined.

(** X29. A product that an order has just emptied, or that its retailer
    has just deactivated, is no longer listed in the public store: with
    a store that executes every statement, after [createOrder] for the
    whole stock of a product, and after [toggleProductStatus] on an
    active product, no entry of the listing has the id of the product. *)
Theorem sold_out_or_deactivated_not_listed
    (order_by : list (string * Product) → list (string * Product))
    (w : World) (p : Product) (id : string) :
  (∀ l, order_by l ≡ₚ l) →
  faults w = [] →
  products w !! id = Some p →
  p_is_active p = true →
  (∀ req, product_id req = id → req_retailer req = p_retailer_id p →
     quantity req = p_stock p →
     orders w !! gen_random_uuid w = None →
     ∃ r, (createOrder req w).1 = Sent r ∧ status r = 201
          ∧ ∀ pp, pp ∈ public_listing order_by (p_retailer_id p)
                           (createOrder req w).2 → pub_id pp ≠ id)
  ∧ (∃ r, (toggleProductStatus (p_retailer_id p) id w).1 = Sent r
          ∧ status r = 200
          ∧ ∀ pp, pp ∈ public_listing order_by (p_retailer_id p)
                           (toggleProductStatus (p_retailer_id p) id w).2 →
                  pub_id pp ≠ id).
Proof.
  intros Hperm Hh Hp Ha. split.
  - intros req Hid Hr Hq Hfree. subst id.
    pose proof (createOrder_created req w p (fault_at_nil 0 w Hh)
                  (fault_at_nil 1 w Hh) (fault_at_nil 2 w Hh) Hp
                  (eq_sym Hr) Ha ltac:(lia) Hfree) as Hc.
    cbv zeta in Hc. rewrite Hc. eexists. split; [done|]. split; [done|].
    intros pp Hin Hpp.
    apply (public_listing_spec _ _ _ _ Hperm) in Hin
      as (q & Hq' & _ & _ & Hs & _).
    rewrite Hpp in Hq'. cbn [snd] in Hq'. world_simpl_in Hq'.
    rewrite lookup_alter_eq, Hp in Hq'. cbn in Hq'.
    injection Hq' as <-. cbn in Hs. lia.
  - unfold toggleProductStatus, select_product_active, update_product_active.
    db_simpl. rewrite (fault_at_nil 0 w Hh). db_simpl.
    rewrite Hp. rewrite bool_decide_true by done. db_simpl.
    rewrite fault_at_sent, (fault_at_nil 1 w Hh). db_simpl.
    rewrite Hp. rewrite bool_decide_true by done. db_simpl.
    eexists. split; [done|]. split; [done|].
    intros pp Hin Hpp.
    apply (public_listing_spec _ _ _ _ Hperm) in Hin
      as (q & Hq' & _ & Hact & _).
    rewrite Hpp in Hq'. cbn [snd] in Hq'. world_simpl_in Hq'.
    rewrite lookup_insert_eq in Hq'. injection Hq' as <-.
    rewrite Ha in Hact. done.
Qed.

Lemma sold_out_or_deactivated_not_listed_witness :
  ∃ r, (toggleProductStatus "r1" "p1" shop1).1 = Sent r
       ∧ status r = 200
       ∧ ∀ pp, pp ∈ public_listing (λ l, l) "r1"
                        (toggleProductStatus "r1" "p1" shop1).2 →
               pub_id pp ≠ "p1".
Proof.
  destruct (sold_out_or_deactivated_not_listed (λ l, l) shop1 mug "p1"
              (λ l, reflexivity l) eq_refl eq_refl eq_refl) as (_ & H).
  exact H.
Defined.
